(** * The training orchestrator of train.py, embedded and verified

    The development follows [src/train.py]: the [Trainer] class
    ([save_checkpoint], [load_checkpoint], [_train_mlp_submodules],
    [train]) and [main].

    Conventions of the embedding.
    - Python numbers (ints that are divided, floats, the results of
      [.item()]) are rationals [Q]: real arithmetic, no rounding.  A
      division by zero raises [ZeroDivisionError], as in Python.
    - Tensors carry an abstract numeric content, which has a shape, and
      the device they live on.  What torch computes on them (the forward
      pass, the loss functions, autograd, Adam) and which devices the
      machine has are parameters of the development, the class [Torch];
      the control flow around those calls is the code's.  Moving a tensor
      with [.to(device)] always succeeds: the trainer's own device is one
      the machine has, as [main] picks it.
    - A Python object mutated in place (the trainer, the model, the
      optimizer, the files on disk, the calls made to wandb and torch) is
      a field of the state [World], threaded through a state-and-exception
      monad.  An exception carries the state at the moment it is raised.
*)

From Stdlib Require Import ZArith QArith Qminmax Lia.
From stdpp Require Import base strings gmap list pretty.

Open Scope Z_scope.

(** ** Exceptions and fallible values *)

Inductive Exn : Type :=
| ValueError (msg : string)
| ZeroDivisionError
| FileNotFoundError (path : string)
| RuntimeError (msg : string).

(** A pure computation that may raise. *)
Definition Result (A : Type) : Type := Exn + A.

Definition Ok {A : Type} (a : A) : Result A := inr a.
Definition Err {A : Type} (e : Exn) : Result A := inl e.

Definition rbind {A B : Type} (r : Result A) (k : A → Result B) : Result B :=
  match r with
  | inl e => inl e
  | inr a => k a
  end.

(** ** Python arithmetic used by the trainer *)

Module Py.

(** [a / b] on two ints (true division). *)
Definition truediv (a b : Z) : Result Q :=
  if decide (b = 0) then Err ZeroDivisionError
  else Ok (inject_Z a / inject_Z b)%Q.

(** [x / n] with [x] a float (or the int [0]) and [n] an int. *)
Definition truediv_q (x : Q) (n : Z) : Result Q :=
  if decide (n = 0) then Err ZeroDivisionError
  else Ok (x / inject_Z n)%Q.

(** [min(a, b)]: the first argument, unless the second is strictly
    smaller. *)
Definition min (a b : Q) : Q :=
  if Qlt_le_dec b a then b else a.

(** [range(a, b)]. *)
Definition range (a b : Z) : list Z := seqZ a (b - a).

(** [sub in s] on strings. *)
Fixpoint contains (sub s : string) : bool :=
  String.prefix sub s ||
  match s with
  | EmptyString => false
  | String _ s' => contains sub s'
  end.

(** [str(n)] of an int, as an f-string formats it. *)
Definition str (n : Z) : string := pretty n.

End Py.

(** [adv_loss_multiplier = min(1, adv_iter / self.hyperparams.adv_grad_iter)]
    (train.py, line 100). *)
Definition adv_loss_multiplier (adv_iter adv_grad_iter : Z) : Result Q :=
  rbind (Py.truediv adv_iter adv_grad_iter) (λ q, Ok (Py.min 1 q)).

(** ** Tensors, model, optimizer *)

(** The carriers torch works on: the numeric content of a tensor with
    its shape ([t.shape]), a zero-dimensional tensor holding a loss, and
    the gradients autograd leaves on the parameters. *)
Class Numerics : Type := {
  Data : Type;
  shape : Data → list Z;
  Scalar : Type;
  Grads : Type
}.

Definition Device : Type := string.

Section DataModel.
Context `{Numerics}.

Record Tensor : Type := mkTensor {
  t_data : Data;
  t_device : Device
}.

(** [t.to(device)]. *)
Definition to (d : Device) (t : Tensor) : Tensor :=
  {| t_data := t_data t; t_device := d |}.

(** A batch as [collate_fn] yields it: (cqt, leitmotif_gt, singing_gt,
    version_gt). *)
Record Batch : Type := mkBatch {
  b_cqt : Tensor;
  b_leitmotif_gt : Tensor;
  b_singing_gt : Tensor;
  b_version_gt : Tensor
}.

(** Modelled from the spec: modules.py (RNNModel, CNNModel) is not under
    src/.  A model is its named parameters, the train/eval mode of
    [torch.nn.Module], and whether its backbone is frozen
    ([freeze_backbone] / [unfreeze_backbone] toggle whether gradients
    flow into the backbone parameters; membership of the parameters
    never changes). *)
Record Model : Type := mkModel {
  m_params : list (string * Tensor);
  m_training : bool;
  m_backbone_frozen : bool
}.

(** [model.train()] and [model.eval()]. *)
Definition model_train (m : Model) : Model :=
  {| m_params := m_params m; m_training := true;
     m_backbone_frozen := m_backbone_frozen m |}.

Definition model_eval (m : Model) : Model :=
  {| m_params := m_params m; m_training := false;
     m_backbone_frozen := m_backbone_frozen m |}.

(** Modelled from the spec: [model.freeze_backbone()] of modules.py; no
    gradients flow into the backbone parameters afterwards. *)
Definition freeze_backbone (m : Model) : Model :=
  {| m_params := m_params m; m_training := m_training m;
     m_backbone_frozen := true |}.

(** Modelled from the spec: [model.unfreeze_backbone()] of modules.py;
    the backbone parameters are trainable again. *)
Definition unfreeze_backbone (m : Model) : Model :=
  {| m_params := m_params m; m_training := m_training m;
     m_backbone_frozen := false |}.

Definition set_params (ps : list (string * Tensor)) (m : Model) : Model :=
  {| m_params := ps; m_training := m_training m;
     m_backbone_frozen := m_backbone_frozen m |}.

(** [model.to(device)]. *)
Definition model_to (d : Device) (m : Model) : Model :=
  set_params (prod_map id (to d) <$> m_params m) m.

(** [model.state_dict()]. *)
Definition state_dict (m : Model) : list (string * Tensor) := m_params m.

(** [param.copy_(input)]: the parameter takes the content of [input] and
    stays on its device. *)
Definition copy_ (param input : Tensor) : Tensor :=
  {| t_data := t_data input; t_device := t_device param |}.

(** A parameter of the module against the entries of a state dict: its
    key is among them and the shapes agree. *)
Definition fits (entries : gmap string Tensor) (p : string * Tensor) : bool :=
  match entries !! p.1 with
  | Some input => bool_decide (shape (t_data input) = shape (t_data p.2))
  | None => false
  end.

(** What [load_state_dict] does to one parameter: the entry under its
    name is copied into it when the shapes agree; a parameter without an
    entry, or with an entry of another shape, is left as it is. *)
Definition load_param (entries : gmap string Tensor) (p : string * Tensor)
  : string * Tensor :=
  match entries !! p.1 with
  | Some input => if fits entries p then (p.1, copy_ p.2 input) else p
  | None => p
  end.

(** [model.load_state_dict(sd)], strict: the model as the call leaves
    it, and the exception it raises, if any.  Entries are matched to
    parameters by name, in whatever order [sd] lists them.  torch first
    goes through the parameters of the module, copying every entry that
    fits and noting missing keys and shape mismatches, then notes the
    keys of [sd] that name no parameter, and only then raises
    [RuntimeError] if it has noted anything: the copies are made by then.
    (The text of the error, which lists the keys, is cut short here.) *)
Definition load_state_dict (sd : list (string * Tensor)) (m : Model)
  : Model * option Exn :=
  let entries : gmap string Tensor := list_to_map sd in
  let missing_or_mismatched := negb (forallb (fits entries) (m_params m)) in
  let unexpected :=
    negb (forallb (λ k, bool_decide (k ∈ (m_params m).*1)) sd.*1) in
  (set_params (load_param entries <$> m_params m) m,
   if missing_or_mismatched || unexpected
   then Some (RuntimeError "Error(s) in loading state_dict")
   else None).

(** [model.named_parameters()]: a parameter object is identified by its
    position in the model. *)
Definition named_parameters (m : Model) : list (string * nat) :=
  imap (λ i p, (p.1, i)) (m_params m).

(** A value of the optimizer's per-parameter state. *)
Inductive OptVal : Type :=
| VTensor (t : Tensor)
| VNumber (q : Q).

Record ParamGroup : Type := mkGroup {
  pg_params : list nat;
  pg_lr : Q
}.

Record Optimizer : Type := mkOptimizer {
  param_groups : list ParamGroup;
  opt_state : gmap nat (gmap string OptVal)
}.

(** [torch.optim.Adam(groups)]. *)
Definition Adam (groups : list ParamGroup) : Optimizer :=
  {| param_groups := groups; opt_state := ∅ |}.

(** [optimizer.load_state_dict(sd)]: the groups must have the shape of
    the optimizer's own; the hyperparameters of the groups and the state
    are taken from [sd], the parameters stay the optimizer's. *)
Definition opt_load_state_dict (sd : Optimizer) (o : Optimizer)
  : Result Optimizer :=
  if decide (length (param_groups sd) = length (param_groups o)) then
    if decide ((length ∘ pg_params) <$> param_groups sd
               = (length ∘ pg_params) <$> param_groups o) then
      Ok {| param_groups :=
              zip_with (λ g s, {| pg_params := pg_params g; pg_lr := pg_lr s |})
                       (param_groups o) (param_groups sd);
            opt_state := opt_state sd |}
    else Err (ValueError "loaded state dict contains a parameter group that doesn't match the size of optimizer's group")
  else Err (ValueError "loaded state dict has a different number of parameter groups").

(** The loop of [load_checkpoint] (lines 41-44) on one value: a tensor
    is moved to the device, anything else is left alone. *)
Definition migrate (d : Device) (v : OptVal) : OptVal :=
  match v with
  | VTensor t => VTensor (to d t)
  | VNumber q => VNumber q
  end.

Record Checkpoint : Type := mkCheckpoint {
  ck_epoch : Z;
  ck_model : list (string * Tensor);
  ck_optimizer : Optimizer
}.

(** The calls the trainer makes on its collaborators, in order. *)
Inductive Call : Type :=
| WandbInit (project name : string)
| WandbLog (entries : list (string * Q)) (step : option Z)
| WandbFinish
| Mkdir (dir : string)
| TorchSave (path : string) (ckpt : Checkpoint)
| TorchLoad (path : string)
| ZeroGrad
| Backward (loss : Scalar)
| ClipGradNorm (max_norm : Q)
| OptimizerStep.

End DataModel.

(** ** Configuration *)

(** [config.cfg]. *)
Record Cfg : Type := mkCfg {
  cfg_model : string;
  cfg_run_name : string;
  cfg_split : string;
  cfg_random_seed : Z;
  cfg_log_to_wandb : bool;
  cfg_load_checkpoint : string;
  cfg_train_singing : bool
}.

(** [config.hyperparams]; [mlp_hidden_size] is an int or the string
    ['default'] ([None] here). *)
Record Hyperparams : Type := mkHyperparams {
  hp_num_epochs : Z;
  hp_lr : Q;
  hp_train_adv : bool;
  hp_adv_grad_iter : Z;
  hp_adv_lr_multiplier : Q;
  hp_adv_grad_multiplier : Q;
  hp_mixup_prob : Q;
  hp_mixup_alpha : Q;
  hp_hidden_size : Z;
  hp_num_layers : Z;
  hp_mlp_hidden_size : option Z
}.

Section TrainerState.
Context `{Numerics}.

(** A [DataLoader]: [len(loader)] batches per pass; what a pass yields
    may depend on the dataset's mixup switch and on how many passes were
    drawn before (shuffling, augmentation). *)
Record DataLoader : Type := mkLoader {
  dl_len : nat;
  dl_batch : bool → nat → nat → Batch
}.

(** The fields of [Trainer] that [__init__] sets and nothing rebinds. *)
Record Trainer : Type := mkTrainer {
  train_loader : DataLoader;
  valid_loader : DataLoader;
  device : Device;
  cfg : Cfg;
  hyperparams : Hyperparams
}.

(** Everything the trainer mutates: its model and optimizer (with the
    gradients held on the parameters), the mixup switch of its dataset,
    [self.cur_epoch], the checkpoint files on disk, the calls made so
    far, and the number of loader passes drawn so far. *)
Record World : Type := mkWorld {
  model : Model;
  optimizer : Optimizer;
  grads : option Grads;
  mixup : bool;
  cur_epoch : Z;
  files : gmap string Checkpoint;
  calls : list Call;
  passes : nat
}.

Definition set_model (f : Model → Model) (w : World) : World :=
  {| model := f (model w); optimizer := optimizer w; grads := grads w;
     mixup := mixup w; cur_epoch := cur_epoch w; files := files w;
     calls := calls w; passes := passes w |}.

Definition set_optimizer (f : Optimizer → Optimizer) (w : World) : World :=
  {| model := model w; optimizer := f (optimizer w); grads := grads w;
     mixup := mixup w; cur_epoch := cur_epoch w; files := files w;
     calls := calls w; passes := passes w |}.

Definition set_grads (g : option Grads) (w : World) : World :=
  {| model := model w; optimizer := optimizer w; grads := g;
     mixup := mixup w; cur_epoch := cur_epoch w; files := files w;
     calls := calls w; passes := passes w |}.

(** Modelled from the spec: [dataset.enable_mixup()] and
    [dataset.disable_mixup()] of dataset.py set the switch that the
    iterations after them read. *)
Definition set_mixup (b : bool) (w : World) : World :=
  {| model := model w; optimizer := optimizer w; grads := grads w;
     mixup := b; cur_epoch := cur_epoch w; files := files w;
     calls := calls w; passes := passes w |}.

Definition set_cur_epoch (e : Z) (w : World) : World :=
  {| model := model w; optimizer := optimizer w; grads := grads w;
     mixup := mixup w; cur_epoch := e; files := files w;
     calls := calls w; passes := passes w |}.

Definition set_files (f : gmap string Checkpoint → gmap string Checkpoint)
    (w : World) : World :=
  {| model := model w; optimizer := optimizer w; grads := grads w;
     mixup := mixup w; cur_epoch := cur_epoch w; files := f (files w);
     calls := calls w; passes := passes w |}.

Definition add_call (c : Call) (w : World) : World :=
  {| model := model w; optimizer := optimizer w; grads := grads w;
     mixup := mixup w; cur_epoch := cur_epoch w; files := files w;
     calls := calls w ++ [c]; passes := passes w |}.

Definition next_pass (w : World) : World :=
  {| model := model w; optimizer := optimizer w; grads := grads w;
     mixup := mixup w; cur_epoch := cur_epoch w; files := files w;
     calls := calls w; passes := S (passes w) |}.

(** *** The monad of the trainer's methods *)

Inductive Outcome (A : Type) : Type :=
| Normal (a : A) (w : World)
| Raised (e : Exn) (w : World).
Global Arguments Normal {A} a w.
Global Arguments Raised {A} e w.

(** The state a run is left in, however it ended. *)
Definition final {A : Type} (o : Outcome A) : World :=
  match o with
  | Normal _ w => w
  | Raised _ w => w
  end.

Definition returned {A : Type} (o : Outcome A) : Prop :=
  match o with
  | Normal _ _ => True
  | Raised _ _ => False
  end.

Definition M (A : Type) : Type := World → Outcome A.

Global Instance M_ret : MRet M := λ A a w, Normal a w.

Global Instance M_bind : MBind M := λ A B k m w,
  match m w with
  | Normal a w' => k a w'
  | Raised e w' => Raised e w'
  end.

Definition get : M World := λ w, Normal w w.
Definition modify (f : World → World) : M unit := λ w, Normal tt (f w).
Definition raise {A : Type} (e : Exn) : M A := λ w, Raised e w.
Definition call (c : Call) : M unit := modify (add_call c).

(** A pure fallible computation, run inside the monad. *)
Definition lift {A : Type} (r : Result A) : M A :=
  match r with
  | inl e => raise e
  | inr a => mret a
  end.

Definition when (b : bool) (m : M unit) : M unit :=
  if b then m else mret tt.

(** [for x in xs: acc = body(acc, x)]. *)
Fixpoint for_each {A B : Type} (xs : list A) (body : B → A → M B) (acc : B)
  : M B :=
  match xs with
  | [] => mret acc
  | x :: xs' => acc' ← body acc x; for_each xs' body acc'
  end.

(** One pass over a loader. *)
Definition batches_of (dl : DataLoader) (w : World) : list Batch :=
  dl_batch dl (mixup w) (passes w) <$> seq 0 (dl_len dl).

Definition iterate (dl : DataLoader) : M (list Batch) :=
  w ← get; modify next_pass;; mret (batches_of dl w).

(** [len(loader)]. *)
Definition len (dl : DataLoader) : Z := Z.of_nat (dl_len dl).

(** *** What torch and the metric helpers compute

    [forward] is [self.model(cqt)]; [bce] and [ce] are [torch.nn.BCELoss()]
    and [torch.nn.CrossEntropyLoss()], which raise on mismatched shapes;
    [permute_0_2_1] is [t.permute(0, 2, 1)]; [sadd] and [smul] are [+]
    and [*] on zero-dimensional tensors; [item] is [.item()];
    [autograd] is what [loss.backward()] adds to the gradients;
    [clip_grad_norm_] and [adam_step] are torch's;
    [device_available] tells whether the machine has a device
    ([torch.cuda.is_available()] is its answer for ["cuda"]);
    [get_binary_f1] and [get_multiclass_acc] are the helpers of
    data_utils.py. *)
Class Torch : Type := {
  device_available : Device → bool;
  forward : Model → Tensor → Result (Tensor * Tensor * Tensor);
  bce : Tensor → Tensor → Result Scalar;
  ce : Tensor → Tensor → Result Scalar;
  permute_0_2_1 : Tensor → Tensor;
  sadd : Scalar → Scalar → Scalar;
  smul : Q → Scalar → Scalar;
  item : Scalar → Q;
  autograd : Model → Batch → Scalar → option Grads → Grads;
  clip_grad_norm_ : Q → Grads → Grads;
  adam_step : Optimizer → list (string * Tensor) → option Grads
              → Optimizer * list (string * Tensor);
  get_binary_f1 : Tensor → Tensor → Q → Q * Q * Q;
  get_multiclass_acc : Tensor → Tensor → Q
}.

End TrainerState.

(** ** The methods of [Trainer] *)

Section TrainerMethods.
Context `{Torch}.

(** The directory and the file [save_checkpoint] writes to:
    [Path(f"checkpoints/{cfg.model}")] and
    [ckpt_dir / f"{cfg.run_name}_epoch{cur_epoch}.pt"], for a model and a
    run name that pathlib joins as they are. *)
Definition ckpt_dir (c : Cfg) : string := "checkpoints/" +:+ cfg_model c.

Definition ckpt_path (c : Cfg) (epoch : Z) : string :=
  ckpt_dir c +:+ "/" +:+ cfg_run_name c +:+ "_epoch" +:+ Py.str epoch +:+ ".pt".

(** The dict [save_checkpoint] builds (lines 27-31). *)
Definition snapshot (w : World) : Checkpoint :=
  {| ck_epoch := cur_epoch w;
     ck_model := state_dict (model w);
     ck_optimizer := optimizer w |}.

(** [Trainer.save_checkpoint] (lines 26-34). *)
Definition save_checkpoint (self : Trainer) : M unit :=
  w ← get;
  let ckpt := snapshot w in
  call (Mkdir (ckpt_dir (cfg self)));;
  let path := ckpt_path (cfg self) (cur_epoch w) in
  modify (set_files (insert path ckpt));;
  call (TorchSave path ckpt).

(** A value of the optimizer state can be put back where it was saved
    from: a tensor needs its device. *)
Definition val_restorable (v : OptVal) : bool :=
  match v with
  | VTensor t => device_available (t_device t)
  | VNumber _ => true
  end.

(** Every tensor of the checkpoint, in the model's state dict and in the
    optimizer state, was saved from a device that this machine has. *)
Definition restorable (ckpt : Checkpoint) : bool :=
  forallb (λ p : string * Tensor, device_available (t_device p.2))
          (ck_model ckpt)
  && bool_decide
       (map_Forall (λ (_ : nat) (st : gmap string OptVal),
          map_Forall (λ (_ : string) v, val_restorable v = true) st)
          (opt_state (ck_optimizer ckpt))).

(** [torch.load(path)], called without [map_location]: every tensor is
    restored onto the device it was saved from, and the call raises when
    the machine does not have that device (a checkpoint written on a
    GPU, read where [torch.cuda.is_available()] is false). *)
Definition torch_load (path : string) : M Checkpoint :=
  call (TorchLoad path);;
  w ← get;
  match files w !! path with
  | Some ckpt =>
      if restorable ckpt then mret ckpt
      else raise (RuntimeError "Attempting to deserialize object on a CUDA device but torch.cuda.is_available() is False")
  | None => raise (FileNotFoundError path)
  end.

(** Lines 41-44: every value of every per-parameter state goes through
    [migrate]; the keys stay. *)
Definition migrate_state (d : Device) (o : Optimizer) : Optimizer :=
  {| param_groups := param_groups o;
     opt_state := (λ state : gmap string OptVal, migrate d <$> state)
                    <$> opt_state o |}.

(** [Trainer.load_checkpoint] (lines 36-44). *)
Definition load_checkpoint (self : Trainer) : M unit :=
  ckpt ← torch_load (cfg_load_checkpoint (cfg self));
  modify (set_cur_epoch (ck_epoch ckpt));;
  w ← get;
  let loading := load_state_dict (ck_model ckpt) (model w) in
  modify (set_model (λ _, loading.1));;
  match loading.2 with
  | Some e => raise e
  | None => mret tt
  end;;
  o ← lift (opt_load_state_dict (ck_optimizer ckpt) (optimizer w));
  modify (set_optimizer (λ _, o));;
  modify (set_optimizer (migrate_state (device self))).

(** Lines 62-65 and 106-109: [optimizer.zero_grad()], [loss.backward()],
    [clip_grad_norm_(self.model.parameters(), 1)], [optimizer.step()]. *)
Definition backprop_and_step (batch : Batch) (loss : Scalar) : M unit :=
  modify (set_grads None);;
  call ZeroGrad;;
  modify (λ w, set_grads (Some (autograd (model w) batch loss (grads w))) w);;
  call (Backward loss);;
  modify (λ w, set_grads (clip_grad_norm_ 1 <$> grads w) w);;
  call (ClipGradNorm 1);;
  modify (λ w,
    let '(o, ps) := adam_step (optimizer w) (m_params (model w)) (grads w) in
    set_optimizer (λ _, o) (set_model (set_params ps) w));;
  call OptimizerStep.

(** The body of the inner loop of [_train_mlp_submodules]
    (lines 52-65). *)
Definition mlp_step (self : Trainer) (train_singing : bool)
    (_ : unit) (batch : Batch) : M unit :=
  let cqt := to (device self) (b_cqt batch) in
  let singing_gt := to (device self) (b_singing_gt batch) in
  let version_gt := to (device self) (b_version_gt batch) in
  w ← get;
  '(_, singing_pred, version_pred) ← lift (forward (model w) cqt);
  let version_pred := permute_0_2_1 version_pred in
  loss ← lift (ce version_pred version_gt);
  loss ← (if train_singing then
            singing_loss ← lift (bce singing_pred singing_gt);
            mret (sadd loss singing_loss)
          else mret loss);
  backprop_and_step batch loss.

(** [Trainer._train_mlp_submodules] (lines 46-66). *)
Definition _train_mlp_submodules (self : Trainer)
    (num_epochs : Z) (train_singing : bool) : M unit :=
  modify (set_model model_train);;
  modify (set_model freeze_backbone);;
  modify (set_mixup true);;
  for_each (Py.range 0 num_epochs) (λ _ epoch,
    batches ← iterate (train_loader self);
    for_each batches (mlp_step self train_singing) tt) tt;;
  modify (set_model unfreeze_backbone).

(** The two counters local to [train]. *)
Record Counters : Type := mkCounters {
  num_iter : Z;
  adv_iter : Z
}.

(** What the adversarial branch leaves in the local variables
    [version_pred], [version_loss] and [singing_loss] for the logging
    below it.  [adv_loss = version_loss] binds both names to one tensor
    and [adv_loss += singing_loss] adds in place, so [version_loss] is
    the sum afterwards. *)
Record AdvLocals : Type := mkAdvLocals {
  a_version_pred : Tensor;
  a_version_loss : Scalar;
  a_singing_loss : option Scalar
}.

(** Lines 90-104, the branch [if self.hyperparams.train_adv]: from the
    primary loss to the total loss, the locals and the new counter. *)
Definition adversarial (self : Trainer) (ctr : Counters)
    (leitmotif_loss : Scalar) (singing_pred version_pred : Tensor)
    (singing_gt version_gt : Tensor) : M (Scalar * AdvLocals * Z) :=
  let version_pred := permute_0_2_1 version_pred in
  version_loss ← lift (ce version_pred version_gt);
  '(adv_loss, singing_loss) ←
    (if cfg_train_singing (cfg self) then
       singing_loss ← lift (bce singing_pred singing_gt);
       mret (sadd version_loss singing_loss, Some singing_loss)
     else mret (version_loss, None));
  mult ←
    lift (adv_loss_multiplier (adv_iter ctr)
                              (hp_adv_grad_iter (hyperparams self)));
  let loss := sadd leitmotif_loss (smul mult adv_loss) in
  when (cfg_log_to_wandb (cfg self))
    (call (WandbLog [("adv/loss_multiplier", mult)] (Some (num_iter ctr))));;
  mret (loss,
        {| a_version_pred := version_pred; a_version_loss := adv_loss;
           a_singing_loss := singing_loss |},
        adv_iter ctr + 1).

(** Lines 111-120, the logging of one training step.  [loss] is the
    tensor [leitmotif_loss] itself ([loss = leitmotif_loss], then
    [loss += ...] in place), so both [.item()] calls read the total. *)
Definition log_train_step (self : Trainer) (ctr : Counters)
    (leitmotif_pred leitmotif_gt singing_pred singing_gt version_gt : Tensor)
    (loss : Scalar) (adv : option AdvLocals) : M unit :=
  let '(f1, precision, recall) :=
    get_binary_f1 leitmotif_pred leitmotif_gt (1 # 2) in
  call (WandbLog [("train/loss", item loss); ("train/precision", precision);
                  ("train/recall", recall); ("train/f1", f1)]
                 (Some (num_iter ctr)));;
  call (WandbLog [("train/total_loss", item loss)] (Some (num_iter ctr)));;
  match adv with
  | Some a =>
      call (WandbLog [("adv/version_loss", item (a_version_loss a))]
                     (Some (num_iter ctr)));;
      call (WandbLog [("adv/version_acc",
                       get_multiclass_acc (a_version_pred a) version_gt)]
                     (Some (num_iter ctr)));;
      match a_singing_loss a with
      | Some singing_loss =>
          let '(f1, _, _) := get_binary_f1 singing_pred singing_gt (1 # 2) in
          call (WandbLog [("adv/singing_loss", item singing_loss);
                          ("adv/singing_train_f1", f1)]
                         (Some (num_iter ctr)))
      | None => mret tt
      end
  | None => mret tt
  end.

(** The body of the training loop of [train] (lines 81-121). *)
Definition train_step (self : Trainer) (ctr : Counters) (batch : Batch)
  : M Counters :=
  let cqt := to (device self) (b_cqt batch) in
  let leitmotif_gt := to (device self) (b_leitmotif_gt batch) in
  let singing_gt := to (device self) (b_singing_gt batch) in
  let version_gt := to (device self) (b_version_gt batch) in
  w ← get;
  '(leitmotif_pred, singing_pred, version_pred) ← lift (forward (model w) cqt);
  leitmotif_loss ← lift (bce leitmotif_pred leitmotif_gt);
  '(loss, adv, adv_iter') ←
    (if hp_train_adv (hyperparams self) then
       '(loss, a, n) ← adversarial self ctr leitmotif_loss
                          singing_pred version_pred singing_gt version_gt;
       mret (loss, Some a, n)
     else mret (leitmotif_loss, None, adv_iter ctr));
  backprop_and_step batch loss;;
  when (cfg_log_to_wandb (cfg self))
    (log_train_step self ctr leitmotif_pred leitmotif_gt
                    singing_pred singing_gt version_gt loss adv);;
  mret {| num_iter := num_iter ctr + 1; adv_iter := adv_iter' |}.

(** The running sums of the validation loop. *)
Record Totals : Type := mkTotals {
  total_loss : Q;
  total_precision : Q;
  total_recall : Q;
  total_f1 : Q
}.

(** The body of the validation loop (lines 131-143). *)
Definition valid_step (self : Trainer) (tot : Totals) (batch : Batch)
  : M Totals :=
  let cqt := to (device self) (b_cqt batch) in
  let leitmotif_gt := to (device self) (b_leitmotif_gt batch) in
  w ← get;
  '(leitmotif_pred, _, _) ← lift (forward (model w) cqt);
  leitmotif_loss ← lift (bce leitmotif_pred leitmotif_gt);
  let total_loss' := (total_loss tot + item leitmotif_loss)%Q in
  if cfg_log_to_wandb (cfg self) then
    let '(f1, precision, recall) :=
      get_binary_f1 leitmotif_pred leitmotif_gt (1 # 2) in
    mret {| total_loss := total_loss';
            total_precision := (total_precision tot + precision)%Q;
            total_recall := (total_recall tot + recall)%Q;
            total_f1 := (total_f1 tot + f1)%Q |}
  else
    mret {| total_loss := total_loss';
            total_precision := total_precision tot;
            total_recall := total_recall tot;
            total_f1 := total_f1 tot |}.

(** Lines 145-150: the per-epoch means, when logging is on. *)
Definition log_validation (self : Trainer) (tot : Totals) : M unit :=
  let n := len (valid_loader self) in
  avg_loss ← lift (Py.truediv_q (total_loss tot) n);
  avg_precision ← lift (Py.truediv_q (total_precision tot) n);
  avg_recall ← lift (Py.truediv_q (total_recall tot) n);
  avg_f1 ← lift (Py.truediv_q (total_f1 tot) n);
  call (WandbLog [("valid/loss", avg_loss); ("valid/precision", avg_precision);
                  ("valid/recall", avg_recall); ("valid/f1", avg_f1)] None).

(** The validation phase of one epoch (lines 123-150).  The counters of
    [train] are in scope and are handed through. *)
Definition validation_phase (self : Trainer) (ctr : Counters) : M Counters :=
  modify (set_model model_eval);;
  modify (set_mixup false);;
  batches ← iterate (valid_loader self);
  tot ← for_each batches (valid_step self)
          {| total_loss := 0; total_precision := 0;
             total_recall := 0; total_f1 := 0 |};
  when (cfg_log_to_wandb (cfg self)) (log_validation self tot);;
  mret ctr.

(** The training phase of one epoch (lines 76-121). *)
Definition train_phase (self : Trainer) (ctr : Counters) (epoch : Z)
  : M Counters :=
  modify (set_cur_epoch epoch);;
  modify (set_model model_train);;
  modify (set_mixup true);;
  batches ← iterate (train_loader self);
  for_each batches (train_step self) ctr.

(** The body of the epoch loop (lines 76-152). *)
Definition epoch_body (self : Trainer) (ctr : Counters) (epoch : Z)
  : M Counters :=
  ctr ← train_phase self ctr epoch;
  ctr ← validation_phase self ctr;
  save_checkpoint self;;
  mret ctr.

(** [Trainer.train] (lines 68-155); it returns nothing, the final
    counters are handed out for the statements below. *)
Definition train (self : Trainer) : M Counters :=
  when (cfg_log_to_wandb (cfg self))
    (call (WandbInit "ring-leitmotif" (cfg_run_name (cfg self))));;
  modify (set_model (model_to (device self)));;
  w ← get;
  ctr ← for_each (Py.range (cur_epoch w) (hp_num_epochs (hyperparams self)))
          (epoch_body self) {| num_iter := 0; adv_iter := 0 |};
  when (cfg_log_to_wandb (cfg self)) (call WandbFinish);;
  mret ctr.

End TrainerMethods.

(** ** [main] *)

(** [[param for name, param in named if 'mlp' in name]] and its
    complement (lines 203-204). *)
Definition mlp_params {P : Type} (named : list (string * P)) : list P :=
  (filter (λ np, Py.contains "mlp" np.1) named).*2.

Definition backbone_params {P : Type} (named : list (string * P)) : list P :=
  (filter (λ np, ¬ Py.contains "mlp" np.1) named).*2.

(** The two values of [cfg.split] that [main] accepts. *)
Inductive Split : Type := ByVersion | ByAct.

Section Main.
Context `{Torch}.

(** [torch.cuda.is_available()]. *)
Definition cuda_is_available : bool := device_available "cuda".

(** What [main] asks of the modules that are not under src/: the loaders
    torch builds over the subsets of the dataset that the split selects
    (dataset.py, constants.py), the mixup switch of a fresh dataset, and
    the constructors of the two models (modules.py). *)
Class Host : Type := {
  make_train_loader : Split → Hyperparams → Z → Device → DataLoader;
  make_valid_loader : Split → Hyperparams → Device → DataLoader;
  fresh_mixup : bool;
  RNNModel : Z → option Z → Z → Q → Model;
  CNNModel : option Z → Q → Model
}.
Context `{Host}.

(** Lines 170-177. *)
Definition select_split (c : Cfg) : Result Split :=
  if decide (cfg_split c = "version") then Ok ByVersion
  else if decide (cfg_split c = "act") then Ok ByAct
  else Err (ValueError "Invalid split method").

(** Lines 183-201. *)
Definition select_model (c : Cfg) (hp : Hyperparams) : Result Model :=
  if decide (cfg_model c = "RNN") then
    Ok (RNNModel (hp_hidden_size hp) (hp_mlp_hidden_size hp)
                 (hp_num_layers hp) (hp_adv_grad_multiplier hp))
  else if decide (cfg_model c = "CNN") then
    Ok (CNNModel (hp_mlp_hidden_size hp) (hp_adv_grad_multiplier hp))
  else Err (ValueError "Invalid model name").

(** Lines 203-208. *)
Definition make_optimizer (hp : Hyperparams) (m : Model) : Optimizer :=
  Adam [ {| pg_params := mlp_params (named_parameters m);
            pg_lr := (hp_lr hp * hp_adv_lr_multiplier hp)%Q |};
         {| pg_params := backbone_params (named_parameters m);
            pg_lr := hp_lr hp |} ].

(** What a run of [main] leaves behind: the files on disk and the calls
    made. *)
Record Effects : Type := mkEffects {
  e_files : gmap string Checkpoint;
  e_calls : list Call
}.

Definition effects_of (w : World) : Effects :=
  {| e_files := files w; e_calls := calls w |}.

Inductive MainOutcome : Type :=
| MainReturned (eff : Effects)
| MainRaised (e : Exn) (eff : Effects).

(** The trainer and the state [Trainer(...)] starts from (line 209,
    [__init__]). *)
Definition new_trainer (c : Cfg) (hp : Hyperparams)
    (tl vl : DataLoader) (dev : Device) : Trainer :=
  {| train_loader := tl; valid_loader := vl; device := dev;
     cfg := c; hyperparams := hp |}.

Definition new_world (m : Model) (o : Optimizer)
    (disk : gmap string Checkpoint) : World :=
  {| model := m; optimizer := o; grads := None; mixup := fresh_mixup;
     cur_epoch := 0; files := disk; calls := []; passes := 0 |}.

(** [main] (lines 158-211), started on a disk holding [disk]. *)
Definition main (c : Cfg) (hp : Hyperparams)
    (disk : gmap string Checkpoint) : MainOutcome :=
  let DEV : Device := if cuda_is_available then "cuda" else "cpu" in
  match select_split c with
  | inl e => MainRaised e {| e_files := disk; e_calls := [] |}
  | inr split =>
      let train_loader := make_train_loader split hp (cfg_random_seed c) DEV in
      let valid_loader := make_valid_loader split hp DEV in
      match select_model c hp with
      | inl e => MainRaised e {| e_files := disk; e_calls := [] |}
      | inr model =>
          let optimizer := make_optimizer hp model in
          let trainer := new_trainer c hp train_loader valid_loader DEV in
          match train trainer (new_world model optimizer disk) with
          | Normal _ w => MainReturned (effects_of w)
          | Raised e w => MainRaised e (effects_of w)
          end
      end
  end.

End Main.

(** ** Reading the calls of a run *)

Section Calls.
Context `{Numerics}.

Definition is_step (c : Call) : bool :=
  match c with OptimizerStep => true | _ => false end.

(** The number of [optimizer.step()] calls among [cs]. *)
Definition optimizer_steps (cs : list Call) : nat :=
  length (List.filter is_step cs).

(** The checkpoints [torch.save] was given, in order: the path and the
    epoch recorded in each. *)
Definition saves (cs : list Call) : list (string * Z) :=
  omap (λ c, match c with
             | TorchSave path ckpt => Some (path, ck_epoch ckpt)
             | _ => None
             end) cs.

(** The losses [backward()] was called on, in order. *)
Definition backpropagated (cs : list Call) : list Scalar :=
  omap (λ c, match c with Backward loss => Some loss | _ => None end) cs.

(** Numeric content, the device forgotten. *)
Definition data_of (v : OptVal) : Data + Q :=
  match v with
  | VTensor t => inl (t_data t)
  | VNumber q => inr q
  end.

Definition on_device (d : Device) (v : OptVal) : Prop :=
  match v with
  | VTensor t => t_device t = d
  | VNumber _ => True
  end.

End Calls.

(** ** The vocabulary of the statements *)

Section Vocabulary.
Context `{Torch}.

(** What a run returned, if it did. *)
Definition value {A : Type} (o : Outcome A) : option A :=
  match o with
  | Normal a _ => Some a
  | Raised _ _ => None
  end.

(** From a state satisfying [P], [m] either returns [a] in a state
    satisfying [Q a] or raises in a state satisfying [E]. *)
Definition hoare {A : Type} (P : World → Prop) (m : M A)
    (Q : A → World → Prop) (E : World → Prop) : Prop :=
  ∀ w, P w →
    match m w with
    | Normal a w' => Q a w'
    | Raised _ w' => E w'
    end.

(** What [backprop_and_step] does to the state. *)
Definition stepped (batch : Batch) (loss : Scalar) (w : World) : World :=
  final (backprop_and_step batch loss w).

(** The logging of a training step only appends [wandb.log] calls. *)
Definition only_logs (cs : list Call) : Prop :=
  Forall (λ c, match c with WandbLog _ _ => True | _ => False end) cs.

(** [logs] appended to the calls of [w]. *)
Definition add_logs (logs : list Call) (w : World) : World :=
  fold_left (λ w c, add_call c w) logs w.

(** The state in which the validation loop runs. *)
Definition validating (w : World) : World :=
  next_pass (set_mixup false (set_model model_eval w)).

(** The backbone is frozen. *)
Definition frozen (w : World) : Prop := m_backbone_frozen (model w) = true.

(** The state [save_checkpoint] leaves. *)
Definition saved (self : Trainer) (w : World) : World :=
  final (save_checkpoint self w).

(** The state [load_checkpoint] leaves when all of its steps succeed. *)
Definition loaded (self : Trainer) (ckpt : Checkpoint) (m : Model)
    (o : Optimizer) (w : World) : World :=
  set_optimizer (migrate_state (device self))
    (set_optimizer (λ _, o)
       (set_model (λ _, m)
          (set_cur_epoch (ck_epoch ckpt)
             (add_call (TorchLoad (cfg_load_checkpoint (cfg self))) w)))).

End Vocabulary.

(** ** A small concrete instance

    Tensors are lists of integers, on a machine without a GPU; the model
    echoes its input on all three heads; the two losses are the summed
    absolute differences and raise on operands of different sizes, as
    torch's do; Adam adds one to every parameter.  The instance serves to
    run the definitions above. *)

Module Toy.

Definition numerics : Numerics :=
  {| Data := list Z; shape := λ xs, [Z.of_nat (length xs)];
     Scalar := Q; Grads := Q |}.
#[local] Existing Instance numerics.

Definition tensor (xs : list Z) : Tensor :=
  {| t_data := xs; t_device := "cpu" |}.

Definition loss (pred target : Tensor) : Result Scalar :=
  if decide (length (t_data pred) = length (t_data target)) then
    Ok (inject_Z (foldr Z.add 0
                    (zip_with (λ p t, Z.abs (p - t)) (t_data pred) (t_data target))))
  else Err (ValueError "Using a target size that is different to the input size").

Definition torch : Torch :=
  {| device_available := λ d, bool_decide (d = "cpu");
     forward := λ _ x, Ok (x, x, x);
     bce := loss;
     ce := loss;
     permute_0_2_1 := λ t, t;
     sadd := Qplus;
     smul := Qmult;
     item := λ q, q;
     autograd := λ _ _ l _, l;
     clip_grad_norm_ := λ c g, Qmin c g;
     adam_step := λ o ps _,
       (o, prod_map id (λ t : Tensor,
                          {| t_data := Z.succ <$> t_data t;
                             t_device := t_device t |}) <$> ps);
     get_binary_f1 := λ _ _ _, (1, 1, 1)%Q;
     get_multiclass_acc := λ _ _, 1%Q |}.
#[local] Existing Instance torch.

(** A well-formed batch and one whose version labels have the wrong
    size. *)
Definition good_batch : Batch :=
  {| b_cqt := tensor [1; 2]; b_leitmotif_gt := tensor [1; 0];
     b_singing_gt := tensor [0; 2]; b_version_gt := tensor [3; 2] |}.

Definition bad_batch : Batch :=
  {| b_cqt := tensor [1; 2]; b_leitmotif_gt := tensor [1; 0];
     b_singing_gt := tensor [0; 2]; b_version_gt := tensor [3] |}.

Definition loader (bs : list Batch) : DataLoader :=
  {| dl_len := length bs; dl_batch := λ _ _ i, default good_batch (bs !! i) |}.

Definition the_cfg (log : bool) : Cfg :=
  {| cfg_model := "RNN"; cfg_run_name := "run"; cfg_split := "version";
     cfg_random_seed := 0; cfg_log_to_wandb := log;
     cfg_load_checkpoint := "checkpoints/RNN/run_epoch1.pt";
     cfg_train_singing := true |}.

Definition the_hyperparams (adv : bool) : Hyperparams :=
  {| hp_num_epochs := 2; hp_lr := 1 # 1000; hp_train_adv := adv;
     hp_adv_grad_iter := 4; hp_adv_lr_multiplier := 10;
     hp_adv_grad_multiplier := 1; hp_mixup_prob := 1 # 2;
     hp_mixup_alpha := 1; hp_hidden_size := 8; hp_num_layers := 1;
     hp_mlp_hidden_size := None |}.

Definition the_model : Model :=
  {| m_params := [("rnn.weight", tensor [5]); ("version_mlp.weight", tensor [7])];
     m_training := false; m_backbone_frozen := false |}.

Definition host : Host :=
  {| make_train_loader := λ _ _ _ _, loader [good_batch; good_batch];
     make_valid_loader := λ _ _ _, loader [good_batch];
     fresh_mixup := false;
     RNNModel := λ _ _ _ _, the_model;
     CNNModel := λ _ _, the_model |}.
#[local] Existing Instance host.

(** A trainer with [train] and [valid] as its batch streams. *)
Definition trainer (log adv : bool) (train valid : list Batch) : Trainer :=
  new_trainer (the_cfg log) (the_hyperparams adv)
              (loader train) (loader valid) "cpu".

Definition world : World :=
  new_world the_model (make_optimizer (the_hyperparams true) the_model) ∅.

Definition cfg_with_split (split : string) : Cfg :=
  {| cfg_model := "RNN"; cfg_run_name := "run"; cfg_split := split;
     cfg_random_seed := 0; cfg_log_to_wandb := false;
     cfg_load_checkpoint := ""; cfg_train_singing := false |}.

Definition at_epoch (e : Z) (w : World) : World := set_cur_epoch e w.

(** [w] with some Adam state for parameter 0, its tensor on device [d]. *)
Definition with_state (d : Device) (w : World) : World :=
  set_optimizer (λ o,
    {| param_groups := param_groups o;
       opt_state :=
         {[ 0%nat := {[ "exp_avg" := VTensor {| t_data := [3]; t_device := d |};
                        "step" := VNumber 2 ]} ]} |}) w.

End Toy.

(** ** More readings of a run *)

Section Readings.
Context `{Torch}.

(** The calls that make one parameter update, as [backprop_and_step]
    issues them for [loss]. *)
Definition update_of (loss : Scalar) : list Call :=
  [ZeroGrad; Backward loss; ClipGradNorm 1; OptimizerStep].

Definition is_update (c : Call) : bool :=
  match c with
  | ZeroGrad | Backward _ | ClipGradNorm _ | OptimizerStep => true
  | _ => false
  end.

(** The update calls among [cs], in order. *)
Definition updates (cs : list Call) : list Call := List.filter is_update cs.

Definition is_wandb (c : Call) : bool :=
  match c with
  | WandbInit _ _ | WandbLog _ _ | WandbFinish => true
  | _ => false
  end.

Definition is_load (c : Call) : bool :=
  match c with TorchLoad _ => true | _ => false end.

(** The values [wandb.log] was given under [key], in order, each with the
    [step] of its call. *)
Definition logged (key : string) (cs : list Call) : list (Q * option Z) :=
  cs ≫= (λ c,
    match c with
    | WandbLog entries step =>
        omap (λ kv : string * Q,
                if decide (kv.1 = key) then Some (kv.2, step) else None)
             entries
    | _ => []
    end).

(** The primary loss of a batch under model [m]: lines 135-136 (and
    86-87). *)
Definition leitmotif_loss_of (self : Trainer) (m : Model) (batch : Batch)
  : Result Scalar :=
  rbind (forward m (to (device self) (b_cqt batch)))
        (λ r, bce r.1.1 (to (device self) (b_leitmotif_gt batch))).

(** Python's [sum] of the items of [losses], as the validation loop
    accumulates it from [0]. *)
Definition total_of (losses : list Scalar) : Q :=
  fold_left (λ acc l, (acc + item l)%Q) losses 0%Q.

End Readings.

(** ** More scenarios on the small instance *)

Module Scenarios.

#[local] Existing Instances Toy.numerics Toy.torch Toy.host.

(** The toy machine with a GPU added. *)
Definition gpu_torch : Torch :=
  {| device_available := λ d, bool_decide (d = "cpu" ∨ d = "cuda");
     forward := @forward _ Toy.torch;
     bce := @bce _ Toy.torch;
     ce := @ce _ Toy.torch;
     permute_0_2_1 := @permute_0_2_1 _ Toy.torch;
     sadd := @sadd _ Toy.torch;
     smul := @smul _ Toy.torch;
     item := @item _ Toy.torch;
     autograd := @autograd _ Toy.torch;
     clip_grad_norm_ := @clip_grad_norm_ _ Toy.torch;
     adam_step := @adam_step _ Toy.torch;
     get_binary_f1 := @get_binary_f1 _ Toy.torch;
     get_multiclass_acc := @get_multiclass_acc _ Toy.torch |}.

Definition gpu_tensor (xs : list Z) : Tensor :=
  {| t_data := xs; t_device := "cuda" |}.

(** The toy model with its parameters registered in the other order and
    living on the GPU. *)
Definition swapped_model : Model :=
  {| m_params := [("version_mlp.weight", gpu_tensor [0]);
                  ("rnn.weight", gpu_tensor [0])];
     m_training := false; m_backbone_frozen := false |}.

(** A checkpoint of another architecture that shares one parameter name
    with the toy model, one whose shared parameter has another shape, and
    one whose optimizer has a single parameter group. *)
Definition other_ckpt : Checkpoint :=
  {| ck_epoch := 7;
     ck_model := [("cnn.weight", Toy.tensor [1]);
                  ("rnn.weight", Toy.tensor [9])];
     ck_optimizer := optimizer Toy.world |}.

Definition wider_ckpt : Checkpoint :=
  {| ck_epoch := 7;
     ck_model := [("rnn.weight", Toy.tensor [1; 1]);
                  ("version_mlp.weight", Toy.tensor [2])];
     ck_optimizer := optimizer Toy.world |}.

(** A checkpoint of the toy model written on a GPU. *)
Definition gpu_ckpt : Checkpoint :=
  {| ck_epoch := 7;
     ck_model := [("rnn.weight", gpu_tensor [1]);
                  ("version_mlp.weight", gpu_tensor [2])];
     ck_optimizer := optimizer Toy.world |}.

Definition one_group_ckpt : Checkpoint :=
  {| ck_epoch := 7;
     ck_model := [("rnn.weight", Toy.tensor [1]);
                  ("version_mlp.weight", Toy.tensor [2])];
     ck_optimizer := Adam [ {| pg_params := [0%nat; 1%nat]; pg_lr := 1 |} ] |}.

(** The toy world with [ckpt] at the path the toy configuration resumes
    from. *)
Definition world_with (ckpt : Checkpoint) : World :=
  set_files (insert "checkpoints/RNN/run_epoch1.pt" ckpt) Toy.world.

(** A loader of one batch per pass whose third pass and later yield a
    batch with version labels of the wrong size. *)
Definition flaky : DataLoader :=
  {| dl_len := 1;
     dl_batch := λ _ pass _,
       if (pass <? 2)%nat then Toy.good_batch else Toy.bad_batch |}.

(** Two epochs, adversarial training on, fed by [flaky] for both phases:
    the first epoch draws passes 0 and 1, the second epoch fails on its
    training batch. *)
Definition flaky_trainer : Trainer :=
  new_trainer (Toy.the_cfg false) (Toy.the_hyperparams true) flaky flaky "cpu".

(** Two training batches and one validation batch per epoch. *)
Definition trainer (log adv : bool) : Trainer :=
  Toy.trainer log adv [Toy.good_batch; Toy.good_batch] [Toy.good_batch].

End Scenarios.

(** Run the state-passing plumbing of a monadic term. *)
Ltac mstep :=
  repeat progress (unfold mbind, M_bind, mret, M_ret, get, modify, call; cbn).

(** * Verification *)

(** ** The ramp multiplier *)

Lemma truediv_nonzero (a b : Z) :
  b ≠ 0 → Py.truediv a b = Ok (inject_Z a / inject_Z b)%Q.
Proof. intros Hb. unfold Py.truediv. by destruct (decide (b = 0)). Qed.

Lemma multiplier_nonzero (s n : Z) :
  n ≠ 0 → adv_loss_multiplier s n = Ok (Py.min 1 (inject_Z s / inject_Z n)).
Proof. intros Hn. unfold adv_loss_multiplier. by rewrite truediv_nonzero. Qed.

Lemma ratio_lt_1 (a b : Z) :
  0 < b → (inject_Z a / inject_Z b < 1)%Q ↔ a < b.
Proof.
  intros Hb. destruct b as [|p|p]; try lia.
  unfold Qlt, Qdiv, Qmult, Qinv, inject_Z; simpl.
  rewrite !Z.mul_1_r. reflexivity.
Qed.

Lemma ratio_mono (a a' b : Z) :
  0 < b → a ≤ a' → (inject_Z a / inject_Z b <= inject_Z a' / inject_Z b)%Q.
Proof.
  intros Hb Ha. destruct b as [|p|p]; try lia.
  unfold Qle, Qdiv, Qmult, Qinv, inject_Z; simpl.
  rewrite !Z.mul_1_r. nia.
Qed.

Lemma multiplier_below (s n : Z) :
  0 < n → s < n → adv_loss_multiplier s n = Ok (inject_Z s / inject_Z n)%Q.
Proof.
  intros Hn Hs. rewrite multiplier_nonzero by lia.
  unfold Py.min. destruct (Qlt_le_dec _ _) as [Hlt|Hle]; [done|].
  apply Qle_not_lt in Hle. exfalso. apply Hle. by apply ratio_lt_1.
Qed.

Lemma multiplier_above (s n : Z) :
  0 < n → n ≤ s → adv_loss_multiplier s n = Ok 1%Q.
Proof.
  intros Hn Hs. rewrite multiplier_nonzero by lia.
  unfold Py.min. destruct (Qlt_le_dec _ _) as [Hlt|Hle]; [|done].
  apply (ratio_lt_1 s n Hn) in Hlt. lia.
Qed.

(** C1. For a step count [s >= 0] and a ramp length [n > 0] the
    multiplier is defined and is [min(1, s/n)]: it is [s/n] while [s < n],
    it is exactly [1] once [s >= n], and it does not decrease when the
    step count grows from [s] to [s']. *)
Theorem ramp_multiplier_spec (s s' n : Z) :
  0 ≤ s → 0 < n → s ≤ s' →
  ∃ m m' : Q,
    adv_loss_multiplier s n = Ok m ∧ adv_loss_multiplier s' n = Ok m' ∧
    (m == Qmin 1 (inject_Z s / inject_Z n))%Q ∧
    (s < n → m = (inject_Z s / inject_Z n)%Q) ∧
    (n ≤ s → m = 1%Q) ∧
    (m <= m')%Q.
Proof.
  intros Hs Hn Hss.
  destruct (Z_lt_le_dec s n) as [Hlt|Hge].
  - assert (Hmin : (inject_Z s / inject_Z n == Qmin 1 (inject_Z s / inject_Z n))%Q).
    { rewrite Q.min_r; [reflexivity|]. apply Qlt_le_weak. by apply ratio_lt_1. }
    destruct (Z_lt_le_dec s' n) as [Hlt'|Hge'].
    + exists (inject_Z s / inject_Z n)%Q, (inject_Z s' / inject_Z n)%Q.
      rewrite !multiplier_below by done.
      repeat split; [exact Hmin | intros; lia | by apply ratio_mono].
    + exists (inject_Z s / inject_Z n)%Q, 1%Q.
      rewrite multiplier_below, multiplier_above by done.
      repeat split; [exact Hmin | intros; lia |].
      apply Qlt_le_weak. by apply ratio_lt_1.
  - exists 1%Q, 1%Q. rewrite !multiplier_above by lia.
    repeat split; [| intros; lia | apply Qle_refl].
    rewrite Q.min_l; [reflexivity|].
    apply Qnot_lt_le. intros Hc. apply (ratio_lt_1 s n Hn) in Hc. lia.
Qed.

(** The ramp of length 100 read at steps 50 and 250. *)
Lemma ramp_multiplier_spec_witness :
  ∃ m m' : Q,
    adv_loss_multiplier 50 100 = Ok m ∧ adv_loss_multiplier 250 100 = Ok m' ∧
    (m == Qmin 1 (inject_Z 50 / inject_Z 100))%Q ∧
    (50 < 100 → m = (inject_Z 50 / inject_Z 100)%Q) ∧
    (100 ≤ 50 → m = 1%Q) ∧
    (m <= m')%Q.
Proof. apply (ramp_multiplier_spec 50 250 100); lia. Defined.

(** The values the specification lists for a ramp of length 100. *)
Example ramp_100 :
  adv_loss_multiplier 0 100 = Ok (0 # 100)%Q ∧
  adv_loss_multiplier 50 100 = Ok (50 # 100)%Q ∧
  adv_loss_multiplier 100 100 = Ok 1%Q ∧
  adv_loss_multiplier 250 100 = Ok 1%Q.
Proof. repeat split. Qed.

(** A ramp of length zero cannot be read. *)
Example ramp_0 : adv_loss_multiplier 3 0 = Err ZeroDivisionError.
Proof. reflexivity. Qed.

(** ** Reasoning about the trainer's monad *)

Section Hoare.
Context `{Numerics}.

Lemma hoare_ret {A : Type} (a : A) (Q : A → World → Prop) E :
  hoare (Q a) (mret a) Q E.
Proof. by intros w HP. Qed.

Lemma hoare_bind {A B : Type} (m : M A) (k : A → M B) P Q R E :
  hoare P m Q E → (∀ a, hoare (Q a) (k a) R E) → hoare P (m ≫= k) R E.
Proof.
  intros Hm Hk w HP. specialize (Hm w HP).
  unfold mbind, M_bind. destruct (m w) as [a w'|e w']; [|done].
  by apply Hk.
Qed.

Lemma hoare_consequence {A : Type} (m : M A) (P P' : World → Prop)
    (Q Q' : A → World → Prop) (E E' : World → Prop) :
  hoare P' m Q' E' →
  (∀ w, P w → P' w) → (∀ a w, Q' a w → Q a w) → (∀ w, E' w → E w) →
  hoare P m Q E.
Proof.
  intros Hm HP HQ HE w Hw. specialize (Hm w (HP w Hw)).
  destruct (m w); auto.
Qed.

Lemma hoare_get P E : hoare P get (λ w0 w, w0 = w ∧ P w) E.
Proof. by intros w HP. Qed.

Lemma hoare_modify (f : World → World) (Q : unit → World → Prop) E :
  hoare (λ w, Q tt (f w)) (modify f) Q E.
Proof. by intros w HP. Qed.

Lemma hoare_call (c : Call) (Q : unit → World → Prop) E :
  hoare (λ w, Q tt (add_call c w)) (call c) Q E.
Proof. by intros w HP. Qed.

Lemma hoare_lift {A : Type} (r : Result A) (P : World → Prop) E :
  (∀ w, P w → E w) → hoare P (lift r) (λ a w, r = Ok a ∧ P w) E.
Proof. intros HE w HP. destruct r; simpl; auto. Qed.

Lemma hoare_when (b : bool) (m : M unit) P (Q : unit → World → Prop) E :
  (b = true → hoare P m Q E) → (b = false → ∀ w, P w → Q tt w) →
  hoare P (when b m) Q E.
Proof.
  intros Hm Hskip. destruct b; simpl.
  - by apply Hm.
  - intros w HP. by apply Hskip.
Qed.

(** The loop rule: the invariant is indexed by the items already
    consumed. *)
Lemma hoare_for_each_from {A B : Type} (body : B → A → M B)
    (I : list A → B → World → Prop) E (xs pre : list A) (acc : B) :
  (∀ done x acc, hoare (I done acc) (body acc x) (I (done ++ [x])) E) →
  hoare (I pre acc) (for_each xs body acc) (I (pre ++ xs)) E.
Proof.
  intros Hbody. revert pre acc.
  induction xs as [|x xs IH]; intros pre acc; simpl.
  - rewrite app_nil_r. apply hoare_ret.
  - eapply hoare_bind; [apply Hbody|].
    intros acc'. replace (pre ++ x :: xs) with ((pre ++ [x]) ++ xs)
      by (by rewrite <- app_assoc). apply IH.
Qed.

Lemma hoare_for_each {A B : Type} (body : B → A → M B)
    (I : list A → B → World → Prop) E (xs : list A) (acc : B) :
  (∀ done x acc, hoare (I done acc) (body acc x) (I (done ++ [x])) E) →
  hoare (I [] acc) (for_each xs body acc) (I xs) E.
Proof. intros Hbody. by apply (hoare_for_each_from body I E xs []). Qed.

(** A loop whose body keeps [P] keeps it. *)
Lemma hoare_for_each_keeps {A B : Type} (body : B → A → M B)
    (P : World → Prop) (xs : list A) (acc : B) :
  (∀ x acc, hoare P (body acc x) (λ _, P) P) →
  hoare P (for_each xs body acc) (λ _, P) P.
Proof.
  intros Hbody.
  apply (hoare_for_each body (λ _ _, P) P xs acc). intros _ x a. apply Hbody.
Qed.

(** Inverting a sequence that returned. *)
Lemma bind_normal_inv {A B : Type} (m : M A) (k : A → M B) w b w2 :
  (m ≫= k) w = Normal b w2 →
  ∃ a w1, m w = Normal a w1 ∧ k a w1 = Normal b w2.
Proof.
  unfold mbind, M_bind. destruct (m w) as [a w1|e w1]; [|done]. eauto.
Qed.

Lemma lift_normal_inv {A : Type} (r : Result A) w a w' :
  lift r w = Normal a w' → r = Ok a ∧ w' = w.
Proof. destruct r; simpl; [done|]. by intros [= -> ->]. Qed.

End Hoare.

(** ** The training step *)

Section TrainStep.
Context `{Torch}.

Lemma backpropagated_app (cs cs' : list Call) :
  backpropagated (cs ++ cs') = backpropagated cs ++ backpropagated cs'.
Proof. apply omap_app. Qed.

Lemma optimizer_steps_app (cs cs' : list Call) :
  optimizer_steps (cs ++ cs') = (optimizer_steps cs + optimizer_steps cs')%nat.
Proof. unfold optimizer_steps. by rewrite List.filter_app, length_app. Qed.

Lemma saves_app (cs cs' : list Call) : saves (cs ++ cs') = saves cs ++ saves cs'.
Proof. apply omap_app. Qed.

Lemma backprop_and_step_normal batch loss w :
  backprop_and_step batch loss w = Normal tt (stepped batch loss w).
Proof. reflexivity. Qed.

Lemma stepped_calls batch loss w :
  calls (stepped batch loss w)
  = calls w ++ [ZeroGrad; Backward loss; ClipGradNorm 1; OptimizerStep].
Proof.
  unfold stepped, backprop_and_step, mbind, M_bind, modify, call. simpl.
  destruct (adam_step _ _ _) as [o ps]. simpl.
  by rewrite <- !app_assoc.
Qed.

Lemma stepped_frame batch loss w :
  let w' := stepped batch loss w in
  files w' = files w ∧ cur_epoch w' = cur_epoch w ∧ mixup w' = mixup w ∧
  passes w' = passes w ∧
  m_backbone_frozen (model w') = m_backbone_frozen (model w) ∧
  m_training (model w') = m_training (model w).
Proof.
  unfold stepped, backprop_and_step, mbind, M_bind, modify, call. simpl.
  by destruct (adam_step _ _ _) as [o ps].
Qed.

Lemma log_train_step_normal self ctr lp lg sp sg vg loss adv w :
  ∃ logs, only_logs logs ∧
    log_train_step self ctr lp lg sp sg vg loss adv w
    = Normal tt (fold_left (λ w c, add_call c w) logs w).
Proof.
  unfold log_train_step.
  destruct (get_binary_f1 lp lg _) as [[f1 precision] recall].
  destruct adv as [a|].
  - destruct (a_singing_loss a) as [sl|] eqn:Hsl.
    + destruct (get_binary_f1 sp sg _) as [[f1' p'] r'] eqn:Hf.
      eexists [_; _; _; _; _]. split; cycle 1.
      { unfold mbind, M_bind, call, modify. simpl.
        reflexivity. }
      by repeat apply Forall_cons_2.
    + eexists [_; _; _; _]. split; cycle 1.
      { unfold mbind, M_bind, call, modify. simpl.
        reflexivity. }
      by repeat apply Forall_cons_2.
  - eexists [_; _]. split; cycle 1.
    { reflexivity. }
    by repeat apply Forall_cons_2.
Qed.

End TrainStep.

(** ** The shape of one step *)

Section Steps.
Context `{Torch}.

#[local] Arguments backprop_and_step : simpl never.
#[local] Arguments log_train_step : simpl never.

Lemma add_logs_calls logs w : calls (add_logs logs w) = calls w ++ logs.
Proof.
  revert w. induction logs as [|c logs IH]; intros w; simpl.
  - by rewrite app_nil_r.
  - rewrite IH. simpl. by rewrite <- app_assoc.
Qed.

Lemma add_logs_frame logs w :
  let w' := add_logs logs w in
  model w' = model w ∧ optimizer w' = optimizer w ∧ grads w' = grads w ∧
  files w' = files w ∧ cur_epoch w' = cur_epoch w ∧ mixup w' = mixup w ∧
  passes w' = passes w.
Proof.
  revert w. induction logs as [|c logs IH]; intros w; simpl; [done|].
  destruct (IH (add_call c w)) as (?&?&?&?&?&?&?). by repeat split.
Qed.

Lemma only_logs_steps logs : only_logs logs → optimizer_steps logs = 0%nat.
Proof.
  induction 1 as [|c logs Hc _ IH]; [done|].
  unfold optimizer_steps in *. simpl. by destruct c.
Qed.

Lemma only_logs_saves logs : only_logs logs → saves logs = [].
Proof. induction 1 as [|c logs Hc _ IH]; [done|]. by destruct c. Qed.

Lemma only_logs_backpropagated logs : only_logs logs → backpropagated logs = [].
Proof. induction 1 as [|c logs Hc _ IH]; [done|]. by destruct c. Qed.

(** A training step that returns has appended: the multiplier's log (if
    any), the four calls of the update, the step's logs (if any).  One
    that raises has left the state as it was. *)
Lemma train_step_shape self ctr batch w :
  match train_step self ctr batch w with
  | Normal ctr' w' =>
      ∃ loss logs logs',
        only_logs logs ∧ only_logs logs' ∧
        w' = add_logs logs' (stepped batch loss (add_logs logs w)) ∧
        num_iter ctr' = num_iter ctr + 1 ∧
        adv_iter ctr' =
          adv_iter ctr + (if hp_train_adv (hyperparams self) then 1 else 0)
  | Raised _ w' => w' = w
  end.
Proof.
  assert (Htail : ∀ logs loss (adv : option AdvLocals) lp lg sp sg vg k,
    only_logs logs →
    match
      ((backprop_and_step batch loss;;
        when (cfg_log_to_wandb (cfg self))
          (log_train_step self ctr lp lg sp sg vg loss adv);;
        mret {| num_iter := num_iter ctr + 1; adv_iter := k |})
         : M Counters) (add_logs logs w)
    with
    | Normal ctr' w' =>
        ∃ loss logs0 logs',
          only_logs logs0 ∧ only_logs logs' ∧
          w' = add_logs logs' (stepped batch loss (add_logs logs0 w)) ∧
          num_iter ctr' = num_iter ctr + 1 ∧ adv_iter ctr' = k
    | Raised _ w' => w' = w
    end).
  { intros logs loss adv lp lg sp sg vg k Hlogs.
    unfold mbind, M_bind. rewrite backprop_and_step_normal.
    destruct (cfg_log_to_wandb (cfg self)); cbn.
    - destruct (log_train_step_normal self ctr lp lg sp sg vg loss adv
                  (stepped batch loss (add_logs logs w))) as (logs'&Hl&->).
      exists loss, logs, logs'. by split_and!.
    - exists loss, logs, []. split_and!; [done | apply Forall_nil_2 | done..]. }
  unfold train_step, mbind at 1 2 3, M_bind at 1 2 3, get.
  destruct (forward _ _) as [e|[[lp sp] vp]]; [done|]. cbn.
  destruct (bce lp _) as [e|ll]; [done|]. cbn.
  destruct (hp_train_adv (hyperparams self)); cycle 1.
  { cbn. rewrite Z.add_0_r.
    destruct (cfg_log_to_wandb (cfg self)) eqn:Hlog.
    - apply (Htail []). apply Forall_nil_2.
    - apply (Htail [] _ None lp lp lp lp lp _ (Forall_nil_2 _)). }
  unfold adversarial, mbind at 1 2 3 4 5, M_bind at 1 2 3 4 5.
  destruct (ce _ _) as [e|vl]; [done|]. cbn.
  destruct (cfg_train_singing (cfg self)).
  - unfold mbind at 1, M_bind at 1.
    destruct (bce sp _) as [e|sl]; [done|]. cbn.
    destruct (adv_loss_multiplier _ _) as [e|mult]; [done|]. cbn.
    destruct (cfg_log_to_wandb (cfg self)) eqn:Hlog; cbn.
    + apply (Htail [WandbLog [("adv/loss_multiplier", mult)] (Some (num_iter ctr))]).
      by repeat apply Forall_cons_2.
    + apply (Htail [] _ None lp lp lp lp lp _ (Forall_nil_2 _)).
  - cbn.
    destruct (adv_loss_multiplier _ _) as [e|mult]; [done|]. cbn.
    destruct (cfg_log_to_wandb (cfg self)) eqn:Hlog; cbn.
    + apply (Htail [WandbLog [("adv/loss_multiplier", mult)] (Some (num_iter ctr))]).
      by repeat apply Forall_cons_2.
    + apply (Htail [] _ None lp lp lp lp lp _ (Forall_nil_2 _)).
Qed.

(** A step of [_train_mlp_submodules]: the update on return, nothing on
    a raise. *)
Lemma mlp_step_shape self train_singing batch w :
  match mlp_step self train_singing tt batch w with
  | Normal _ w' => ∃ loss, w' = stepped batch loss w
  | Raised _ w' => w' = w
  end.
Proof.
  unfold mlp_step, mbind at 1 2 3, M_bind at 1 2 3, get.
  destruct (forward _ _) as [e|[[lp sp] vp]]; [done|]. cbn.
  destruct (ce _ _) as [e|vl]; [done|]. cbn.
  destruct train_singing.
  - unfold mbind, M_bind. destruct (bce sp _) as [e|sl]; [done|]. cbn.
    rewrite backprop_and_step_normal. by eexists.
  - unfold mbind, M_bind. cbn. rewrite backprop_and_step_normal. by eexists.
Qed.

(** A validation step never changes the state. *)
Lemma valid_step_shape self tot batch w :
  final (valid_step self tot batch w) = w.
Proof.
  unfold valid_step, mbind, M_bind, get.
  destruct (forward _ _) as [e|[[lp sp] vp]]; [done|]. cbn.
  destruct (bce lp _) as [e|ll]; [done|]. cbn.
  destruct (cfg_log_to_wandb (cfg self)); [|done].
  by destruct (get_binary_f1 _ _ _) as [[f1 precision] recall].
Qed.

(** The adversarial step, run: the state it returns is the update on the
    total loss, between the logs. *)
Lemma train_step_adversarial_run (self : Trainer) (ctr : Counters)
    (batch : Batch) (w : World)
    (leitmotif_pred singing_pred version_pred : Tensor)
    (leitmotif_loss version_loss singing_loss : Scalar) :
  hp_train_adv (hyperparams self) = true →
  hp_adv_grad_iter (hyperparams self) ≠ 0 →
  forward (model w) (to (device self) (b_cqt batch))
    = Ok (leitmotif_pred, singing_pred, version_pred) →
  bce leitmotif_pred (to (device self) (b_leitmotif_gt batch))
    = Ok leitmotif_loss →
  ce (permute_0_2_1 version_pred) (to (device self) (b_version_gt batch))
    = Ok version_loss →
  (cfg_train_singing (cfg self) = true →
   bce singing_pred (to (device self) (b_singing_gt batch)) = Ok singing_loss) →
  ∃ ctr' logs logs',
    train_step self ctr batch w
    = Normal ctr' (add_logs logs'
        (stepped batch
           (sadd leitmotif_loss
              (smul (Py.min 1 (inject_Z (adv_iter ctr)
                               / inject_Z (hp_adv_grad_iter (hyperparams self))))
                    (if cfg_train_singing (cfg self)
                     then sadd version_loss singing_loss else version_loss)))
           (add_logs logs w))) ∧
    only_logs logs ∧ only_logs logs' ∧ adv_iter ctr' = adv_iter ctr + 1.
Proof.
  intros Hadv Hiter Hfwd Hbce Hce Hsing.
  unfold train_step, mbind at 1 2 3, M_bind at 1 2 3, get.
  rewrite Hfwd. cbn. rewrite Hbce. cbn. rewrite Hadv.
  unfold adversarial, mbind at 1 2 3 4 5, M_bind at 1 2 3 4 5.
  rewrite Hce. cbn.
  rewrite (multiplier_nonzero _ _ Hiter).
  destruct (cfg_train_singing (cfg self)).
  - unfold mbind at 1, M_bind at 1. rewrite (Hsing eq_refl).
    unfold mbind, M_bind, mret, M_ret. cbn.
    destruct (cfg_log_to_wandb (cfg self)); cbn.
    + rewrite backprop_and_step_normal.
      edestruct log_train_step_normal as (logs'&Hl&->).
      eexists _, [_], logs'. split; [reflexivity|].
      split_and!; [by repeat apply Forall_cons_2|done..].
    + rewrite backprop_and_step_normal.
      eexists _, [], []. split; [reflexivity|].
      split_and!; [apply Forall_nil_2|apply Forall_nil_2|done].
  - unfold mbind, M_bind, mret, M_ret. cbn.
    destruct (cfg_log_to_wandb (cfg self)); cbn.
    + rewrite backprop_and_step_normal.
      edestruct log_train_step_normal as (logs'&Hl&->).
      eexists _, [_], logs'. split; [reflexivity|].
      split_and!; [by repeat apply Forall_cons_2|done..].
    + rewrite backprop_and_step_normal.
      eexists _, [], []. split; [reflexivity|].
      split_and!; [apply Forall_nil_2|apply Forall_nil_2|done].
Qed.

(** The step without the adversarial branch, run. *)
Lemma train_step_plain_run (self : Trainer) (ctr : Counters)
    (batch : Batch) (w : World)
    (leitmotif_pred singing_pred version_pred : Tensor)
    (leitmotif_loss : Scalar) :
  hp_train_adv (hyperparams self) = false →
  forward (model w) (to (device self) (b_cqt batch))
    = Ok (leitmotif_pred, singing_pred, version_pred) →
  bce leitmotif_pred (to (device self) (b_leitmotif_gt batch))
    = Ok leitmotif_loss →
  ∃ ctr' logs',
    train_step self ctr batch w
    = Normal ctr' (add_logs logs' (stepped batch leitmotif_loss w)) ∧
    only_logs logs' ∧ adv_iter ctr' = adv_iter ctr.
Proof.
  intros Hadv Hfwd Hbce.
  unfold train_step, mbind at 1 2 3, M_bind at 1 2 3, get.
  rewrite Hfwd. cbn. rewrite Hbce. cbn. rewrite Hadv.
  unfold mbind, M_bind, mret, M_ret. cbn.
  rewrite backprop_and_step_normal.
  destruct (cfg_log_to_wandb (cfg self)); cbn.
  - edestruct log_train_step_normal as (logs'&Hl&->).
    by eexists _, logs'.
  - eexists _, []. split; [reflexivity|]. split; [apply Forall_nil_2|done].
Qed.

(** C2. With adversarial training on and a non-zero ramp length, a
    batch on which the model and the loss functions succeed is
    processed: [backward()] is called once more, on the leitmotif BCE
    plus the ramp multiplier times the adversarial loss (the CE of the
    permuted version prediction, plus the singing BCE when
    [cfg.train_singing]), and [adv_iter] grows by one. *)
Theorem adversarial_total_loss (self : Trainer) (ctr : Counters)
    (batch : Batch) (w : World)
    (leitmotif_pred singing_pred version_pred : Tensor)
    (leitmotif_loss version_loss singing_loss : Scalar) :
  hp_train_adv (hyperparams self) = true →
  hp_adv_grad_iter (hyperparams self) ≠ 0 →
  forward (model w) (to (device self) (b_cqt batch))
    = Ok (leitmotif_pred, singing_pred, version_pred) →
  bce leitmotif_pred (to (device self) (b_leitmotif_gt batch))
    = Ok leitmotif_loss →
  ce (permute_0_2_1 version_pred) (to (device self) (b_version_gt batch))
    = Ok version_loss →
  (cfg_train_singing (cfg self) = true →
   bce singing_pred (to (device self) (b_singing_gt batch)) = Ok singing_loss) →
  let ramp_multiplier :=
    Py.min 1 (inject_Z (adv_iter ctr)
              / inject_Z (hp_adv_grad_iter (hyperparams self))) in
  let adv_loss :=
    if cfg_train_singing (cfg self) then sadd version_loss singing_loss
    else version_loss in
  ∃ ctr' w',
    train_step self ctr batch w = Normal ctr' w' ∧
    backpropagated (calls w')
      = backpropagated (calls w)
        ++ [sadd leitmotif_loss (smul ramp_multiplier adv_loss)] ∧
    adv_iter ctr' = adv_iter ctr + 1.
Proof.
  intros Hadv Hiter Hfwd Hbce Hce Hsing ramp_multiplier adv_loss.
  destruct (train_step_adversarial_run self ctr batch w _ _ _ _ _ _
              Hadv Hiter Hfwd Hbce Hce Hsing)
    as (ctr'&logs&logs'&Hrun&Hl&Hl'&Hctr).
  eexists _, _. split; [exact Hrun|]. split; [|exact Hctr].
  rewrite add_logs_calls, stepped_calls, add_logs_calls.
  rewrite !backpropagated_app, (only_logs_backpropagated _ Hl),
    (only_logs_backpropagated _ Hl'). cbn.
  by rewrite !app_nil_r.
Qed.

End Steps.

Section StepsWitness.
#[local] Existing Instances Toy.numerics Toy.torch.

(** The third adversarial step of a ramp of length 4, singing loss on. *)
Lemma adversarial_total_loss_witness :
  ∃ ctr' w',
    train_step (Toy.trainer true true [] [])
               {| num_iter := 2; adv_iter := 2 |} Toy.good_batch Toy.world
      = Normal ctr' w' ∧
    backpropagated (calls w')
      = backpropagated (calls Toy.world)
        ++ [Qplus 2 (Qmult (Py.min 1 (inject_Z 2 / inject_Z 4)) (Qplus 2 1))] ∧
    adv_iter ctr' = 2 + 1.
Proof.
  refine (adversarial_total_loss
            (Toy.trainer true true [] []) {| num_iter := 2; adv_iter := 2 |}
            Toy.good_batch Toy.world
            (Toy.tensor [1; 2]) (Toy.tensor [1; 2]) (Toy.tensor [1; 2])
            2%Q 2%Q 1%Q _ _ _ _ _ _);
    first [ reflexivity | vm_compute; congruence ].
Defined.

End StepsWitness.

(** ** Effects of the phases *)

Section Phases.
Context `{Torch}.

#[local] Arguments backprop_and_step : simpl never.

Lemma stepped_saves batch loss w :
  saves (calls (stepped batch loss w)) = saves (calls w).
Proof. rewrite stepped_calls, saves_app. cbn. by rewrite app_nil_r. Qed.

Lemma stepped_steps batch loss w :
  optimizer_steps (calls (stepped batch loss w))
  = S (optimizer_steps (calls w)).
Proof. rewrite stepped_calls, optimizer_steps_app. cbn. lia. Qed.

(** What a training step that returned has done to the disk, the epoch,
    the checkpoints saved and the optimizer steps taken. *)
Lemma train_step_effect self ctr batch w ctr' w' :
  train_step self ctr batch w = Normal ctr' w' →
  files w' = files w ∧ cur_epoch w' = cur_epoch w ∧
  saves (calls w') = saves (calls w) ∧
  optimizer_steps (calls w') = S (optimizer_steps (calls w)) ∧
  num_iter ctr' = num_iter ctr + 1.
Proof.
  intros Hrun. pose proof (train_step_shape self ctr batch w) as Hshape.
  rewrite Hrun in Hshape.
  destruct Hshape as (loss&logs&logs'&Hl&Hl'&->&Hnum&_).
  destruct (add_logs_frame logs' (stepped batch loss (add_logs logs w)))
    as (_&_&_&Hf1&He1&_).
  destruct (stepped_frame batch loss (add_logs logs w)) as (Hf2&He2&_).
  destruct (add_logs_frame logs w) as (_&_&_&Hf3&He3&_).
  split_and!.
  - by rewrite Hf1, Hf2, Hf3.
  - by rewrite He1, He2, He3.
  - rewrite add_logs_calls, saves_app, (only_logs_saves _ Hl'), app_nil_r.
    rewrite stepped_saves, add_logs_calls, saves_app.
    by rewrite (only_logs_saves _ Hl), app_nil_r.
  - rewrite add_logs_calls, optimizer_steps_app, (only_logs_steps _ Hl').
    rewrite stepped_steps, add_logs_calls, optimizer_steps_app.
    rewrite (only_logs_steps _ Hl). lia.
  - done.
Qed.

(** The training loop over [batches]: one optimizer step and one tick of
    [num_iter] per batch, no checkpoint, the disk and the epoch
    untouched. *)
Lemma train_loop_effect self batches ctr w ctr' w' :
  for_each batches (train_step self) ctr w = Normal ctr' w' →
  files w' = files w ∧ cur_epoch w' = cur_epoch w ∧
  saves (calls w') = saves (calls w) ∧
  optimizer_steps (calls w')
    = (optimizer_steps (calls w) + length batches)%nat ∧
  num_iter ctr' = num_iter ctr + Z.of_nat (length batches).
Proof.
  revert ctr w. induction batches as [|b bs IH]; intros ctr w; simpl.
  - intros [= -> ->]. split_and!; try done; lia.
  - intros Hrun. apply bind_normal_inv in Hrun as (ctr1&w1&Hstep&Hrest).
    apply train_step_effect in Hstep as (Hf&He&Hs&Ho&Hn).
    apply IH in Hrest as (Hf'&He'&Hs'&Ho'&Hn').
    split_and!; try congruence; lia.
Qed.

Lemma for_each_valid_final self batches tot w :
  final (for_each batches (valid_step self) tot w) = w.
Proof.
  revert tot w. induction batches as [|b bs IH]; intros tot w; simpl; [done|].
  unfold mbind, M_bind.
  pose proof (valid_step_shape self tot b w) as Hstep.
  destruct (valid_step self tot b w) as [tot' w1|e w1]; simpl in Hstep;
    subst w1; [apply IH | done].
Qed.

(** The validation phase: it returns the counters it was given, in the
    state [validating w] with at most the one log of the means appended;
    if it raises, it does so in [validating w]. *)
Lemma validation_phase_shape self ctr w :
  match validation_phase self ctr w with
  | Normal ctr' w' =>
      ctr' = ctr ∧ ∃ logs, only_logs logs ∧ w' = add_logs logs (validating w)
  | Raised _ w' => w' = validating w
  end.
Proof.
  unfold validation_phase, iterate. mstep. fold (validating w).
  match goal with |- context [for_each ?bs _ ?t _] =>
    pose proof (for_each_valid_final self bs t (validating w)) as Hloop;
    destruct (for_each bs (valid_step self) t (validating w)) as [tot w1|e w1]
  end; simpl in Hloop; subst w1; [|done].
  unfold mbind, M_bind.
  destruct (cfg_log_to_wandb (cfg self)); cbn.
  - unfold log_validation, mbind, M_bind.
    destruct (Py.truediv_q (total_loss tot) _) as [e|a1]; [done|]. cbn.
    destruct (Py.truediv_q (total_precision tot) _) as [e|a2]; [done|]. cbn.
    destruct (Py.truediv_q (total_recall tot) _) as [e|a3]; [done|]. cbn.
    destruct (Py.truediv_q (total_f1 tot) _) as [e|a4]; [done|]. cbn.
    split; [done|]. eexists [_]. split; [|reflexivity].
    by repeat apply Forall_cons_2.
  - split; [done|]. exists []. split; [apply Forall_nil_2 | done].
Qed.

(** C7. The validation phase leaves training state alone: however it
    ends, the model parameters and the optimizer are what they were, no
    [backward()] and no [optimizer.step()] was called, and when it
    returns both [num_iter] and [adv_iter] are unchanged. *)
Theorem validation_is_frame (self : Trainer) (ctr : Counters) (w : World) :
  let o := validation_phase self ctr w in
  m_params (model (final o)) = m_params (model w) ∧
  optimizer (final o) = optimizer w ∧
  optimizer_steps (calls (final o)) = optimizer_steps (calls w) ∧
  backpropagated (calls (final o)) = backpropagated (calls w) ∧
  match o with
  | Normal ctr' _ => num_iter ctr' = num_iter ctr ∧ adv_iter ctr' = adv_iter ctr
  | Raised _ _ => True
  end.
Proof.
  intros o. subst o.
  pose proof (validation_phase_shape self ctr w) as Hshape.
  destruct (validation_phase self ctr w) as [ctr' w'|e w']; simpl.
  - destruct Hshape as (->&logs&Hl&->).
    destruct (add_logs_frame logs (validating w)) as (Hm&Ho&_).
    rewrite Hm, Ho, add_logs_calls, optimizer_steps_app, backpropagated_app.
    rewrite (only_logs_steps _ Hl), (only_logs_backpropagated _ Hl).
    rewrite app_nil_r, Nat.add_0_r. done.
  - by subst w'.
Qed.

(** C4, as the code has it. With an empty validation stream the phase
    runs no batch; then, with logging on, the first mean divides by
    [len(self.valid_loader) = 0] and Python's [ZeroDivisionError]
    leaves the phase (nothing was logged, no mean was produced); with
    logging off no mean is computed and the phase returns. *)
Theorem empty_validation_stream (self : Trainer) (ctr : Counters) (w : World) :
  len (valid_loader self) = 0 →
  validation_phase self ctr w
    = (if cfg_log_to_wandb (cfg self)
       then Raised ZeroDivisionError (validating w)
       else Normal ctr (validating w)) ∧
  calls (validating w) = calls w.
Proof.
  intros Hlen. split; [|done].
  assert (Hn : dl_len (valid_loader self) = 0%nat) by (unfold len in Hlen; lia).
  unfold validation_phase, iterate, batches_of. rewrite Hn. mstep.
  destruct (cfg_log_to_wandb (cfg self)); cbn; [|done].
  unfold log_validation. rewrite Hlen. reflexivity.
Qed.

Lemma mlp_loop_frozen self train_singing batches :
  hoare frozen (for_each batches (mlp_step self train_singing) tt)
        (λ _, frozen) frozen.
Proof.
  apply hoare_for_each_keeps. intros b [] w Hw.
  pose proof (mlp_step_shape self train_singing b w) as Hshape.
  destruct (mlp_step self train_singing tt b w) as [[] w'|e w'].
  - destruct Hshape as (loss&->).
    destruct (stepped_frame b loss w) as (_&_&_&_&Hfr&_).
    unfold frozen. by rewrite Hfr.
  - by subst w'.
Qed.

(** C3, as the code has it. [_train_mlp_submodules] freezes the
    backbone before its loop and unfreezes it after: when it returns the
    backbone is unfrozen, and when an exception leaves the loop the
    backbone stays frozen. *)
Theorem mlp_pretraining_backbone (self : Trainer) (num_epochs : Z)
    (train_singing : bool) (w : World) :
  match _train_mlp_submodules self num_epochs train_singing w with
  | Normal _ w' => m_backbone_frozen (model w') = false
  | Raised _ w' => m_backbone_frozen (model w') = true
  end.
Proof.
  unfold _train_mlp_submodules.
  assert (Hloop : hoare frozen
    (for_each (Py.range 0 num_epochs)
       (λ (_ : unit) (epoch : Z),
          batches ← iterate (train_loader self);
          for_each batches (mlp_step self train_singing) tt) tt)
    (λ _, frozen) frozen).
  { apply hoare_for_each_keeps. intros epoch [].
    eapply hoare_bind; [|intros bs; apply mlp_loop_frozen].
    by intros w0 Hw0. }
  mstep.
  match goal with |- context [for_each _ _ tt ?w0] =>
    specialize (Hloop w0 eq_refl);
    destruct (for_each (Py.range 0 num_epochs) _ tt w0) as [[] w'|e w']
  end; cbn; [done | exact Hloop].
Qed.

End Phases.

Section PhasesOnToy.
#[local] Existing Instances Toy.numerics Toy.torch.

(** An empty validation stream, logging on. *)
Lemma empty_validation_stream_witness :
  validation_phase (Toy.trainer true false [Toy.good_batch] [])
                   {| num_iter := 1; adv_iter := 0 |} Toy.world
    = Raised ZeroDivisionError (validating Toy.world) ∧
  calls (validating Toy.world) = calls Toy.world.
Proof.
  exact (empty_validation_stream
           (Toy.trainer true false [Toy.good_batch] [])
           {| num_iter := 1; adv_iter := 0 |} Toy.world eq_refl).
Defined.

(** C4 fails as stated: with logging off, a run whose validation stream
    is empty goes through both epochs and returns; no error is raised
    anywhere. *)
Lemma empty_validation_no_error :
  len (valid_loader (Toy.trainer false false [Toy.good_batch] [])) = 0 ∧
  ∃ w', train (Toy.trainer false false [Toy.good_batch] []) Toy.world
          = Normal {| num_iter := 2; adv_iter := 0 |} w' ∧
        length (saves (calls w')) = 2%nat.
Proof. split; [reflexivity|]. eexists. split; [vm_compute; reflexivity|reflexivity]. Qed.

(** C3 fails as stated: a batch whose version labels have the wrong size
    makes the loss raise inside the loop, and the routine is left with
    the backbone still frozen. *)
Lemma mlp_pretraining_raise_leaves_frozen :
  ∃ e w',
    _train_mlp_submodules (Toy.trainer false false [Toy.bad_batch] [])
                          1 false Toy.world = Raised e w' ∧
    m_backbone_frozen (model Toy.world) = false ∧
    m_backbone_frozen (model w') = true.
Proof. eexists _, _. split; [vm_compute; reflexivity|]. by split. Qed.

(** On well-formed batches the routine returns. *)
Example mlp_pretraining_returns :
  returned (_train_mlp_submodules
              (Toy.trainer false false [Toy.good_batch] []) 1 true Toy.world).
Proof. exact I. Qed.

End PhasesOnToy.

(** ** Checkpoint paths *)

Lemma string_length_app (s t : string) :
  String.length (s +:+ t) = (String.length s + String.length t)%nat.
Proof. induction s as [|a s IH]; simpl; [done | by rewrite IH]. Qed.

Lemma string_app_inj_r (t s1 s2 : string) : s1 +:+ t = s2 +:+ t → s1 = s2.
Proof.
  revert s2. induction s1 as [|a s1 IH]; intros [|b s2] Heq; simpl in Heq.
  - done.
  - apply (f_equal String.length) in Heq. simpl in Heq.
    rewrite !string_length_app in Heq. simpl in Heq. lia.
  - apply (f_equal String.length) in Heq. simpl in Heq.
    rewrite !string_length_app in Heq. simpl in Heq. lia.
  - injection Heq as -> Heq. f_equal. by apply IH.
Qed.

(** Under one configuration, different epochs are saved to different
    files. *)
Lemma ckpt_path_inj (c : Cfg) : Inj (=) (=) (ckpt_path c).
Proof.
  intros e1 e2 Heq. unfold ckpt_path in Heq.
  repeat apply String.app_inj in Heq.
  apply string_app_inj_r in Heq. by apply (inj pretty) in Heq.
Qed.

Lemma NoDup_range (a b : Z) : NoDup (Py.range a b).
Proof. apply NoDup_seqZ. Qed.

Lemma range_cons (a b : Z) : a < b → Py.range a b = a :: Py.range (a + 1) b.
Proof.
  intros Hab. unfold Py.range. rewrite seqZ_cons by lia.
  do 2 f_equal; lia.
Qed.

Lemma length_range (a b : Z) : length (Py.range a b) = Z.to_nat (b - a).
Proof. apply length_seqZ. Qed.

(** ** One epoch, then all of them *)

Section Epochs.
Context `{Torch}.

Lemma save_checkpoint_normal self w :
  save_checkpoint self w = Normal tt (saved self w).
Proof. reflexivity. Qed.

Lemma saved_calls self w :
  calls (saved self w)
  = calls w ++ [Mkdir (ckpt_dir (cfg self));
                TorchSave (ckpt_path (cfg self) (cur_epoch w)) (snapshot w)].
Proof. unfold saved, save_checkpoint. mstep. by rewrite <- app_assoc. Qed.

Lemma saved_files self w :
  files (saved self w)
  = <[ckpt_path (cfg self) (cur_epoch w) := snapshot w]> (files w).
Proof. reflexivity. Qed.

Lemma train_phase_effect self ctr epoch w ctr' w' :
  train_phase self ctr epoch w = Normal ctr' w' →
  files w' = files w ∧ cur_epoch w' = epoch ∧
  saves (calls w') = saves (calls w) ∧
  optimizer_steps (calls w')
    = (optimizer_steps (calls w) + dl_len (train_loader self))%nat ∧
  num_iter ctr' = num_iter ctr + len (train_loader self).
Proof.
  unfold train_phase, iterate. mstep. intros Hloop.
  apply train_loop_effect in Hloop as (Hf&He&Hs&Ho&Hn).
  unfold batches_of in Ho, Hn. rewrite length_fmap, length_seq in Ho, Hn.
  by split_and!.
Qed.

Lemma validation_phase_effect self ctr w ctr' w' :
  validation_phase self ctr w = Normal ctr' w' →
  ctr' = ctr ∧ files w' = files w ∧ cur_epoch w' = cur_epoch w ∧
  saves (calls w') = saves (calls w) ∧
  optimizer_steps (calls w') = optimizer_steps (calls w).
Proof.
  intros Hrun. pose proof (validation_phase_shape self ctr w) as Hshape.
  rewrite Hrun in Hshape. destruct Hshape as (->&logs&Hl&->).
  destruct (add_logs_frame logs (validating w)) as (_&_&_&Hf&He&_).
  rewrite Hf, He, add_logs_calls, saves_app, optimizer_steps_app.
  rewrite (only_logs_saves _ Hl), (only_logs_steps _ Hl), app_nil_r.
  split_and!; try done; cbn; lia.
Qed.

(** An epoch that completes is a training phase, then a validation
    phase, then one checkpoint of the state validation left, written
    under the path of that epoch. *)
Lemma epoch_body_inv self ctr epoch w ctr' w' :
  epoch_body self ctr epoch w = Normal ctr' w' →
  ∃ ctr_t w_t w_v,
    train_phase self ctr epoch w = Normal ctr_t w_t ∧
    validation_phase self ctr_t w_t = Normal ctr' w_v ∧
    w' = saved self w_v ∧ cur_epoch w_v = epoch ∧
    saves (calls w_v) = saves (calls w) ∧ files w_v = files w ∧
    optimizer_steps (calls w_v)
      = (optimizer_steps (calls w) + dl_len (train_loader self))%nat ∧
    num_iter ctr' = num_iter ctr + len (train_loader self).
Proof.
  unfold epoch_body. intros Hrun.
  apply bind_normal_inv in Hrun as (ctr_t&w_t&Ht&Hrun).
  apply bind_normal_inv in Hrun as (ctr_v&w_v&Hv&Hrun).
  revert Hrun. mstep. intros [= <- <-].
  exists ctr_t, w_t, w_v.
  apply train_phase_effect in Ht as Ht'. destruct Ht' as (Hf&He&Hs&Ho&Hn).
  apply validation_phase_effect in Hv as Hv'.
  destruct Hv' as (->&Hf'&He'&Hs'&Ho').
  split_and!; try done; congruence.
Qed.

Lemma epoch_body_effect self ctr epoch w ctr' w' :
  epoch_body self ctr epoch w = Normal ctr' w' →
  saves (calls w') = saves (calls w) ++ [(ckpt_path (cfg self) epoch, epoch)] ∧
  (∃ ckpt, ck_epoch ckpt = epoch ∧
           files w' = <[ckpt_path (cfg self) epoch := ckpt]> (files w)) ∧
  optimizer_steps (calls w')
    = (optimizer_steps (calls w) + dl_len (train_loader self))%nat ∧
  num_iter ctr' = num_iter ctr + len (train_loader self).
Proof.
  intros Hrun.
  apply epoch_body_inv in Hrun
    as (ctr_t&w_t&w_v&_&_&->&He&Hs&Hf&Ho&Hn).
  rewrite saved_calls, saved_files, saves_app, optimizer_steps_app.
  rewrite Hs, Hf, Ho, He. cbn. rewrite He.
  split_and!; [done | by exists (snapshot w_v) | lia | done].
Qed.

(** The epoch loop over [epochs]. *)
Lemma epoch_loop_effect self epochs ctr w ctr' w' :
  for_each epochs (epoch_body self) ctr w = Normal ctr' w' →
  saves (calls w')
    = saves (calls w) ++ ((λ e, (ckpt_path (cfg self) e, e)) <$> epochs) ∧
  (∀ e, e ∈ epochs →
     ∃ ckpt, files w' !! ckpt_path (cfg self) e = Some ckpt ∧ ck_epoch ckpt = e) ∧
  (∀ path, (∀ e, e ∈ epochs → path ≠ ckpt_path (cfg self) e) →
     files w' !! path = files w !! path) ∧
  optimizer_steps (calls w')
    = (optimizer_steps (calls w)
       + length epochs * dl_len (train_loader self))%nat ∧
  num_iter ctr'
    = num_iter ctr + Z.of_nat (length epochs) * len (train_loader self).
Proof.
  revert ctr w. induction epochs as [|e es IH]; intros ctr w; simpl.
  - intros [= -> ->]. rewrite app_nil_r.
    split_and!; [done | by intros e ?%elem_of_nil | done | lia | lia].
  - intros Hrun. apply bind_normal_inv in Hrun as (ctr1&w1&Hep&Hrest).
    apply epoch_body_effect in Hep as (Hs&(ckpt&Hck&Hf)&Ho&Hn).
    apply IH in Hrest as (Hs'&Hin&Hout&Ho'&Hn').
    split_and!.
    + rewrite Hs', Hs. by rewrite <- app_assoc.
    + intros e' [->|He']%elem_of_cons; [|by apply Hin].
      destruct (decide (e ∈ es)) as [He|He]; [by apply Hin|].
      exists ckpt. split; [|done].
      rewrite Hout, Hf.
      * apply lookup_insert_eq.
      * intros e' He' Heq%ckpt_path_inj. by subst e'.
    + intros path Hpath. rewrite Hout.
      * rewrite Hf. apply lookup_insert_ne. intros Heq.
        apply (Hpath e); [apply elem_of_cons; by left | done].
      * intros e' He'. apply Hpath. apply elem_of_cons. by right.
    + rewrite Ho', Ho. lia.
    + rewrite Hn', Hn. lia.
Qed.

(** [train] wraps the epoch loop in calls that save nothing and step
    nothing. *)
Lemma train_inv self w ctr w' :
  train self w = Normal ctr w' →
  ∃ w0 w1,
    for_each (Py.range (cur_epoch w) (hp_num_epochs (hyperparams self)))
             (epoch_body self) {| num_iter := 0; adv_iter := 0 |} w0
      = Normal ctr w1 ∧
    files w0 = files w ∧ saves (calls w0) = saves (calls w) ∧
    optimizer_steps (calls w0) = optimizer_steps (calls w) ∧
    files w' = files w1 ∧ saves (calls w') = saves (calls w1) ∧
    optimizer_steps (calls w') = optimizer_steps (calls w1).
Proof.
  unfold train. intros Hrun.
  apply bind_normal_inv in Hrun as ([]&w0&Hinit&Hrun).
  revert Hrun. mstep.
  destruct (for_each _ (epoch_body self) _ _) as [ctr1 w1|e w1] eqn:Hloop;
    [|done].
  assert (Hw0 : cur_epoch w0 = cur_epoch w ∧ files w0 = files w ∧
                saves (calls w0) = saves (calls w) ∧
                optimizer_steps (calls w0) = optimizer_steps (calls w)).
  { revert Hinit. destruct (cfg_log_to_wandb (cfg self)); cbn.
    - mstep. intros [= <-]. cbn [calls files cur_epoch add_call].
      rewrite saves_app, optimizer_steps_app. cbn.
      rewrite app_nil_r. split_and!; [done..|lia].
    - mstep. by intros [= <-]. }
  destruct Hw0 as (He0&Hf0&Hs0&Ho0). rewrite He0 in Hloop.
  destruct (cfg_log_to_wandb (cfg self)); cbn.
  - mstep. intros [= <- <-].
    exists (set_model (model_to (device self)) w0), w1.
    cbn [calls files add_call].
    rewrite saves_app, optimizer_steps_app. cbn. rewrite app_nil_r.
    split_and!; try done; lia.
  - mstep. intros [= <- <-].
    by exists (set_model (model_to (device self)) w0), w1.
Qed.

(** C6. In a run of [train] that returns, every epoch of the loop
    ([range(cur_epoch, num_epochs)]) saves exactly one checkpoint, in
    order, whatever the logging flag: the file is keyed by model, run
    name and epoch, so the paths of the run are pairwise different and
    at the end each holds the checkpoint of its own epoch; a fresh run of
    [num_epochs] epochs makes [num_epochs] saves.  Within an epoch the
    save is the last thing done: it follows the validation phase and
    stores the epoch, the model's state dict and the optimizer as
    validation left them. *)
Theorem checkpoint_every_epoch (self : Trainer) (w : World)
    (ctr : Counters) (w' : World) :
  train self w = Normal ctr w' →
  let epochs := Py.range (cur_epoch w) (hp_num_epochs (hyperparams self)) in
  saves (calls w')
    = saves (calls w) ++ ((λ e, (ckpt_path (cfg self) e, e)) <$> epochs) ∧
  NoDup (ckpt_path (cfg self) <$> epochs) ∧
  (∀ e, e ∈ epochs →
     ∃ ckpt, files w' !! ckpt_path (cfg self) e = Some ckpt ∧ ck_epoch ckpt = e) ∧
  (cur_epoch w = 0 →
   length (saves (calls w'))
     = (length (saves (calls w)) + Z.to_nat (hp_num_epochs (hyperparams self)))%nat) ∧
  (∀ ctr0 e w0 ctr1 w1,
     epoch_body self ctr0 e w0 = Normal ctr1 w1 →
     ∃ ctr_t w_t w_v,
       train_phase self ctr0 e w0 = Normal ctr_t w_t ∧
       validation_phase self ctr_t w_t = Normal ctr1 w_v ∧
       saves (calls w_v) = saves (calls w0) ∧
       calls w1 = calls w_v
         ++ [Mkdir (ckpt_dir (cfg self));
             TorchSave (ckpt_path (cfg self) e)
               {| ck_epoch := e; ck_model := state_dict (model w_v);
                  ck_optimizer := optimizer w_v |}]).
Proof.
  intros Hrun epochs.
  apply train_inv in Hrun as (w0&w1&Hloop&Hf0&Hs0&_&Hf1&Hs1&_).
  apply epoch_loop_effect in Hloop as (Hs&Hin&_&_&_).
  fold epochs in Hs, Hin.
  assert (Hsaves : saves (calls w')
    = saves (calls w) ++ ((λ e, (ckpt_path (cfg self) e, e)) <$> epochs))
    by (by rewrite Hs1, Hs, Hs0).
  split_and!.
  - exact Hsaves.
  - apply NoDup_fmap_2; [apply ckpt_path_inj | apply NoDup_range].
  - intros e He. rewrite Hf1. by apply Hin.
  - intros Hfresh. rewrite Hsaves, length_app, length_fmap.
    subst epochs. rewrite length_range, Hfresh. do 2 f_equal. lia.
  - intros ctr0 e u0 ctr1 u1 Hep.
    apply epoch_body_inv in Hep as (ctr_t&w_t&w_v&Ht&Hv&->&He&Hsv&_).
    exists ctr_t, w_t, w_v. split_and!; [done..|].
    rewrite saved_calls. unfold snapshot. by rewrite He.
Qed.

(** *** Loading *)

#[local] Arguments load_state_dict : simpl never.

Lemma load_checkpoint_normal self ckpt m o w :
  files w !! cfg_load_checkpoint (cfg self) = Some ckpt →
  restorable ckpt = true →
  load_state_dict (ck_model ckpt) (model w) = (m, None) →
  opt_load_state_dict (ck_optimizer ckpt) (optimizer w) = Ok o →
  load_checkpoint self w = Normal tt (loaded self ckpt m o w).
Proof.
  intros Hfile Hdev Hm Ho. unfold load_checkpoint, torch_load. mstep.
  rewrite Hfile, Hdev. mstep. rewrite Hm. mstep. rewrite Ho. reflexivity.
Qed.

Lemma load_checkpoint_inv self w w' :
  load_checkpoint self w = Normal tt w' →
  ∃ ckpt m o,
    files w !! cfg_load_checkpoint (cfg self) = Some ckpt ∧
    w' = loaded self ckpt m o w.
Proof.
  unfold load_checkpoint, torch_load. mstep.
  destruct (files w !! _) as [ckpt|] eqn:Hfile; [|done].
  destruct (restorable ckpt); [|done]. mstep.
  destruct (load_state_dict _ _) as [m [e|]]; [done|]. mstep.
  destruct (opt_load_state_dict _ _) as [e|o]; [done|]. mstep.
  intros [= <-]. by exists ckpt, m, o.
Qed.

End Epochs.

(** ** Runs that return

    When torch never raises (the model and the two loss functions
    succeed on every input), the ramp length is not zero if the ramp is
    used, and the validation stream is not empty if its means are logged,
    [train] returns. *)

Section Returns.
Context `{Torch}.
Variable self : Trainer.
Hypothesis forward_ok : ∀ m x, ∃ r, forward m x = Ok r.
Hypothesis bce_ok : ∀ p t, ∃ l, bce p t = Ok l.
Hypothesis ce_ok : ∀ p t, ∃ l, ce p t = Ok l.
Hypothesis ramp_ok :
  hp_train_adv (hyperparams self) = true →
  hp_adv_grad_iter (hyperparams self) ≠ 0.
Hypothesis valid_ok :
  cfg_log_to_wandb (cfg self) = true → dl_len (valid_loader self) ≠ 0%nat.

Lemma bind_returns {A B : Type} (m : M A) (k : A → M B) w :
  returned (m w) → (∀ a w', m w = Normal a w' → returned (k a w')) →
  returned ((m ≫= k) w).
Proof.
  unfold mbind, M_bind. destruct (m w) as [a w'|e w']; [|done].
  intros _ Hk. by apply Hk.
Qed.

Lemma for_each_returns {A B : Type} (body : B → A → M B) xs acc w :
  (∀ acc x w, returned (body acc x w)) → returned (for_each xs body acc w).
Proof.
  intros Hbody. revert acc w. induction xs as [|x xs IH]; intros acc w; [done|].
  simpl. apply bind_returns; [apply Hbody|]. intros acc' w' _. apply IH.
Qed.

Lemma train_step_returns ctr batch w : returned (train_step self ctr batch w).
Proof.
  destruct (forward_ok (model w) (to (device self) (b_cqt batch)))
    as ([[lp sp] vp]&Hfwd).
  destruct (bce_ok lp (to (device self) (b_leitmotif_gt batch))) as (ll&Hbce).
  destruct (bool_dec (hp_train_adv (hyperparams self)) true)
    as [Hadv|Hadv%not_true_is_false].
  - destruct (ce_ok (permute_0_2_1 vp) (to (device self) (b_version_gt batch)))
      as (vl&Hce).
    destruct (bce_ok sp (to (device self) (b_singing_gt batch))) as (sl&Hsing).
    destruct (train_step_adversarial_run self ctr batch w lp sp vp ll vl sl
                Hadv (ramp_ok Hadv) Hfwd Hbce Hce (λ _, Hsing))
      as (ctr'&logs&logs'&->&_). done.
  - destruct (train_step_plain_run self ctr batch w lp sp vp ll Hadv Hfwd Hbce)
      as (ctr'&logs'&->&_). done.
Qed.

Lemma valid_step_returns tot batch w : returned (valid_step self tot batch w).
Proof.
  unfold valid_step, mbind, M_bind, get.
  destruct (forward_ok (model w) (to (device self) (b_cqt batch)))
    as ([[lp sp] vp]&->). cbn.
  destruct (bce_ok lp (to (device self) (b_leitmotif_gt batch))) as (ll&->). cbn.
  destruct (cfg_log_to_wandb (cfg self)); [|done].
  by destruct (get_binary_f1 _ _ _) as [[f1 precision] recall].
Qed.

Lemma log_validation_returns tot w :
  cfg_log_to_wandb (cfg self) = true → returned (log_validation self tot w).
Proof.
  intros Hlog. unfold log_validation, Py.truediv_q.
  destruct (decide (len (valid_loader self) = 0)) as [Hz|_].
  - unfold len in Hz. specialize (valid_ok Hlog). lia.
  - done.
Qed.

Lemma validation_phase_returns ctr w : returned (validation_phase self ctr w).
Proof.
  unfold validation_phase.
  do 2 (apply bind_returns; [exact I|]; intros ? ? _).
  apply bind_returns; [exact I|]. intros bs w1 _.
  apply bind_returns; [apply for_each_returns, valid_step_returns|].
  intros tot w2 _. apply bind_returns; [|done].
  destruct (bool_dec (cfg_log_to_wandb (cfg self)) true)
    as [Hlog|Hlog%not_true_is_false]; rewrite Hlog; [|done].
  by apply log_validation_returns.
Qed.

Lemma train_phase_returns ctr epoch w : returned (train_phase self ctr epoch w).
Proof.
  unfold train_phase.
  do 3 (apply bind_returns; [exact I|]; intros ? ? _).
  apply bind_returns; [exact I|]. intros bs w1 _.
  apply for_each_returns, train_step_returns.
Qed.

Lemma epoch_body_returns ctr epoch w : returned (epoch_body self ctr epoch w).
Proof.
  unfold epoch_body.
  apply bind_returns; [apply train_phase_returns|]. intros ctr1 w1 _.
  apply bind_returns; [apply validation_phase_returns|]. intros ctr2 w2 _.
  apply bind_returns; [exact I | done].
Qed.

Lemma train_returns w : returned (train self w).
Proof.
  unfold train.
  apply bind_returns; [by destruct (cfg_log_to_wandb (cfg self))|].
  intros [] w0 _. apply bind_returns; [exact I|]. intros [] w1 _.
  apply bind_returns; [exact I|]. intros w2 w3 _.
  apply bind_returns; [apply for_each_returns, epoch_body_returns|].
  intros ctr w4 _. apply bind_returns; [|done].
  by destruct (cfg_log_to_wandb (cfg self)).
Qed.

End Returns.

(** ** Save, then load *)

Section RoundTrip.
Context `{Torch}.

(** *** What [load_state_dict] copies *)

Lemma load_param_name (entries : gmap string Tensor) p :
  (load_param entries p).1 = p.1.
Proof.
  unfold load_param. destruct (entries !! p.1); [|done].
  by destruct (fits entries p).
Qed.

(** The parameters keep their names and their order. *)
Lemma load_state_dict_names sd (m : Model) :
  (m_params (load_state_dict sd m).1).*1 = (m_params m).*1.
Proof.
  cbn. rewrite <- list_fmap_compose. apply list_fmap_ext.
  intros i p _. apply load_param_name.
Qed.

(** A parameter fits when the state dict has an entry of its shape under
    its name. *)
Lemma fits_true (entries : gmap string Tensor) p :
  fits entries p = true
  ↔ ∃ input, entries !! p.1 = Some input
             ∧ shape (t_data input) = shape (t_data p.2).
Proof.
  unfold fits. destruct (entries !! p.1) as [input|].
  - rewrite bool_decide_eq_true. split; [by exists input|].
    by intros (?&[= <-]&?).
  - split; [done | by intros (?&?&?)].
Qed.

(** The name and content that the entries give to the parameter [k]. *)
#[local] Abbreviation entry_of entries :=
  (λ k : string, (λ t : Tensor, (k, t_data t)) <$> entries !! k).

(** When every parameter fits, the model holds, name by name, the
    content of the entries. *)
Lemma loaded_data (entries : gmap string Tensor)
    (ps : list (string * Tensor)) :
  forallb (fits entries) ps = true →
  prod_map id t_data <$> (load_param entries <$> ps)
  = omap (entry_of entries) ps.*1.
Proof.
  induction ps as [|p ps IH]; [done|].
  cbn [forallb]. intros [Hp Hps]%andb_true_iff.
  rewrite !fmap_cons. cbn [omap list_omap]. rewrite <- (IH Hps).
  unfold load_param at 1. rewrite Hp.
  apply fits_true in Hp as (input&Hin&_). by rewrite Hin.
Qed.

(** A state dict whose keys are pairwise different is read back from its
    own entries. *)
Lemma saved_entries (ps : list (string * Tensor)) name t :
  NoDup ps.*1 → (name, t) ∈ ps →
  (list_to_map ps : gmap string Tensor) !! name = Some t.
Proof. intros Hnd Hin. by apply elem_of_list_to_map_1. Qed.

Lemma saved_data (entries : gmap string Tensor)
    (ps : list (string * Tensor)) :
  (∀ name t, (name, t) ∈ ps → entries !! name = Some t) →
  prod_map id t_data <$> ps = omap (entry_of entries) ps.*1.
Proof.
  induction ps as [|[name t] ps IH]; [done|]. intros Hall.
  rewrite !fmap_cons. cbn [omap list_omap fst].
  rewrite (Hall name t) by (apply elem_of_cons; by left). cbn.
  f_equal. apply IH. intros name' t' Hin. apply Hall.
  apply elem_of_cons. by right.
Qed.

Lemma names_of_shapes (ps : list (string * Tensor)) :
  (prod_map id (shape ∘ t_data) <$> ps).*1 = ps.*1.
Proof. rewrite <- list_fmap_compose. by apply list_fmap_ext. Qed.

(** A model with the names and shapes of the saved one, in any order:
    every parameter fits and no key is unexpected. *)
Lemma same_shapes_fit (ps0 ps : list (string * Tensor)) :
  NoDup ps.*1 →
  prod_map id (shape ∘ t_data) <$> ps0
    ≡ₚ prod_map id (shape ∘ t_data) <$> ps →
  forallb (fits (list_to_map ps)) ps0 = true.
Proof.
  intros Hnd Hperm. apply forallb_forall. intros p0 Hin%list_elem_of_In.
  apply fits_true.
  assert (Hin' : prod_map id (shape ∘ t_data) p0
                 ∈ prod_map id (shape ∘ t_data) <$> ps).
  { rewrite <- Hperm. apply list_elem_of_fmap. by exists p0. }
  apply list_elem_of_fmap in Hin' as ([name t]&Heq&Hp).
  injection Heq as Hname Hshape. cbn in Hname, Hshape.
  exists t. rewrite Hname. split; [by apply saved_entries | done].
Qed.

Lemma same_names_expected (ps0 ps : list (string * Tensor)) :
  ps0.*1 ≡ₚ ps.*1 →
  forallb (λ k, bool_decide (k ∈ ps0.*1)) ps.*1 = true.
Proof.
  intros Hperm. apply forallb_forall. intros k Hin%list_elem_of_In.
  apply bool_decide_eq_true. by rewrite Hperm.
Qed.

(** Loading the state dict of a model into a model with the same names
    and shapes raises nothing. *)
Lemma load_state_dict_clean (m0 m : Model) :
  NoDup (m_params m).*1 →
  prod_map id (shape ∘ t_data) <$> m_params m0
    ≡ₚ prod_map id (shape ∘ t_data) <$> m_params m →
  (load_state_dict (state_dict m) m0).2 = None.
Proof.
  intros Hnd Hperm. unfold load_state_dict, state_dict. cbn [snd].
  rewrite (same_shapes_fit _ _ Hnd Hperm).
  rewrite same_names_expected; [done|].
  rewrite <- (names_of_shapes (m_params m0)), <- (names_of_shapes (m_params m)).
  by rewrite Hperm.
Qed.

Lemma zip_groups_lr (gs ss : list ParamGroup) :
  length ss = length gs →
  pg_lr <$> zip_with (λ g s, {| pg_params := pg_params g; pg_lr := pg_lr s |})
                     gs ss
  = pg_lr <$> ss.
Proof.
  revert ss. induction gs as [|g gs IH]; intros [|s ss] Hlen;
    simplify_eq/=; [done|].
  f_equal. by apply IH.
Qed.

Lemma data_of_migrate d v : data_of (migrate d v) = data_of v.
Proof. by destruct v. Qed.

Lemma on_device_migrate d v : on_device d (migrate d v).
Proof. by destruct v. Qed.

Lemma migrate_state_data d (o : Optimizer) :
  (λ st : gmap string OptVal, data_of <$> st) <$> opt_state (migrate_state d o)
  = (λ st : gmap string OptVal, data_of <$> st) <$> opt_state o.
Proof.
  unfold migrate_state. cbn. rewrite <- map_fmap_compose.
  apply map_fmap_ext. intros i st _. cbn.
  rewrite <- map_fmap_compose. apply map_fmap_ext. intros k v _.
  apply data_of_migrate.
Qed.

Lemma migrate_state_on_device d (o : Optimizer) i st k v :
  opt_state (migrate_state d o) !! i = Some st → st !! k = Some v →
  on_device d v.
Proof.
  unfold migrate_state. cbn. rewrite lookup_fmap.
  destruct (opt_state o !! i) as [st0|]; [|done]. cbn. intros [= <-].
  rewrite lookup_fmap. destruct (st0 !! k) as [v0|]; [|done]. cbn.
  intros [= <-]. apply on_device_migrate.
Qed.

(** C5. A checkpoint saved by [save_checkpoint] in state [w] and loaded
    by [load_checkpoint] into a trainer whose model has the same
    parameters (names and shapes, in any order) and whose optimizer has
    groups of the same sizes, on a machine that has the devices the
    tensors were saved from, loads without error.  It restores the epoch
    counter, the content of every model parameter under its name (the
    parameters stay in the loading model's order; when that is the saved
    order the lists of names and contents are equal), the learning rates
    of the groups and the numeric content of the optimizer state; after
    it, every tensor in the optimizer state is on the loading trainer's
    device. *)
Theorem checkpoint_round_trip (self self' : Trainer) (w w0 : World) :
  cfg_load_checkpoint (cfg self') = ckpt_path (cfg self) (cur_epoch w) →
  files w0 = files (saved self w) →
  restorable (snapshot w) = true →
  NoDup (m_params (model w)).*1 →
  prod_map id (shape ∘ t_data) <$> m_params (model w0)
    ≡ₚ prod_map id (shape ∘ t_data) <$> m_params (model w) →
  (length ∘ pg_params) <$> param_groups (optimizer w0)
    = (length ∘ pg_params) <$> param_groups (optimizer w) →
  ∃ w1,
    load_checkpoint self' w0 = Normal tt w1 ∧
    cur_epoch w1 = cur_epoch w ∧
    prod_map id t_data <$> m_params (model w1)
      ≡ₚ prod_map id t_data <$> m_params (model w) ∧
    (m_params (model w1)).*1 = (m_params (model w0)).*1 ∧
    ((m_params (model w0)).*1 = (m_params (model w)).*1 →
     prod_map id t_data <$> m_params (model w1)
       = prod_map id t_data <$> m_params (model w)) ∧
    pg_lr <$> param_groups (optimizer w1)
      = pg_lr <$> param_groups (optimizer w) ∧
    (λ st : gmap string OptVal, data_of <$> st) <$> opt_state (optimizer w1)
      = (λ st : gmap string OptVal, data_of <$> st) <$> opt_state (optimizer w) ∧
    (∀ i st k v,
       opt_state (optimizer w1) !! i = Some st → st !! k = Some v →
       on_device (device self') v).
Proof.
  intros Hpath Hdisk Hdev Hnd Hsame Hgroups.
  assert (Hfile : files w0 !! cfg_load_checkpoint (cfg self') = Some (snapshot w)).
  { rewrite Hpath, Hdisk, saved_files. apply lookup_insert_eq. }
  assert (Hlen : length (param_groups (optimizer w))
                 = length (param_groups (optimizer w0))).
  { apply (f_equal length) in Hgroups. by rewrite !length_fmap in Hgroups. }
  assert (Hnames : (m_params (model w0)).*1 ≡ₚ (m_params (model w)).*1).
  { rewrite <- (names_of_shapes (m_params (model w0))).
    rewrite <- (names_of_shapes (m_params (model w))). by rewrite Hsame. }
  pose proof (same_shapes_fit _ _ Hnd Hsame) as Hfit.
  assert (Hm : load_state_dict (ck_model (snapshot w)) (model w0)
    = ((load_state_dict (state_dict (model w)) (model w0)).1, None)).
  { rewrite <- (load_state_dict_clean (model w0) (model w) Hnd Hsame).
    by destruct (load_state_dict _ _). }
  assert (Ho : opt_load_state_dict (ck_optimizer (snapshot w)) (optimizer w0)
    = Ok {| param_groups :=
              zip_with (λ g s, {| pg_params := pg_params g; pg_lr := pg_lr s |})
                       (param_groups (optimizer w0))
                       (param_groups (optimizer w));
            opt_state := opt_state (optimizer w) |}).
  { unfold opt_load_state_dict. cbn.
    destruct (decide _) as [_|Hne]; [|done].
    by destruct (decide _) as [_|Hne]; [|by rewrite Hgroups in Hne]. }
  assert (Hdata : prod_map id t_data
                    <$> m_params (load_state_dict (state_dict (model w))
                                                  (model w0)).1
                  = omap (entry_of (list_to_map (m_params (model w)) : gmap string Tensor))
                         (m_params (model w0)).*1).
  { cbn. by apply loaded_data. }
  assert (Hsaved : prod_map id t_data <$> m_params (model w)
                   = omap (entry_of (list_to_map (m_params (model w)) : gmap string Tensor))
                          (m_params (model w)).*1).
  { apply saved_data. intros name t. by apply saved_entries. }
  eexists. split; [exact (load_checkpoint_normal _ _ _ _ _ Hfile Hdev Hm Ho)|].
  unfold loaded.
  cbn [model optimizer cur_epoch set_optimizer set_model set_cur_epoch].
  split_and!.
  - done.
  - rewrite Hdata, Hsaved. by rewrite Hnames.
  - apply load_state_dict_names.
  - intros Horder. by rewrite Hdata, Hsaved, Horder.
  - cbn. by apply zip_groups_lr.
  - by rewrite migrate_state_data.
  - apply migrate_state_on_device.
Qed.

(** C10. After [load_checkpoint] has loaded a checkpoint saved at
    epoch [e], with [e < num_epochs], [train] loops over
    [range(e, num_epochs)]: its first checkpoint is the one of epoch [e]
    again, written to the file of epoch [e]; it takes
    [num_epochs - e] epochs of optimizer steps, and [num_iter] ends at
    [(num_epochs - e) * len(train_loader)]. *)
Theorem resume_repeats_epoch (self : Trainer) (w0 w1 w2 : World)
    (ckpt : Checkpoint) (ctr : Counters) :
  files w0 !! cfg_load_checkpoint (cfg self) = Some ckpt →
  load_checkpoint self w0 = Normal tt w1 →
  ck_epoch ckpt < hp_num_epochs (hyperparams self) →
  train self w1 = Normal ctr w2 →
  let e := ck_epoch ckpt in
  let n := hp_num_epochs (hyperparams self) in
  cur_epoch w1 = e ∧
  saves (calls w2)
    = saves (calls w1)
      ++ (ckpt_path (cfg self) e, e)
         :: ((λ e', (ckpt_path (cfg self) e', e')) <$> Py.range (e + 1) n) ∧
  (∃ ckpt', files w2 !! ckpt_path (cfg self) e = Some ckpt' ∧
            ck_epoch ckpt' = e) ∧
  optimizer_steps (calls w2)
    = (optimizer_steps (calls w1)
       + Z.to_nat (n - e) * dl_len (train_loader self))%nat ∧
  num_iter ctr = (n - e) * len (train_loader self).
Proof.
  intros Hfile Hload Hlt Hrun e n.
  apply load_checkpoint_inv in Hload as (ckpt'&m&o&Hfile'&->).
  rewrite Hfile in Hfile'. injection Hfile' as <-.
  assert (He : cur_epoch (loaded self ckpt m o w0) = e) by done.
  apply train_inv in Hrun as (u0&u1&Hloop&_&Hs0&Ho0&Hf1&Hs1&Ho1).
  rewrite He in Hloop. fold n in Hloop.
  apply epoch_loop_effect in Hloop as (Hs&Hin&_&Ho&Hn).
  rewrite length_range in Ho, Hn. rewrite (range_cons e n) in Hs, Hin by done.
  split_and!.
  - done.
  - by rewrite Hs1, Hs, Hs0.
  - rewrite Hf1. apply Hin. apply elem_of_cons. by left.
  - by rewrite Ho1, Ho, Ho0.
  - rewrite Hn. cbn. unfold len. lia.
Qed.

End RoundTrip.

(** ** Parameter groups and configuration errors *)

Section Grouping.
Context {P : Type}.

(** The two comprehensions of lines 203-204 split the named parameters:
    together they are all of them, each taken once. *)
Lemma params_split (named : list (string * P)) :
  mlp_params named ++ backbone_params named ≡ₚ named.*2.
Proof.
  unfold mlp_params, backbone_params. rewrite <- fmap_app.
  by rewrite filter_app_complement.
Qed.

Lemma elem_of_mlp_params (named : list (string * P)) name p :
  (name, p) ∈ named → Py.contains "mlp" name = true → p ∈ mlp_params named.
Proof.
  intros Hin Hname. unfold mlp_params. apply list_elem_of_fmap.
  exists (name, p). split; [done|]. apply list_elem_of_filter.
  split; [|done]. by apply Is_true_true_2.
Qed.

Lemma elem_of_backbone_params (named : list (string * P)) name p :
  (name, p) ∈ named → Py.contains "mlp" name = false →
  p ∈ backbone_params named.
Proof.
  intros Hin Hname. unfold backbone_params. apply list_elem_of_fmap.
  exists (name, p). split; [done|]. apply list_elem_of_filter.
  split; [|done]. by apply Is_true_false_2.
Qed.

End Grouping.

Section MainFacts.
Context `{Torch} `{!Host}.

Lemma named_parameters_refs (m : Model) :
  (named_parameters m).*2 = seq 0 (length (m_params m)).
Proof.
  unfold named_parameters. rewrite fmap_imap.
  rewrite (imap_ext _ (λ j _, id j)); [|done].
  rewrite imap_seq_0. apply list_fmap_id.
Qed.

(** C8. The optimizer [main] builds has exactly two parameter groups:
    the first holds the parameters whose name contains ['mlp'] and has
    learning rate [lr * adv_lr_multiplier], the second holds the others
    and has learning rate [lr].  Together the groups hold every
    parameter of the model once, and a parameter is in the group its
    name selects and not in the other. *)
Theorem parameter_groups (hp : Hyperparams) (m : Model) :
  ∃ aux backbone : ParamGroup,
    param_groups (make_optimizer hp m) = [aux; backbone] ∧
    pg_lr aux = (hp_lr hp * hp_adv_lr_multiplier hp)%Q ∧
    pg_lr backbone = hp_lr hp ∧
    pg_params aux ++ pg_params backbone ≡ₚ (named_parameters m).*2 ∧
    NoDup (pg_params aux ++ pg_params backbone) ∧
    (∀ (i : nat) name t,
       m_params m !! i = Some (name, t) →
       if Py.contains "mlp" name
       then i ∈ pg_params aux ∧ i ∉ pg_params backbone
       else i ∈ pg_params backbone ∧ i ∉ pg_params aux).
Proof.
  eexists _, _. split; [reflexivity|]. cbn.
  pose proof (params_split (named_parameters m)) as Hsplit.
  assert (Hnodup : NoDup (mlp_params (named_parameters m)
                          ++ backbone_params (named_parameters m))).
  { rewrite Hsplit, named_parameters_refs. apply NoDup_seq. }
  split_and!; try done.
  intros i name t Hi.
  assert (Hin : (name, i) ∈ named_parameters m).
  { unfold named_parameters.
    apply (elem_of_lookup_imap_2 (λ i p, (p.1, i)) _ (name, t) i Hi). }
  apply NoDup_app in Hnodup as (_&Hdisj&_).
  destruct (Py.contains "mlp" name) eqn:Hname.
  - pose proof (elem_of_mlp_params _ _ _ Hin Hname) as Hmlp.
    split; [done | by apply Hdisj].
  - pose proof (elem_of_backbone_params _ _ _ Hin Hname) as Hbb.
    split; [done|]. intros Hmlp. by apply (Hdisj i).
Qed.

(** C9. When [cfg.split] is neither ['version'] nor ['act'], or
    [cfg.model] is neither ['RNN'] nor ['CNN'], [main] raises
    [ValueError] before a trainer exists: the disk is as it was and no
    call was made; in particular nothing was saved and no optimizer
    step was taken. *)
Theorem invalid_configuration_fails_fast (c : Cfg) (hp : Hyperparams)
    (disk : gmap string Checkpoint) :
  (cfg_split c ≠ "version" ∧ cfg_split c ≠ "act") ∨
  (cfg_model c ≠ "RNN" ∧ cfg_model c ≠ "CNN") →
  ∃ msg eff,
    main c hp disk = MainRaised (ValueError msg) eff ∧
    (msg = "Invalid split method" ∨ msg = "Invalid model name") ∧
    e_files eff = disk ∧ e_calls eff = [] ∧
    saves (e_calls eff) = [] ∧ optimizer_steps (e_calls eff) = 0%nat.
Proof.
  intros Hbad. unfold main. cbv zeta.
  destruct (select_split c) as [e|split] eqn:Hsplit.
  - unfold select_split, Err, Ok in Hsplit. repeat case_decide; simplify_eq.
    eexists _, _. split; [reflexivity|]. split_and!; auto.
  - destruct (select_model c hp) as [e|mdl] eqn:Hmodel.
    + unfold select_model, Err, Ok in Hmodel. repeat case_decide; simplify_eq.
      eexists _, _. split; [reflexivity|]. split_and!; auto.
    + exfalso. unfold select_split, Err, Ok in Hsplit.
      unfold select_model, Err, Ok in Hmodel.
      repeat case_decide; simplify_eq; destruct Hbad as [[]|[]]; done.
Qed.

End MainFacts.

(** ** The statements above, run on the small instance *)

Section OnToy.
#[local] Existing Instances Toy.numerics Toy.torch Toy.host.

(** A run of two epochs over two training batches and one validation
    batch, logging on, adversarial training off. *)
Lemma checkpoint_every_epoch_witness :
  let self := Toy.trainer true false [Toy.good_batch; Toy.good_batch]
                          [Toy.good_batch] in
  let w' := final (train self Toy.world) in
  saves (calls w')
    = saves (calls Toy.world)
      ++ ((λ e, (ckpt_path (cfg self) e, e)) <$> Py.range 0 2) ∧
  length (saves (calls w')) = 2%nat ∧
  num_iter <$> value (train self Toy.world) = Some 4.
Proof.
  intros self w'.
  assert (Hrun : train self Toy.world
                 = Normal {| num_iter := 4; adv_iter := 0 |} w')
    by (vm_compute; reflexivity).
  destruct (checkpoint_every_epoch self Toy.world _ w' Hrun)
    as (Hsaves&_&_&Hcount&_).
  split_and!; [exact Hsaves | exact (Hcount eq_refl) | by rewrite Hrun].
Defined.

(** Resuming the two-epoch run from its checkpoint of epoch 1. *)
Lemma resume_repeats_epoch_witness :
  let self := Toy.trainer false false [Toy.good_batch; Toy.good_batch]
                          [Toy.good_batch] in
  let w0 := final (train self Toy.world) in
  let w1 := final (load_checkpoint self w0) in
  let w2 := final (train self w1) in
  cur_epoch w1 = 1 ∧
  saves (calls w2)
    = saves (calls w1)
      ++ (ckpt_path (cfg self) 1, 1)
         :: ((λ e', (ckpt_path (cfg self) e', e')) <$> Py.range (1 + 1) 2) ∧
  optimizer_steps (calls w2)
    = (optimizer_steps (calls w1) + Z.to_nat (2 - 1) * 2)%nat.
Proof.
  intros self w0 w1 w2.
  assert (Hfile : ∃ ckpt, files w0 !! cfg_load_checkpoint (cfg self) = Some ckpt
                          ∧ ck_epoch ckpt = 1)
    by (vm_compute; eauto).
  destruct Hfile as (ckpt&Hfile&Hepoch).
  assert (Hload : load_checkpoint self w0 = Normal tt w1)
    by (vm_compute; reflexivity).
  assert (Hrun : train self w1 = Normal {| num_iter := 2; adv_iter := 0 |} w2)
    by (vm_compute; reflexivity).
  assert (Hlt : ck_epoch ckpt < hp_num_epochs (hyperparams self))
    by (rewrite Hepoch; reflexivity).
  destruct (resume_repeats_epoch self w0 w1 w2 ckpt _ Hfile Hload Hlt Hrun)
    as (He&Hs&_&Ho&_).
  rewrite Hepoch in He, Hs, Ho. by split_and!.
Defined.

(** A configuration whose split is unknown. *)
Lemma invalid_configuration_fails_fast_witness :
  ∃ msg eff,
    main (Toy.cfg_with_split "song") (Toy.the_hyperparams true) ∅
      = MainRaised (ValueError msg) eff ∧
    (msg = "Invalid split method" ∨ msg = "Invalid model name") ∧
    e_files eff = ∅ ∧ e_calls eff = [] ∧
    saves (e_calls eff) = [] ∧ optimizer_steps (e_calls eff) = 0%nat.
Proof.
  apply (invalid_configuration_fails_fast
           (Toy.cfg_with_split "song") (Toy.the_hyperparams true) ∅).
  left. split; discriminate.
Defined.

(** The end-to-end scenario of the specification: 2 training batches and
    1 validation batch per epoch, 2 epochs, adversarial training off:
    two checkpoints, [num_iter = 4]. *)
Example two_epochs :
  let o := main (Toy.the_cfg true) (Toy.the_hyperparams false) ∅ in
  ∃ eff, o = MainReturned eff ∧
    saves (e_calls eff)
      = [("checkpoints/RNN/run_epoch0.pt", 0);
         ("checkpoints/RNN/run_epoch1.pt", 1)] ∧
    optimizer_steps (e_calls eff) = 4%nat.
Proof. eexists. split; [vm_compute; reflexivity|]. by split. Qed.

End OnToy.

Section OnGpuHost.
#[local] Existing Instances Toy.numerics Scenarios.gpu_torch Toy.host.

(** On a machine with a GPU: a trainer at epoch 1 whose optimizer state
    lives on the GPU saves; a second trainer, on the CPU, whose model
    registers the parameters in the other order and keeps them on the
    GPU, loads that file.  The parameters take the saved contents under
    their names and the optimizer state ends on the CPU. *)
Lemma checkpoint_round_trip_witness :
  let self := Toy.trainer true false [Toy.good_batch; Toy.good_batch]
                          [Toy.good_batch] in
  let w := Toy.at_epoch 1 (Toy.with_state "cuda" Toy.world) in
  let w0 := new_world Scenarios.swapped_model
              (make_optimizer (Toy.the_hyperparams true) Scenarios.swapped_model)
              (files (saved self w)) in
  ∃ w1,
    load_checkpoint self w0 = Normal tt w1 ∧
    cur_epoch w1 = 1 ∧
    prod_map id t_data <$> m_params (model w1)
      ≡ₚ [("rnn.weight", [5]); ("version_mlp.weight", [7])] ∧
    (m_params (model w1)).*1 = ["version_mlp.weight"; "rnn.weight"] ∧
    (∀ i st k v,
       opt_state (optimizer w1) !! i = Some st → st !! k = Some v →
       on_device "cpu" v).
Proof.
  intros self w w0.
  destruct (checkpoint_round_trip self self w w0) as (w1&Hload&He&Hp&Hn&_&_&_&Hd).
  - vm_compute; reflexivity.
  - reflexivity.
  - vm_compute; reflexivity.
  - apply (bool_decide_unpack _). vm_compute. exact I.
  - apply perm_swap.
  - vm_compute; reflexivity.
  - exists w1. split_and!; [exact Hload | exact He | exact Hp | exact Hn | exact Hd].
Defined.

End OnGpuHost.

(** * More of the trainer *)

(** ** The calls of a whole run *)

Section Quiet.
Context `{Torch}.

#[local] Arguments backprop_and_step : simpl never.
#[local] Arguments log_train_step : simpl never.

(** With logging off a training step makes the four calls of the update
    and no other. *)
Lemma train_step_quiet self ctr batch w :
  cfg_log_to_wandb (cfg self) = false →
  match train_step self ctr batch w with
  | Normal _ w' => ∃ loss, w' = stepped batch loss w
  | Raised _ w' => w' = w
  end.
Proof.
  intros Hlog.
  unfold train_step, mbind at 1 2 3, M_bind at 1 2 3, get.
  destruct (forward _ _) as [e|[[lp sp] vp]]; [done|]. cbn.
  destruct (bce lp _) as [e|ll]; [done|]. cbn.
  destruct (hp_train_adv (hyperparams self)).
  - unfold adversarial, mbind at 1 2 3 4 5, M_bind at 1 2 3 4 5.
    destruct (ce _ _) as [e|vl]; [done|]. cbn.
    rewrite Hlog.
    destruct (cfg_train_singing (cfg self)).
    + unfold mbind at 1, M_bind at 1.
      destruct (bce sp _) as [e|sl]; [done|]. cbn.
      destruct (adv_loss_multiplier _ _) as [e|mult]; [done|].
      unfold mbind, M_bind, mret, M_ret. cbn.
      rewrite backprop_and_step_normal. by eexists.
    + cbn. destruct (adv_loss_multiplier _ _) as [e|mult]; [done|].
      unfold mbind, M_bind, mret, M_ret. cbn.
      rewrite backprop_and_step_normal. by eexists.
  - rewrite Hlog. unfold mbind, M_bind, mret, M_ret. cbn.
    rewrite backprop_and_step_normal. by eexists.
Qed.

(** With logging off the validation phase makes no call. *)
Lemma validation_phase_quiet self ctr w :
  cfg_log_to_wandb (cfg self) = false →
  final (validation_phase self ctr w) = validating w.
Proof.
  intros Hlog. unfold validation_phase, iterate. mstep. fold (validating w).
  match goal with |- context [for_each ?bs _ ?t _] =>
    pose proof (for_each_valid_final self bs t (validating w)) as Hloop;
    destruct (for_each bs (valid_step self) t (validating w)) as [tot w1|e w1]
  end; simpl in Hloop; subst w1; [|done].
  by rewrite Hlog.
Qed.

End Quiet.

Section TraceInduction.
Context `{Torch}.
Variable self : Trainer.
Variable P : list Call → Prop.
Hypothesis P_wandb : ∀ cs c,
  cfg_log_to_wandb (cfg self) = true → is_wandb c = true →
  P cs → P (cs ++ [c]).
Hypothesis P_update : ∀ cs loss, P cs → P (cs ++ update_of loss).
Hypothesis P_save : ∀ cs ckpt,
  P cs →
  P (cs ++ [Mkdir (ckpt_dir (cfg self));
            TorchSave (ckpt_path (cfg self) (ck_epoch ckpt)) ckpt]).

#[local] Abbreviation holds := (λ w : World, P (calls w)).

Lemma only_logs_wandb logs : only_logs logs → Forall (λ c, is_wandb c = true) logs.
Proof. intros Hl. eapply Forall_impl; [exact Hl|]. by intros []. Qed.

Lemma holds_add_logs logs w :
  cfg_log_to_wandb (cfg self) = true → only_logs logs →
  holds w → holds (add_logs logs w).
Proof.
  intros Hlog Hl%only_logs_wandb. revert w.
  induction Hl as [|c logs Hc _ IH]; intros w Hw; [done|].
  cbn. apply IH. cbn. by apply P_wandb.
Qed.

Lemma holds_stepped batch loss w : holds w → holds (stepped batch loss w).
Proof. cbn. rewrite stepped_calls. apply P_update. Qed.

Lemma holds_saved w : holds w → holds (saved self w).
Proof. cbn. rewrite saved_calls. apply (P_save _ (snapshot w)). Qed.

Lemma train_step_holds ctr batch :
  hoare holds (train_step self ctr batch) (λ _, holds) holds.
Proof.
  intros w Hw.
  destruct (bool_dec (cfg_log_to_wandb (cfg self)) true)
    as [Hlog|Hlog%not_true_is_false].
  - pose proof (train_step_shape self ctr batch w) as Hshape.
    destruct (train_step self ctr batch w) as [ctr' w'|e w'].
    + destruct Hshape as (loss&logs&logs'&Hl&Hl'&->&_).
      by apply holds_add_logs, holds_stepped, holds_add_logs.
    + by subst w'.
  - pose proof (train_step_quiet self ctr batch w Hlog) as Hshape.
    destruct (train_step self ctr batch w) as [ctr' w'|e w'].
    + destruct Hshape as (loss&->). by apply holds_stepped.
    + by subst w'.
Qed.

Lemma validation_phase_holds ctr :
  hoare holds (validation_phase self ctr) (λ _, holds) holds.
Proof.
  intros w Hw.
  destruct (bool_dec (cfg_log_to_wandb (cfg self)) true)
    as [Hlog|Hlog%not_true_is_false].
  - pose proof (validation_phase_shape self ctr w) as Hshape.
    destruct (validation_phase self ctr w) as [ctr' w'|e w'].
    + destruct Hshape as (_&logs&Hl&->). by apply holds_add_logs.
    + by subst w'.
  - pose proof (validation_phase_quiet self ctr w Hlog) as Hshape.
    destruct (validation_phase self ctr w) as [ctr' w'|e w'];
      simpl in Hshape; by subst w'.
Qed.

Lemma train_phase_holds ctr epoch :
  hoare holds (train_phase self ctr epoch) (λ _, holds) holds.
Proof.
  intros w Hw. unfold train_phase, iterate. mstep.
  apply (hoare_for_each_keeps (train_step self) holds _ ctr
           (λ b c, train_step_holds c b)).
  exact Hw.
Qed.

Lemma epoch_body_holds ctr epoch :
  hoare holds (epoch_body self ctr epoch) (λ _, holds) holds.
Proof.
  unfold epoch_body.
  eapply hoare_bind; [apply train_phase_holds|]. intros ctr1.
  eapply hoare_bind; [apply validation_phase_holds|]. intros ctr2.
  intros w Hw. by apply holds_saved.
Qed.

(** Induction on the calls of a run: a property of call sequences that
    survives a wandb call made while logging is on, the four calls of an
    update, and the two calls of a checkpoint, holds of the calls [train]
    has made when it ends, however it ends. *)
Lemma train_holds : hoare holds (train self) (λ _, holds) holds.
Proof.
  intros w Hw. unfold train.
  assert (Hloop : ∀ epochs ctr,
    hoare holds (for_each epochs (epoch_body self) ctr) (λ _, holds) holds).
  { intros epochs ctr. apply hoare_for_each_keeps. intros e c.
    apply epoch_body_holds. }
  destruct (bool_dec (cfg_log_to_wandb (cfg self)) true)
    as [Hlog|Hlog%not_true_is_false]; rewrite Hlog; mstep.
  - match goal with |- context [for_each ?es _ ?c ?w0] =>
      specialize (Hloop es c w0); destruct (for_each es _ c w0) as [ctr w'|e w']
    end; cbn.
    + apply (P_wandb _ WandbFinish Hlog eq_refl). apply Hloop. cbn.
      by apply P_wandb.
    + apply Hloop. cbn. by apply P_wandb.
  - match goal with |- context [for_each ?es _ ?c ?w0] =>
      specialize (Hloop es c w0); destruct (for_each es _ c w0) as [ctr w'|e w']
    end; cbn; by apply Hloop.
Qed.

End TraceInduction.

Section RunCalls.
Context `{Torch}.

Lemma updates_app (cs cs' : list Call) :
  updates (cs ++ cs') = updates cs ++ updates cs'.
Proof. apply List.filter_app. Qed.

(** X1. Every parameter update of a run of [train] is the same four
    calls in the same order: [zero_grad()], [backward()] on the loss of
    the batch, [clip_grad_norm_(..., 1)], [step()].  However the run ends,
    the update calls it has made are a sequence of such groups: the
    gradient is always clipped to 1 between [backward()] and [step()]. *)
Theorem updates_are_clipped (self : Trainer) (w : World) :
  ∃ losses : list Scalar,
    updates (calls (final (train self w)))
    = updates (calls w) ++ (losses ≫= update_of).
Proof.
  pose proof (train_holds self
    (λ cs, ∃ losses, updates cs = updates (calls w) ++ (losses ≫= update_of)))
    as Hrun.
  assert (Hend : ∀ o : Outcome Counters,
    match o with
    | Normal _ w' | Raised _ w' =>
        ∃ losses, updates (calls w') = updates (calls w) ++ (losses ≫= update_of)
    end →
    ∃ losses, updates (calls (final o)) = updates (calls w) ++ (losses ≫= update_of))
    by (by intros []).
  apply Hend, Hrun.
  - intros cs c _ Hc (losses&Hcs). exists losses.
    rewrite updates_app, Hcs. destruct c; try done; cbn; by rewrite app_nil_r.
  - intros cs loss (losses&Hcs). exists (losses ++ [loss]).
    rewrite updates_app, Hcs, bind_app. cbn. by rewrite <- app_assoc.
  - intros cs ckpt (losses&Hcs). exists losses.
    rewrite updates_app, Hcs. cbn. by rewrite app_nil_r.
  - exists []. cbn. by rewrite app_nil_r.
Qed.

(** X2. What [train] never calls.  However a run ends, the calls it has
    made contain no [torch.load]; they contain a wandb call ([init],
    [log], [finish]) only if [cfg.log_to_wandb] is set; and the only
    directory it creates is [checkpoints/{cfg.model}]. *)
Theorem train_footprint (self : Trainer) (w : World) :
  ∃ cs,
    calls (final (train self w)) = calls w ++ cs ∧
    Forall (λ c,
      is_load c = false ∧
      (is_wandb c = true → cfg_log_to_wandb (cfg self) = true) ∧
      (∀ dir, c = Mkdir dir → dir = ckpt_dir (cfg self))) cs.
Proof.
  set (ok := λ c : Call,
    is_load c = false ∧
    (is_wandb c = true → cfg_log_to_wandb (cfg self) = true) ∧
    (∀ dir, c = Mkdir dir → dir = ckpt_dir (cfg self))).
  pose proof (train_holds self
    (λ cs', ∃ cs, cs' = calls w ++ cs ∧ Forall ok cs)) as Hrun.
  assert (Hend : ∀ o : Outcome Counters,
    match o with
    | Normal _ w' | Raised _ w' =>
        ∃ cs, calls w' = calls w ++ cs ∧ Forall ok cs
    end →
    ∃ cs, calls (final o) = calls w ++ cs ∧ Forall ok cs)
    by (by intros []).
  apply Hend, Hrun.
  - intros cs' c Hlog Hc (cs&->&Hcs). exists (cs ++ [c]).
    split; [by rewrite app_assoc|]. apply Forall_app. split; [done|].
    apply Forall_singleton. subst ok. cbn. by destruct c.
  - intros cs' loss (cs&->&Hcs). exists (cs ++ update_of loss).
    split; [by rewrite app_assoc|]. apply Forall_app. split; [done|].
    subst ok. by repeat (apply Forall_cons; split; [done|]).
  - intros cs' ckpt (cs&->&Hcs). eexists (cs ++ [_; _]).
    split; [by rewrite app_assoc|]. apply Forall_app. split; [done|].
    subst ok. repeat (apply Forall_cons; split); try done.
    split_and!; [done..|]. by intros dir [= <-].
  - exists []. split; [by rewrite app_nil_r | done].
Qed.

End RunCalls.

(** ** Counters and the ramp over a run *)

Section Counting.
Context `{Torch}.

#[local] Arguments backprop_and_step : simpl never.
#[local] Arguments log_train_step : simpl never.

Lemma logged_app key (cs cs' : list Call) :
  logged key (cs ++ cs') = logged key cs ++ logged key cs'.
Proof. apply bind_app. Qed.

Lemma stepped_logged key batch loss w :
  logged key (calls (stepped batch loss w)) = logged key (calls w).
Proof. rewrite stepped_calls, logged_app. cbn. by rewrite app_nil_r. Qed.

Lemma train_step_counters self ctr batch w ctr' w' :
  train_step self ctr batch w = Normal ctr' w' →
  num_iter ctr' = num_iter ctr + 1 ∧
  adv_iter ctr'
    = adv_iter ctr + (if hp_train_adv (hyperparams self) then 1 else 0).
Proof.
  intros Hrun. pose proof (train_step_shape self ctr batch w) as Hshape.
  rewrite Hrun in Hshape. by destruct Hshape as (?&?&?&_&_&_&?&?).
Qed.

Lemma train_loop_counters self batches ctr w ctr' w' :
  for_each batches (train_step self) ctr w = Normal ctr' w' →
  adv_iter ctr'
    = adv_iter ctr
      + (if hp_train_adv (hyperparams self)
         then Z.of_nat (length batches) else 0).
Proof.
  revert ctr w. induction batches as [|b bs IH]; intros ctr w; simpl.
  - intros [= -> ->]. destruct (hp_train_adv _); lia.
  - intros Hrun. apply bind_normal_inv in Hrun as (ctr1&w1&Hstep&Hrest).
    apply train_step_counters in Hstep as (_&Ha). apply IH in Hrest.
    destruct (hp_train_adv _); lia.
Qed.

Lemma train_phase_counters self ctr epoch w ctr' w' :
  train_phase self ctr epoch w = Normal ctr' w' →
  adv_iter ctr'
    = adv_iter ctr
      + (if hp_train_adv (hyperparams self) then len (train_loader self) else 0).
Proof.
  unfold train_phase, iterate. mstep. intros Hloop.
  apply train_loop_counters in Hloop.
  unfold batches_of in Hloop. by rewrite length_fmap, length_seq in Hloop.
Qed.

Lemma epoch_loop_counters self epochs ctr w ctr' w' :
  for_each epochs (epoch_body self) ctr w = Normal ctr' w' →
  adv_iter ctr'
    = adv_iter ctr
      + (if hp_train_adv (hyperparams self)
         then Z.of_nat (length epochs) * len (train_loader self) else 0).
Proof.
  revert ctr w. induction epochs as [|e es IH]; intros ctr w; simpl.
  - intros [= -> ->]. destruct (hp_train_adv _); lia.
  - intros Hrun. apply bind_normal_inv in Hrun as (ctr1&w1&Hep&Hrest).
    apply epoch_body_inv in Hep as (ctr_t&w_t&w_v&Ht&Hv&_).
    apply train_phase_counters in Ht.
    apply validation_phase_effect in Hv as (->&_).
    apply IH in Hrest. destruct (hp_train_adv _); lia.
Qed.

(** X3. The counters of a run that returns.  With [n] the number of
    epochs of the loop, [num_iter] ends at [n * len(train_loader)], which
    is also the number of [optimizer.step()] calls made; [adv_iter] ends
    equal to [num_iter] when adversarial training is on and at [0] when it
    is off. *)
Theorem run_totals (self : Trainer) (w : World) (ctr : Counters) (w' : World) :
  train self w = Normal ctr w' →
  let n := length (Py.range (cur_epoch w) (hp_num_epochs (hyperparams self))) in
  num_iter ctr = Z.of_nat n * len (train_loader self) ∧
  adv_iter ctr = (if hp_train_adv (hyperparams self) then num_iter ctr else 0) ∧
  optimizer_steps (calls w')
    = (optimizer_steps (calls w) + n * dl_len (train_loader self))%nat.
Proof.
  intros Hrun n.
  apply train_inv in Hrun as (w0&w1&Hloop&_&_&Ho0&_&_&Ho1).
  pose proof (epoch_loop_counters _ _ _ _ _ _ Hloop) as Ha.
  apply epoch_loop_effect in Hloop as (_&_&_&Ho&Hn).
  fold n in Ha, Ho, Hn. cbn in Ha, Hn.
  split_and!; [lia | destruct (hp_train_adv _); lia | by rewrite Ho1, Ho, Ho0].
Qed.

End Counting.

Section Ramp.
Context `{Torch}.

#[local] Arguments backprop_and_step : simpl never.

Lemma multiplier_inv (a n : Z) (mult : Q) :
  adv_loss_multiplier a n = Ok mult →
  mult = Py.min 1 (inject_Z a / inject_Z n).
Proof.
  unfold adv_loss_multiplier, Py.truediv.
  destruct (decide (n = 0)); [done|]. by intros [= <-].
Qed.

(** The calls [log_train_step] appends, spelled out. *)
Lemma log_train_step_calls self ctr lp lg sp sg vg loss adv w :
  ∃ f1 precision recall,
    get_binary_f1 lp lg (1 # 2) = (f1, precision, recall) ∧
    calls (final (log_train_step self ctr lp lg sp sg vg loss adv w))
    = calls w
      ++ [WandbLog [("train/loss", item loss); ("train/precision", precision);
                    ("train/recall", recall); ("train/f1", f1)]
                   (Some (num_iter ctr));
          WandbLog [("train/total_loss", item loss)] (Some (num_iter ctr))]
      ++ match adv with
         | Some a =>
             [WandbLog [("adv/version_loss", item (a_version_loss a))]
                       (Some (num_iter ctr));
              WandbLog [("adv/version_acc",
                         get_multiclass_acc (a_version_pred a) vg)]
                       (Some (num_iter ctr))]
             ++ match a_singing_loss a with
                | Some singing_loss =>
                    [WandbLog [("adv/singing_loss", item singing_loss);
                               ("adv/singing_train_f1",
                                (get_binary_f1 sp sg (1 # 2)).1.1)]
                              (Some (num_iter ctr))]
                | None => []
                end
         | None => []
         end.
Proof.
  unfold log_train_step.
  destruct (get_binary_f1 lp lg _) as [[f1 precision] recall].
  exists f1, precision, recall. split; [done|].
  destruct adv as [a|].
  - destruct (a_singing_loss a) as [sl|].
    + destruct (get_binary_f1 sp sg _) as [[f1' p'] r']. mstep.
      by rewrite <- !app_assoc.
    + mstep. by rewrite <- !app_assoc.
  - mstep. by rewrite <- !app_assoc.
Qed.

Lemma log_train_step_returned self ctr lp lg sp sg vg loss adv w :
  log_train_step self ctr lp lg sp sg vg loss adv w
  = Normal tt (final (log_train_step self ctr lp lg sp sg vg loss adv w)).
Proof.
  destruct (log_train_step_normal self ctr lp lg sp sg vg loss adv w)
    as (logs&_&->). done.
Qed.

Lemma log_train_step_multiplier self ctr lp lg sp sg vg loss adv w :
  logged "adv/loss_multiplier"
    (calls (final (log_train_step self ctr lp lg sp sg vg loss adv w)))
  = logged "adv/loss_multiplier" (calls w).
Proof.
  destruct (log_train_step_calls self ctr lp lg sp sg vg loss adv w)
    as (f1&precision&recall&_&->).
  rewrite !logged_app.
  destruct adv as [a|]; [destruct (a_singing_loss a)|]; cbn;
    by rewrite ?app_nil_r.
Qed.

(** With adversarial training and logging on, a training step that
    returns has logged one multiplier: the ramp read at [adv_iter], under
    the step [num_iter]. *)
Lemma train_step_multiplier self ctr batch w ctr' w' :
  hp_train_adv (hyperparams self) = true →
  cfg_log_to_wandb (cfg self) = true →
  train_step self ctr batch w = Normal ctr' w' →
  logged "adv/loss_multiplier" (calls w')
  = logged "adv/loss_multiplier" (calls w)
    ++ [(Py.min 1 (inject_Z (adv_iter ctr)
                   / inject_Z (hp_adv_grad_iter (hyperparams self))),
         Some (num_iter ctr))].
Proof.
  intros Hadv Hlog.
  unfold train_step, mbind at 1 2 3, M_bind at 1 2 3, get.
  destruct (forward _ _) as [e|[[lp sp] vp]]; [done|]. cbn.
  destruct (bce lp _) as [e|ll]; [done|]. cbn.
  rewrite Hadv.
  unfold adversarial, mbind at 1 2 3 4 5, M_bind at 1 2 3 4 5.
  destruct (ce _ _) as [e|vl]; [done|]. cbn.
  rewrite Hlog.
  assert (Htail : ∀ loss adv mult,
    adv_loss_multiplier (adv_iter ctr) (hp_adv_grad_iter (hyperparams self))
      = inr mult →
    match
      log_train_step self ctr lp (to (device self) (b_leitmotif_gt batch)) sp
        (to (device self) (b_singing_gt batch))
        (to (device self) (b_version_gt batch)) loss adv
        (stepped batch loss
           (add_call (WandbLog [("adv/loss_multiplier", mult)]
                               (Some (num_iter ctr))) w))
    with
    | Normal _ w0 =>
        Normal {| num_iter := num_iter ctr + 1; adv_iter := adv_iter ctr + 1 |} w0
    | Raised e w0 => Raised e w0
    end = Normal ctr' w' →
    logged "adv/loss_multiplier" (calls w')
    = logged "adv/loss_multiplier" (calls w)
      ++ [(Py.min 1 (inject_Z (adv_iter ctr)
                     / inject_Z (hp_adv_grad_iter (hyperparams self))),
           Some (num_iter ctr))]).
  { intros loss adv mult Hmult%multiplier_inv.
    rewrite log_train_step_returned. intros [= _ <-].
    rewrite log_train_step_multiplier, stepped_logged. cbn [calls add_call].
    rewrite logged_app. cbn. by rewrite Hmult. }
  destruct (cfg_train_singing (cfg self)).
  - unfold mbind at 1, M_bind at 1.
    destruct (bce sp _) as [e|sl]; [done|]. cbn.
    destruct (adv_loss_multiplier _ _) as [e|mult] eqn:Hmult; [done|].
    unfold mbind, M_bind, mret, M_ret. cbn.
    rewrite backprop_and_step_normal. by apply Htail.
  - cbn. destruct (adv_loss_multiplier _ _) as [e|mult] eqn:Hmult; [done|].
    unfold mbind, M_bind, mret, M_ret. cbn.
    rewrite backprop_and_step_normal. by apply Htail.
Qed.

(** The validation phase that returns, spelled out: the loop has run in
    [validating w] and left it as it was; then, with logging on, the four
    means were logged without a step. *)
Lemma validation_phase_calls self ctr w ctr' w' :
  validation_phase self ctr w = Normal ctr' w' →
  ∃ tot,
    for_each (batches_of (valid_loader self)
                         (set_mixup false (set_model model_eval w)))
             (valid_step self)
             {| total_loss := 0; total_precision := 0;
                total_recall := 0; total_f1 := 0 |} (validating w)
      = Normal tot (validating w) ∧
    w' = add_logs
           (if cfg_log_to_wandb (cfg self)
            then [WandbLog
                    [("valid/loss",
                      (total_loss tot / inject_Z (len (valid_loader self)))%Q);
                     ("valid/precision",
                      (total_precision tot / inject_Z (len (valid_loader self)))%Q);
                     ("valid/recall",
                      (total_recall tot / inject_Z (len (valid_loader self)))%Q);
                     ("valid/f1",
                      (total_f1 tot / inject_Z (len (valid_loader self)))%Q)]
                    None]
            else [])
           (validating w) ∧
    (cfg_log_to_wandb (cfg self) = true → len (valid_loader self) ≠ 0).
Proof.
  unfold validation_phase, iterate. mstep. fold (validating w).
  match goal with |- context [for_each ?bs _ ?t _] =>
    pose proof (for_each_valid_final self bs t (validating w)) as Hloop;
    destruct (for_each bs (valid_step self) t (validating w)) as [tot w1|e w1]
  end; simpl in Hloop; subst w1; [|done].
  destruct (cfg_log_to_wandb (cfg self)); cbn.
  - unfold log_validation, Py.truediv_q.
    destruct (decide (len (valid_loader self) = 0)) as [Hz|Hnz]; [done|].
    mstep. intros [= _ <-]. by exists tot.
  - intros [= _ <-]. by exists tot.
Qed.

Lemma validation_phase_logged key self ctr w ctr' w' :
  key ≠ "valid/loss" → key ≠ "valid/precision" →
  key ≠ "valid/recall" → key ≠ "valid/f1" →
  validation_phase self ctr w = Normal ctr' w' →
  logged key (calls w') = logged key (calls w).
Proof.
  intros H1 H2 H3 H4 (tot&_&->&_)%validation_phase_calls.
  rewrite add_logs_calls, logged_app.
  destruct (cfg_log_to_wandb (cfg self)); cbn.
  - repeat case_decide; try done. by rewrite app_nil_r.
  - by rewrite app_nil_r.
Qed.

Lemma saved_logged key self w :
  logged key (calls (saved self w)) = logged key (calls w).
Proof. rewrite saved_calls, logged_app. cbn. by rewrite app_nil_r. Qed.

#[local] Abbreviation ramp_at self :=
  (λ k : Z,
     (Py.min 1 (inject_Z k / inject_Z (hp_adv_grad_iter (hyperparams self))),
      Some k)).

Lemma train_loop_multipliers self batches ctr w ctr' w' :
  hp_train_adv (hyperparams self) = true →
  cfg_log_to_wandb (cfg self) = true →
  adv_iter ctr = num_iter ctr →
  for_each batches (train_step self) ctr w = Normal ctr' w' →
  logged "adv/loss_multiplier" (calls w')
  = logged "adv/loss_multiplier" (calls w)
    ++ (ramp_at self <$> seqZ (num_iter ctr) (Z.of_nat (length batches))) ∧
  adv_iter ctr' = num_iter ctr' ∧
  num_iter ctr' = num_iter ctr + Z.of_nat (length batches).
Proof.
  intros Hadv Hlog. revert ctr w.
  induction batches as [|b bs IH]; intros ctr w Hctr; simpl.
  - intros [= -> ->]. rewrite app_nil_r. split_and!; [done..|lia].
  - intros Hrun. apply bind_normal_inv in Hrun as (ctr1&w1&Hstep&Hrest).
    pose proof (train_step_multiplier _ _ _ _ _ _ Hadv Hlog Hstep) as Hm.
    apply train_step_counters in Hstep as (Hn&Ha). rewrite Hadv in Ha.
    apply IH in Hrest as (Hm'&Ha'&Hn'); [|lia].
    split_and!; [|done|lia].
    rewrite Hm', Hm, Hctr, <- app_assoc. f_equal.
    rewrite (seqZ_cons (num_iter ctr)) by lia. cbn. do 2 f_equal.
    rewrite Hn. f_equal; lia.
Qed.

Lemma epoch_body_multipliers self ctr epoch w ctr' w' :
  hp_train_adv (hyperparams self) = true →
  cfg_log_to_wandb (cfg self) = true →
  adv_iter ctr = num_iter ctr →
  epoch_body self ctr epoch w = Normal ctr' w' →
  logged "adv/loss_multiplier" (calls w')
  = logged "adv/loss_multiplier" (calls w)
    ++ (ramp_at self <$> seqZ (num_iter ctr) (len (train_loader self))) ∧
  adv_iter ctr' = num_iter ctr' ∧
  num_iter ctr' = num_iter ctr + len (train_loader self).
Proof.
  intros Hadv Hlog Hctr Hrun.
  apply epoch_body_inv in Hrun as (ctr_t&w_t&w_v&Ht&Hv&->&_).
  pose proof (validation_phase_logged "adv/loss_multiplier" _ _ _ _ _
                ltac:(done) ltac:(done) ltac:(done) ltac:(done) Hv) as Hlv.
  apply validation_phase_effect in Hv as (->&_).
  revert Ht. unfold train_phase, iterate. mstep. intros Hloop.
  apply (train_loop_multipliers _ _ _ _ _ _ Hadv Hlog Hctr) in Hloop
    as (Hm&Ha&Hn).
  unfold batches_of in Hm, Hn. rewrite length_fmap, length_seq in Hm, Hn.
  by rewrite saved_logged, Hlv, Hm.
Qed.

Lemma epoch_loop_multipliers self epochs ctr w ctr' w' :
  hp_train_adv (hyperparams self) = true →
  cfg_log_to_wandb (cfg self) = true →
  adv_iter ctr = num_iter ctr →
  for_each epochs (epoch_body self) ctr w = Normal ctr' w' →
  logged "adv/loss_multiplier" (calls w')
  = logged "adv/loss_multiplier" (calls w)
    ++ (ramp_at self
          <$> seqZ (num_iter ctr)
                   (Z.of_nat (length epochs) * len (train_loader self))) ∧
  num_iter ctr'
  = num_iter ctr + Z.of_nat (length epochs) * len (train_loader self).
Proof.
  intros Hadv Hlog. revert ctr w.
  induction epochs as [|e es IH]; intros ctr w Hctr; simpl.
  - intros [= -> ->]. rewrite app_nil_r. split; [done|lia].
  - intros Hrun. apply bind_normal_inv in Hrun as (ctr1&w1&Hep&Hrest).
    apply (epoch_body_multipliers _ _ _ _ _ _ Hadv Hlog Hctr) in Hep
      as (Hm&Ha&Hn).
    apply IH in Hrest as (Hm'&Hn'); [|done].
    split; [|lia].
    rewrite Hm', Hm, <- app_assoc, <- fmap_app. do 2 f_equal.
    unfold len in *.
    replace (Z.of_nat (S (length es)) * Z.of_nat (dl_len (train_loader self)))
      with (Z.of_nat (dl_len (train_loader self))
            + Z.of_nat (length es) * Z.of_nat (dl_len (train_loader self)))
      by lia.
    rewrite seqZ_app by lia. by rewrite Hn.
Qed.

(** [train] that returns, spelled out around its epoch loop. *)
Lemma train_inv_exact self w ctr w' :
  train self w = Normal ctr w' →
  ∃ w1,
    for_each (Py.range (cur_epoch w) (hp_num_epochs (hyperparams self)))
             (epoch_body self) {| num_iter := 0; adv_iter := 0 |}
             (set_model (model_to (device self))
                (add_logs
                   (if cfg_log_to_wandb (cfg self)
                    then [WandbInit "ring-leitmotif" (cfg_run_name (cfg self))]
                    else []) w))
      = Normal ctr w1 ∧
    w' = add_logs (if cfg_log_to_wandb (cfg self) then [WandbFinish] else []) w1.
Proof.
  unfold train.
  destruct (cfg_log_to_wandb (cfg self)); mstep.
  - destruct (for_each _ _ _ _) as [ctr1 w1|e w1]; [|done]. cbn.
    intros [= <- <-]. by exists w1.
  - destruct (for_each _ _ _ _) as [ctr1 w1|e w1]; [|done]. cbn.
    intros [= <- <-]. by exists w1.
Qed.

(** X4. The ramp over a whole run.  With adversarial training and
    logging on, a run of [train] that returns has logged
    ["adv/loss_multiplier"] once per training step: the [k]-th step of the
    run (counted from 0 across epochs) logs [min(1, k / adv_grad_iter)]
    under step [k].  Both counters start at 0 in every call of [train], so
    a resumed run ramps up from 0 again. *)
Theorem ramp_schedule (self : Trainer) (w : World) (ctr : Counters) (w' : World) :
  hp_train_adv (hyperparams self) = true →
  cfg_log_to_wandb (cfg self) = true →
  train self w = Normal ctr w' →
  logged "adv/loss_multiplier" (calls w')
  = logged "adv/loss_multiplier" (calls w)
    ++ ((λ k : Z,
           (Py.min 1 (inject_Z k
                      / inject_Z (hp_adv_grad_iter (hyperparams self))),
            Some k))
          <$> seqZ 0 (num_iter ctr)).
Proof.
  intros Hadv Hlog (w1&Hloop&->)%train_inv_exact.
  rewrite Hlog in Hloop |- *.
  apply (epoch_loop_multipliers self _ {| num_iter := 0; adv_iter := 0 |}
           _ _ _ Hadv Hlog eq_refl) in Hloop as (Hm&Hn).
  cbn [num_iter calls set_model] in Hm, Hn.
  rewrite add_logs_calls, logged_app in Hm.
  rewrite add_logs_calls, logged_app, Hm, Hn, Z.add_0_l.
  change (logged "adv/loss_multiplier" [WandbFinish]) with (@nil (Q * option Z)).
  change (logged "adv/loss_multiplier"
            [WandbInit "ring-leitmotif" (cfg_run_name (cfg self))])
    with (@nil (Q * option Z)).
  by rewrite !app_nil_r.
Qed.

End Ramp.

(** ** What a step and a validation phase log and backpropagate *)

Section StepValues.
Context `{Torch}.

#[local] Arguments backprop_and_step : simpl never.

Lemma valid_step_total self tot batch w tot' w' :
  valid_step self tot batch w = Normal tot' w' →
  ∃ l, leitmotif_loss_of self (model w) batch = Ok l ∧
       total_loss tot' = (total_loss tot + item l)%Q ∧ w' = w.
Proof.
  unfold valid_step, leitmotif_loss_of, mbind, M_bind, get.
  destruct (forward _ _) as [e|[[lp sp] vp]]; [done|]. cbn.
  destruct (bce lp _) as [e|ll]; [done|]. cbn.
  destruct (cfg_log_to_wandb (cfg self)).
  - destruct (get_binary_f1 _ _ _) as [[f1 precision] recall].
    intros [= <- <-]. by exists ll.
  - intros [= <- <-]. by exists ll.
Qed.

Lemma valid_loop_total self batches tot w tot' w' :
  for_each batches (valid_step self) tot w = Normal tot' w' →
  ∃ losses,
    Forall2 (λ b l, leitmotif_loss_of self (model w) b = Ok l) batches losses ∧
    total_loss tot'
    = fold_left (λ acc l, (acc + item l)%Q) losses (total_loss tot).
Proof.
  revert tot. induction batches as [|b bs IH]; intros tot; simpl.
  - intros [= -> ->]. by exists [].
  - intros Hrun. apply bind_normal_inv in Hrun as (tot1&w1&Hstep&Hrest).
    apply valid_step_total in Hstep as (l&Hl&Ht&->).
    apply IH in Hrest as (losses&Hall&Htot).
    exists (l :: losses). split; [by constructor|]. cbn. by rewrite <- Ht.
Qed.

(** X5. The validation loss of an epoch.  When the validation phase
    returns with logging on, the validation stream is not empty, every
    batch of the pass (drawn with mixup off) had its leitmotif BCE
    computed under the model in eval mode, and the value logged as
    ["valid/loss"], without a step, is the sum of those losses divided by
    the number of batches. *)
Theorem validation_mean (self : Trainer) (ctr : Counters) (w : World)
    (ctr' : Counters) (w' : World) :
  cfg_log_to_wandb (cfg self) = true →
  validation_phase self ctr w = Normal ctr' w' →
  ∃ losses : list Scalar,
    Forall2 (λ b l, leitmotif_loss_of self (model_eval (model w)) b = Ok l)
            (dl_batch (valid_loader self) false (passes w)
               <$> seq 0 (dl_len (valid_loader self)))
            losses ∧
    len (valid_loader self) ≠ 0 ∧
    logged "valid/loss" (calls w')
    = logged "valid/loss" (calls w)
      ++ [((total_of losses / inject_Z (len (valid_loader self)))%Q, None)].
Proof.
  intros Hlog (tot&Hloop&->&Hlen)%validation_phase_calls.
  apply valid_loop_total in Hloop as (losses&Hall&Htot).
  exists losses. split; [exact Hall|]. split; [by apply Hlen|].
  rewrite Hlog, add_logs_calls, logged_app. cbn. by rewrite Htot.
Qed.

(** The adversarial step with logging on, run: the state it returns. *)
Lemma train_step_adversarial_logged (self : Trainer) (ctr : Counters)
    (batch : Batch) (w : World)
    (leitmotif_pred singing_pred version_pred : Tensor)
    (leitmotif_loss version_loss singing_loss : Scalar) :
  hp_train_adv (hyperparams self) = true →
  cfg_log_to_wandb (cfg self) = true →
  hp_adv_grad_iter (hyperparams self) ≠ 0 →
  forward (model w) (to (device self) (b_cqt batch))
    = Ok (leitmotif_pred, singing_pred, version_pred) →
  bce leitmotif_pred (to (device self) (b_leitmotif_gt batch))
    = Ok leitmotif_loss →
  ce (permute_0_2_1 version_pred) (to (device self) (b_version_gt batch))
    = Ok version_loss →
  (cfg_train_singing (cfg self) = true →
   bce singing_pred (to (device self) (b_singing_gt batch)) = Ok singing_loss) →
  let mult :=
    Py.min 1 (inject_Z (adv_iter ctr)
              / inject_Z (hp_adv_grad_iter (hyperparams self))) in
  let adv_loss :=
    if cfg_train_singing (cfg self) then sadd version_loss singing_loss
    else version_loss in
  let loss := sadd leitmotif_loss (smul mult adv_loss) in
  ∃ ctr',
    train_step self ctr batch w
    = Normal ctr'
        (final
           (log_train_step self ctr leitmotif_pred
              (to (device self) (b_leitmotif_gt batch)) singing_pred
              (to (device self) (b_singing_gt batch))
              (to (device self) (b_version_gt batch)) loss
              (Some {| a_version_pred := permute_0_2_1 version_pred;
                       a_version_loss := adv_loss;
                       a_singing_loss :=
                         if cfg_train_singing (cfg self)
                         then Some singing_loss else None |})
              (stepped batch loss
                 (add_call (WandbLog [("adv/loss_multiplier", mult)]
                                     (Some (num_iter ctr))) w)))).
Proof.
  intros Hadv Hlog Hiter Hfwd Hbce Hce Hsing mult adv_loss loss.
  unfold train_step, mbind at 1 2 3, M_bind at 1 2 3, get.
  rewrite Hfwd. cbn. rewrite Hbce. cbn. rewrite Hadv.
  unfold adversarial, mbind at 1 2 3 4 5, M_bind at 1 2 3 4 5.
  rewrite Hce. cbn.
  rewrite (multiplier_nonzero _ _ Hiter). fold mult. rewrite Hlog.
  subst loss adv_loss.
  destruct (cfg_train_singing (cfg self)).
  - unfold mbind at 1, M_bind at 1. rewrite (Hsing eq_refl).
    unfold mbind, M_bind, mret, M_ret. cbn.
    rewrite backprop_and_step_normal, log_train_step_returned. by eexists.
  - unfold mbind, M_bind, mret, M_ret. cbn.
    rewrite backprop_and_step_normal, log_train_step_returned. by eexists.
Qed.

(** X6. What is logged as the training loss.  [loss = leitmotif_loss]
    binds both names to one tensor and [loss += ...] adds to it in place;
    so, with adversarial training and logging on, a step logs the total
    loss under ["train/loss"] as well as under ["train/total_loss"], and
    under ["adv/version_loss"] it logs the whole adversarial loss (the
    version CE plus, with [cfg.train_singing], the singing BCE). *)
Theorem logged_losses_are_totals (self : Trainer) (ctr : Counters)
    (batch : Batch) (w : World)
    (leitmotif_pred singing_pred version_pred : Tensor)
    (leitmotif_loss version_loss singing_loss : Scalar) :
  hp_train_adv (hyperparams self) = true →
  cfg_log_to_wandb (cfg self) = true →
  hp_adv_grad_iter (hyperparams self) ≠ 0 →
  forward (model w) (to (device self) (b_cqt batch))
    = Ok (leitmotif_pred, singing_pred, version_pred) →
  bce leitmotif_pred (to (device self) (b_leitmotif_gt batch))
    = Ok leitmotif_loss →
  ce (permute_0_2_1 version_pred) (to (device self) (b_version_gt batch))
    = Ok version_loss →
  (cfg_train_singing (cfg self) = true →
   bce singing_pred (to (device self) (b_singing_gt batch)) = Ok singing_loss) →
  let mult :=
    Py.min 1 (inject_Z (adv_iter ctr)
              / inject_Z (hp_adv_grad_iter (hyperparams self))) in
  let adv_loss :=
    if cfg_train_singing (cfg self) then sadd version_loss singing_loss
    else version_loss in
  let total := sadd leitmotif_loss (smul mult adv_loss) in
  ∃ ctr' w',
    train_step self ctr batch w = Normal ctr' w' ∧
    logged "train/loss" (calls w')
    = logged "train/loss" (calls w) ++ [(item total, Some (num_iter ctr))] ∧
    logged "train/total_loss" (calls w')
    = logged "train/total_loss" (calls w) ++ [(item total, Some (num_iter ctr))] ∧
    logged "adv/version_loss" (calls w')
    = logged "adv/version_loss" (calls w)
      ++ [(item adv_loss, Some (num_iter ctr))].
Proof.
  intros Hadv Hlog Hiter Hfwd Hbce Hce Hsing mult adv_loss total.
  destruct (train_step_adversarial_logged self ctr batch w _ _ _ _ _ _
              Hadv Hlog Hiter Hfwd Hbce Hce Hsing) as (ctr'&Hrun).
  eexists _, _. split; [exact Hrun|].
  edestruct log_train_step_calls as (f1&precision&recall&_&->).
  rewrite !logged_app, !stepped_logged. cbn [calls add_call].
  rewrite !logged_app. fold mult adv_loss total.
  destruct (cfg_train_singing (cfg self)); cbn; by rewrite ?app_nil_r.
Qed.

(** X7. The step without the adversarial branch.  With
    [hyperparams.train_adv] off, a batch on which the model and the BCE
    succeed is processed, [backward()] is called on the leitmotif BCE
    alone, [num_iter] grows by one and [adv_iter] stays. *)
Theorem plain_step_loss (self : Trainer) (ctr : Counters)
    (batch : Batch) (w : World)
    (leitmotif_pred singing_pred version_pred : Tensor)
    (leitmotif_loss : Scalar) :
  hp_train_adv (hyperparams self) = false →
  forward (model w) (to (device self) (b_cqt batch))
    = Ok (leitmotif_pred, singing_pred, version_pred) →
  bce leitmotif_pred (to (device self) (b_leitmotif_gt batch))
    = Ok leitmotif_loss →
  ∃ ctr' w',
    train_step self ctr batch w = Normal ctr' w' ∧
    backpropagated (calls w') = backpropagated (calls w) ++ [leitmotif_loss] ∧
    num_iter ctr' = num_iter ctr + 1 ∧
    adv_iter ctr' = adv_iter ctr.
Proof.
  intros Hadv Hfwd Hbce.
  destruct (train_step_plain_run self ctr batch w _ _ _ _ Hadv Hfwd Hbce)
    as (ctr'&logs'&Hrun&Hl'&Hctr).
  eexists _, _. split; [exact Hrun|].
  apply train_step_counters in Hrun as Hn. destruct Hn as (Hn&_).
  split_and!; [|done..].
  rewrite add_logs_calls, stepped_calls.
  rewrite !backpropagated_app, (only_logs_backpropagated _ Hl'). cbn.
  by rewrite app_nil_r.
Qed.

End StepValues.

(** ** Where a run leaves the trainer and the disk *)

Section RunEnds.
Context `{Torch}.

Lemma range_empty (a b : Z) : b ≤ a → Py.range a b = [].
Proof. intros Hab. unfold Py.range. apply seqZ_nil. lia. Qed.

Lemma range_snoc (a b : Z) : a < b → Py.range a b = Py.range a (b - 1) ++ [b - 1].
Proof.
  intros Hab. unfold Py.range.
  replace (b - a) with ((b - 1 - a) + 1) by lia.
  rewrite seqZ_app by lia. f_equal.
  rewrite (seqZ_cons _ 1), seqZ_nil by lia. f_equal. lia.
Qed.

Lemma for_each_snoc_inv {A B : Type} (body : B → A → M B) xs x acc w b w' :
  for_each (xs ++ [x]) body acc w = Normal b w' →
  ∃ acc1 w1, for_each xs body acc w = Normal acc1 w1 ∧
             body acc1 x w1 = Normal b w'.
Proof.
  revert acc w. induction xs as [|y ys IH]; intros acc w; simpl.
  - intros Hrun. apply bind_normal_inv in Hrun as (acc1&w1&Hx&Hret).
    injection Hret as <- <-. by exists acc, w.
  - intros Hrun. apply bind_normal_inv in Hrun as (acc1&w1&Hy&Hrest).
    apply IH in Hrest as (acc2&w2&Hys&Hx). exists acc2, w2.
    split; [|done]. unfold mbind, M_bind. by rewrite Hy.
Qed.

Lemma saved_frame self w :
  model (saved self w) = model w ∧ optimizer (saved self w) = optimizer w ∧
  cur_epoch (saved self w) = cur_epoch w ∧ mixup (saved self w) = mixup w.
Proof. done. Qed.

(** X8. A run with no epoch left.  When [cur_epoch >= num_epochs] (a
    loaded checkpoint whose epoch is not below the configured
    [num_epochs], or [num_epochs <= 0]), [train] returns at once with both
    counters at 0: it has moved the model to the device and, with logging
    on, opened and closed the wandb run; no batch was drawn, nothing was
    updated or saved, the disk is as it was. *)
Theorem train_nothing_left (self : Trainer) (w : World) :
  hp_num_epochs (hyperparams self) ≤ cur_epoch w →
  ∃ w',
    train self w = Normal {| num_iter := 0; adv_iter := 0 |} w' ∧
    model w' = model_to (device self) (model w) ∧
    optimizer w' = optimizer w ∧ cur_epoch w' = cur_epoch w ∧
    files w' = files w ∧ passes w' = passes w ∧
    calls w'
    = calls w
      ++ (if cfg_log_to_wandb (cfg self)
          then [WandbInit "ring-leitmotif" (cfg_run_name (cfg self)); WandbFinish]
          else []).
Proof.
  intros Hdone. unfold train.
  destruct (cfg_log_to_wandb (cfg self)); mstep;
    rewrite (range_empty _ _ Hdone); cbn; eexists; (split; [reflexivity|]);
    cbn; split_and!; try done.
  - by rewrite <- app_assoc.
  - by rewrite app_nil_r.
Qed.

(** X9. Where a run leaves the trainer.  After a run of [train] that
    returns and had at least one epoch to do, [self.cur_epoch] is
    [num_epochs - 1], the model is in eval mode and the dataset's mixup is
    off (as the last validation phase left them), and the checkpoint file
    of that last epoch holds exactly the trainer's final epoch, model
    state and optimizer. *)
Theorem train_final_state (self : Trainer) (w : World) (ctr : Counters)
    (w' : World) :
  cur_epoch w < hp_num_epochs (hyperparams self) →
  train self w = Normal ctr w' →
  cur_epoch w' = hp_num_epochs (hyperparams self) - 1 ∧
  m_training (model w') = false ∧
  mixup w' = false ∧
  files w' !! ckpt_path (cfg self) (cur_epoch w') = Some (snapshot w').
Proof.
  intros Hlt (w1&Hloop&->)%train_inv_exact.
  rewrite (range_snoc _ _ Hlt) in Hloop.
  apply for_each_snoc_inv in Hloop as (ctr0&w0&_&Hlast).
  apply epoch_body_inv in Hlast as (ctr_t&w_t&w_v&_&Hv&->&He&_).
  pose proof (validation_phase_shape self ctr_t w_t) as Hshape.
  rewrite Hv in Hshape. destruct Hshape as (_&logs&_&Hwv).
  destruct (add_logs_frame logs (validating w_t)) as (Hm&_&_&_&_&Hx&_).
  rewrite <- Hwv in Hm, Hx.
  destruct (add_logs_frame
              (if cfg_log_to_wandb (cfg self) then [WandbFinish] else [])
              (saved self w_v)) as (Hm'&Ho'&_&Hf'&He'&Hx'&_).
  assert (Hsnap : snapshot (add_logs
                    (if cfg_log_to_wandb (cfg self) then [WandbFinish] else [])
                    (saved self w_v)) = snapshot w_v).
  { unfold snapshot. rewrite Hm', Ho', He'.
    by destruct (saved_frame self w_v) as (->&->&->&_). }
  rewrite Hsnap, He', Hf', Hm', Hx'.
  destruct (saved_frame self w_v) as (Hsm&_&Hse&Hsx). rewrite Hsm, Hse, Hsx.
  split_and!.
  - exact He.
  - by rewrite Hm.
  - by rewrite Hx.
  - rewrite saved_files. apply lookup_insert_eq.
Qed.

(** *** Runs that raise *)

Lemma train_step_frame self ctr batch w :
  let w' := final (train_step self ctr batch w) in
  files w' = files w ∧ saves (calls w') = saves (calls w).
Proof.
  cbn. pose proof (train_step_shape self ctr batch w) as Hshape.
  destruct (train_step self ctr batch w) as [ctr' w'|e w'] eqn:Hrun; cbn.
  - by apply train_step_effect in Hrun as (?&_&?&_).
  - by subst w'.
Qed.

Lemma train_loop_frame self batches ctr w :
  let w' := final (for_each batches (train_step self) ctr w) in
  files w' = files w ∧ saves (calls w') = saves (calls w).
Proof.
  cbn.
  pose proof (hoare_for_each_keeps (train_step self)
    (λ u, files u = files w ∧ saves (calls u) = saves (calls w))
    batches ctr) as Hloop.
  assert (Hkeep : hoare
    (λ u, files u = files w ∧ saves (calls u) = saves (calls w))
    (for_each batches (train_step self) ctr)
    (λ _ u, files u = files w ∧ saves (calls u) = saves (calls w))
    (λ u, files u = files w ∧ saves (calls u) = saves (calls w))).
  { apply Hloop. intros b c u (Hf&Hs).
    pose proof (train_step_frame self c b u) as Hstep. cbn in Hstep.
    destruct (train_step self c b u); cbn in Hstep;
      destruct Hstep as (Hf'&Hs'); split; congruence. }
  specialize (Hkeep w (conj eq_refl eq_refl)).
  by destruct (for_each batches (train_step self) ctr w).
Qed.

Lemma train_phase_frame self ctr epoch w :
  let w' := final (train_phase self ctr epoch w) in
  files w' = files w ∧ saves (calls w') = saves (calls w).
Proof.
  cbn. unfold train_phase, iterate. mstep.
  match goal with |- context [for_each ?bs _ ?c ?w0] =>
    exact (train_loop_frame self bs c w0)
  end.
Qed.

Lemma validation_phase_frame self ctr w :
  let w' := final (validation_phase self ctr w) in
  files w' = files w ∧ saves (calls w') = saves (calls w).
Proof.
  cbn. pose proof (validation_phase_shape self ctr w) as Hshape.
  destruct (validation_phase self ctr w) as [ctr' w'|e w'] eqn:Hrun; cbn.
  - by apply validation_phase_effect in Hrun as (_&?&_&?&_).
  - by subst w'.
Qed.

(** An epoch that raises has saved nothing. *)
Lemma epoch_body_raised self ctr epoch w e w' :
  epoch_body self ctr epoch w = Raised e w' →
  files w' = files w ∧ saves (calls w') = saves (calls w).
Proof.
  unfold epoch_body, mbind at 1, M_bind at 1.
  pose proof (train_phase_frame self ctr epoch w) as Ht.
  destruct (train_phase self ctr epoch w) as [ctr1 w1|e1 w1]; cbn in Ht;
    [|by intros [= _ <-]].
  unfold mbind at 1, M_bind at 1.
  pose proof (validation_phase_frame self ctr1 w1) as Hv.
  destruct (validation_phase self ctr1 w1) as [ctr2 w2|e2 w2]; cbn in Hv.
  - by mstep.
  - intros [= _ <-]. destruct Ht as (Hf&Hs), Hv as (Hf'&Hs').
    split; congruence.
Qed.

Lemma epoch_loop_any self epochs ctr w :
  let o := for_each epochs (epoch_body self) ctr w in
  ∃ done,
    done `prefix_of` epochs ∧
    (returned o → done = epochs) ∧
    saves (calls (final o))
      = saves (calls w) ++ ((λ e, (ckpt_path (cfg self) e, e)) <$> done) ∧
    (∀ e, e ∈ done →
       ∃ ckpt, files (final o) !! ckpt_path (cfg self) e = Some ckpt
               ∧ ck_epoch ckpt = e) ∧
    (∀ path, (∀ e, e ∈ done → path ≠ ckpt_path (cfg self) e) →
       files (final o) !! path = files w !! path).
Proof.
  cbn. revert ctr w. induction epochs as [|e es IH]; intros ctr w; simpl.
  - exists []. rewrite app_nil_r.
    split_and!; [done | done | done | by intros e ?%elem_of_nil | done].
  - unfold mbind, M_bind.
    destruct (epoch_body self ctr e w) as [ctr1 w1|ex w1] eqn:Hep.
    + apply epoch_body_effect in Hep as (Hs&(ckpt&Hck&Hf)&_).
      destruct (IH ctr1 w1) as (done&Hpre&Hret&Hs'&Hin&Hout).
      exists (e :: done). split_and!.
      * by apply prefix_cons.
      * intros Hr. by rewrite (Hret Hr).
      * rewrite Hs', Hs. by rewrite <- app_assoc.
      * intros e' [->|He']%elem_of_cons; [|by apply Hin].
        destruct (decide (e ∈ done)) as [He|He]; [by apply Hin|].
        exists ckpt. split; [|done].
        rewrite Hout, Hf; [apply lookup_insert_eq|].
        intros e' He' Heq%ckpt_path_inj. by subst e'.
      * intros path Hpath. rewrite Hout.
        -- rewrite Hf. apply lookup_insert_ne. intros Heq.
           apply (Hpath e); [apply elem_of_cons; by left | done].
        -- intros e' He'. apply Hpath. apply elem_of_cons. by right.
    + apply epoch_body_raised in Hep as (Hf&Hs). exists []. cbn.
      rewrite app_nil_r.
      split_and!; [apply prefix_nil | done | done
                   | by intros e' ?%elem_of_nil | by intros; rewrite Hf].
Qed.

(** [train], however it ends, around its epoch loop. *)
Lemma train_any self w :
  let o' :=
    for_each (Py.range (cur_epoch w) (hp_num_epochs (hyperparams self)))
             (epoch_body self) {| num_iter := 0; adv_iter := 0 |}
             (set_model (model_to (device self))
                (add_logs
                   (if cfg_log_to_wandb (cfg self)
                    then [WandbInit "ring-leitmotif" (cfg_run_name (cfg self))]
                    else []) w)) in
  ∃ fin,
    final (train self w) = add_logs fin (final o') ∧
    Forall (λ c, c = WandbFinish) fin ∧
    (returned (train self w) → returned o').
Proof.
  cbn. unfold train.
  destruct (cfg_log_to_wandb (cfg self)); mstep.
  - destruct (for_each _ _ _ _) as [ctr1 w1|e w1]; cbn.
    + exists [WandbFinish]. split; [done|]. split; [|done].
      by apply Forall_singleton.
    + by exists [].
  - destruct (for_each _ _ _ _) as [ctr1 w1|e w1]; cbn; by exists [].
Qed.

Lemma finish_saves fin : Forall (λ c : Call, c = WandbFinish) fin → saves fin = [].
Proof. induction 1 as [|c fin -> _ IH]; [done|]. exact IH. Qed.

(** X10. The checkpoints of a run, however it ends.  The epochs of the
    loop are [range(cur_epoch, num_epochs)]; when [train] ends, by
    returning or by an exception, the checkpoints it has saved are those
    of the first [k] of these epochs, in order, for some [k] (all of them
    if it returned).  Each of these files holds the checkpoint of its
    epoch, and every other file on the disk is as it was before the run:
    an exception in a later epoch leaves the checkpoints of the completed
    epochs in place. *)
Theorem checkpoints_of_any_run (self : Trainer) (w : World) :
  let o := train self w in
  ∃ done,
    done `prefix_of` Py.range (cur_epoch w) (hp_num_epochs (hyperparams self)) ∧
    (returned o →
     done = Py.range (cur_epoch w) (hp_num_epochs (hyperparams self))) ∧
    saves (calls (final o))
      = saves (calls w) ++ ((λ e, (ckpt_path (cfg self) e, e)) <$> done) ∧
    (∀ e, e ∈ done →
       ∃ ckpt, files (final o) !! ckpt_path (cfg self) e = Some ckpt
               ∧ ck_epoch ckpt = e) ∧
    (∀ path, (∀ e, e ∈ done → path ≠ ckpt_path (cfg self) e) →
       files (final o) !! path = files w !! path).
Proof.
  cbn. destruct (train_any self w) as (fin&Hfinal&Hfin&Hr). cbn in Hfinal, Hr.
  set (init := if cfg_log_to_wandb (cfg self)
               then [WandbInit "ring-leitmotif" (cfg_run_name (cfg self))]
               else []) in *.
  set (w0 := set_model (model_to (device self)) (add_logs init w)) in *.
  assert (Hw0 : files w0 = files w ∧ saves (calls w0) = saves (calls w)).
  { subst w0. cbn [files calls set_model].
    destruct (add_logs_frame init w) as (_&_&_&Hf&_).
    rewrite add_logs_calls, saves_app. split; [done|].
    subst init. destruct (cfg_log_to_wandb (cfg self)); cbn;
      by rewrite app_nil_r. }
  destruct Hw0 as (Hf0&Hs0).
  destruct (epoch_loop_any self
              (Py.range (cur_epoch w) (hp_num_epochs (hyperparams self)))
              {| num_iter := 0; adv_iter := 0 |} w0)
    as (done&Hpre&Hret&Hs&Hin&Hout).
  exists done. rewrite Hfinal.
  destruct (add_logs_frame fin
              (final (for_each
                        (Py.range (cur_epoch w) (hp_num_epochs (hyperparams self)))
                        (epoch_body self) {| num_iter := 0; adv_iter := 0 |} w0)))
    as (_&_&_&Hf&_).
  rewrite Hf, add_logs_calls, saves_app, (finish_saves _ Hfin), app_nil_r.
  rewrite Hs, Hs0.
  split_and!; [done | by intros ?%Hr%Hret | done | done |].
  intros path Hpath. by rewrite Hout, Hf0.
Qed.

End RunEnds.

(** ** Loading that fails *)

Section LoadErrors.
Context `{Torch}.

#[local] Arguments load_state_dict : simpl never.

(** X11. Resuming from a checkpoint that is not there.  When no file is
    at [cfg.load_checkpoint], [load_checkpoint] raises
    [FileNotFoundError] out of [torch.load]: the epoch counter, the model
    and the optimizer are untouched, there is no fall-back to a fresh
    start inside the method. *)
Theorem load_missing_checkpoint (self : Trainer) (w : World) :
  files w !! cfg_load_checkpoint (cfg self) = None →
  ∃ w',
    load_checkpoint self w
      = Raised (FileNotFoundError (cfg_load_checkpoint (cfg self))) w' ∧
    cur_epoch w' = cur_epoch w ∧ model w' = model w ∧
    optimizer w' = optimizer w ∧ files w' = files w.
Proof.
  intros Hnone. unfold load_checkpoint, torch_load. mstep. rewrite Hnone.
  by eexists.
Qed.

(** X12. [load_checkpoint] is not all-or-nothing: the model.  The epoch
    counter is assigned (line 38) before [model.load_state_dict] runs
    (line 39), and that call copies before it raises.  When a parameter
    of the model has no entry of its shape in the checkpoint, or the
    checkpoint has a key that names no parameter, the call raises
    [RuntimeError] and the exception leaves the method with
    [self.cur_epoch] already replaced by the checkpoint's epoch, the
    optimizer still the old one, and the model partly overwritten: every
    parameter with an entry of its shape under its name holds the content
    of that entry, the others are as they were. *)
Theorem load_model_mismatch (self : Trainer) (w : World) (ckpt : Checkpoint) :
  let entries : gmap string Tensor := list_to_map (ck_model ckpt) in
  files w !! cfg_load_checkpoint (cfg self) = Some ckpt →
  restorable ckpt = true →
  (∃ name t, (name, t) ∈ m_params (model w) ∧
     ∀ input, entries !! name = Some input →
              shape (t_data input) ≠ shape (t_data t)) ∨
  (∃ k, k ∈ (ck_model ckpt).*1 ∧ k ∉ (m_params (model w)).*1) →
  ∃ w',
    load_checkpoint self w
      = Raised (RuntimeError "Error(s) in loading state_dict") w' ∧
    cur_epoch w' = ck_epoch ckpt ∧
    optimizer w' = optimizer w ∧
    length (m_params (model w')) = length (m_params (model w)) ∧
    ∀ (i : nat) name t,
      m_params (model w) !! i = Some (name, t) →
      ∃ t', m_params (model w') !! i = Some (name, t') ∧
        match entries !! name with
        | Some input =>
            if decide (shape (t_data input) = shape (t_data t))
            then t' = copy_ t input else t' = t
        | None => t' = t
        end.
Proof.
  intros entries Hfile Hdev Hbad.
  assert (Hraise : (load_state_dict (ck_model ckpt) (model w)).2
                   = Some (RuntimeError "Error(s) in loading state_dict")).
  { unfold load_state_dict. cbn [snd]. fold entries.
    destruct (forallb (fits entries) (m_params (model w))) eqn:Hfit;
      [|done].
    destruct (forallb _ (ck_model ckpt).*1) eqn:Hkeys; [|done].
    exfalso. destruct Hbad as [(name&t&Hin&Hno)|(k&Hin&Hno)].
    - rewrite forallb_forall in Hfit.
      apply list_elem_of_In, Hfit, fits_true in Hin as (input&Hin&Hshape).
      by apply (Hno input).
    - rewrite forallb_forall in Hkeys.
      apply list_elem_of_In, Hkeys, bool_decide_eq_true in Hin. done. }
  unfold load_checkpoint, torch_load. mstep. rewrite Hfile, Hdev. mstep.
  rewrite Hraise. eexists. split; [reflexivity|].
  unfold load_state_dict.
  cbn [cur_epoch optimizer model m_params fst set_params set_model
       set_cur_epoch add_call].
  fold entries. split_and!; [done | done | by rewrite length_fmap |].
  intros i name t Hi. rewrite list_lookup_fmap, Hi. cbn.
  unfold load_param, fits. cbn.
  destruct (entries !! name) as [input|]; [|by eexists].
  destruct (decide _) as [Heq|Hne].
  - rewrite bool_decide_eq_true_2 by done. by eexists.
  - rewrite bool_decide_eq_false_2 by done. by eexists.
Qed.

(** X13. [load_checkpoint] is not all-or-nothing: the optimizer.  When
    the file is read, the model's state loads without error and
    [optimizer.load_state_dict] (line 40) raises, the exception leaves the method with the epoch counter and
    the model already replaced by the checkpoint's and the optimizer
    still the old one. *)
Theorem load_optimizer_mismatch (self : Trainer) (w : World)
    (ckpt : Checkpoint) (m : Model) (e : Exn) :
  files w !! cfg_load_checkpoint (cfg self) = Some ckpt →
  restorable ckpt = true →
  load_state_dict (ck_model ckpt) (model w) = (m, None) →
  opt_load_state_dict (ck_optimizer ckpt) (optimizer w) = Err e →
  ∃ w',
    load_checkpoint self w = Raised e w' ∧
    cur_epoch w' = ck_epoch ckpt ∧
    model w' = m ∧ optimizer w' = optimizer w.
Proof.
  intros Hfile Hdev Hm Ho. unfold load_checkpoint, torch_load. mstep.
  rewrite Hfile, Hdev. mstep. rewrite Hm. mstep. rewrite Ho. by eexists.
Qed.

(** X18. Resuming from a checkpoint written on a device the machine
    does not have.  [torch.load] is called without [map_location]: when
    a tensor of the checkpoint, in the model's state dict or in the
    optimizer state, was saved from a device that is not available, the
    call raises [RuntimeError] and [load_checkpoint] ends there, before
    line 38: the epoch counter, the model and the optimizer are
    untouched, and the loop of lines 41-44, which would have moved the
    optimizer state to [self.device], is never reached. *)
Theorem load_unavailable_device (self : Trainer) (w : World)
    (ckpt : Checkpoint) :
  files w !! cfg_load_checkpoint (cfg self) = Some ckpt →
  (∃ name t, (name, t) ∈ ck_model ckpt ∧
             device_available (t_device t) = false) ∨
  (∃ (i : nat) st (k : string) t,
     opt_state (ck_optimizer ckpt) !! i = Some st ∧
     st !! k = Some (VTensor t) ∧
     device_available (t_device t) = false) →
  ∃ msg w',
    load_checkpoint self w = Raised (RuntimeError msg) w' ∧
    cur_epoch w' = cur_epoch w ∧ model w' = model w ∧
    optimizer w' = optimizer w ∧ files w' = files w.
Proof.
  intros Hfile Hbad.
  assert (Hdev : restorable ckpt = false).
  { unfold restorable. apply andb_false_iff.
    destruct Hbad as [(name&t&Hin&Hno)|(i&st&k&t&Hst&Hk&Hno)].
    - left. destruct (forallb _ (ck_model ckpt)) eqn:Hall; [|done].
      rewrite forallb_forall in Hall.
      apply list_elem_of_In, Hall in Hin. cbn in Hin. congruence.
    - right. apply bool_decide_eq_false. intros Hall.
      specialize (Hall i st Hst k (VTensor t) Hk). cbn in Hall. congruence. }
  unfold load_checkpoint, torch_load. mstep. rewrite Hfile, Hdev.
  by eexists _, _.
Qed.

End LoadErrors.

(** ** The pretraining of the heads *)

Section Pretraining.
Context `{Torch}.

#[local] Arguments backprop_and_step : simpl never.

(** X14. The loss of a pretraining step.  In [_train_mlp_submodules], a
    batch on which the model and the losses succeed is backpropagated on
    the CE of the permuted version prediction, plus the singing BCE when
    [train_singing] is set: no leitmotif loss enters it and no ramp
    multiplier scales it. *)
Theorem pretraining_loss (self : Trainer) (train_singing : bool)
    (batch : Batch) (w : World)
    (leitmotif_pred singing_pred version_pred : Tensor)
    (version_loss singing_loss : Scalar) :
  forward (model w) (to (device self) (b_cqt batch))
    = Ok (leitmotif_pred, singing_pred, version_pred) →
  ce (permute_0_2_1 version_pred) (to (device self) (b_version_gt batch))
    = Ok version_loss →
  (train_singing = true →
   bce singing_pred (to (device self) (b_singing_gt batch)) = Ok singing_loss) →
  let loss :=
    if train_singing then sadd version_loss singing_loss else version_loss in
  ∃ w',
    mlp_step self train_singing tt batch w = Normal tt w' ∧
    calls w' = calls w ++ update_of loss ∧
    backpropagated (calls w') = backpropagated (calls w) ++ [loss].
Proof.
  intros Hfwd Hce Hsing loss.
  assert (Hrun : mlp_step self train_singing tt batch w
                 = Normal tt (stepped batch loss w)).
  { unfold mlp_step, mbind at 1 2 3, M_bind at 1 2 3, get.
    rewrite Hfwd. cbn. rewrite Hce. cbn. subst loss.
    destruct train_singing.
    - unfold mbind, M_bind. rewrite (Hsing eq_refl). cbn.
      apply backprop_and_step_normal.
    - unfold mbind, M_bind. cbn. apply backprop_and_step_normal. }
  eexists. split; [exact Hrun|].
  rewrite stepped_calls. split; [done|].
  rewrite backpropagated_app. done.
Qed.

#[local] Abbreviation pretrained w k :=
  (λ u : World,
     ∃ losses : list Scalar,
       length losses = k ∧
       calls u = calls w ++ (losses ≫= update_of) ∧
       files u = files w ∧ cur_epoch u = cur_epoch w ∧
       mixup u = true ∧ m_training (model u) = true).

Lemma mlp_step_pretrained self ts w k batch :
  hoare (pretrained w k) (mlp_step self ts tt batch)
        (λ _, pretrained w (S k)) (λ u, ∃ k', pretrained w k' u).
Proof.
  intros u (losses&Hk&Hc&Hf&He&Hx&Ht).
  pose proof (mlp_step_shape self ts batch u) as Hshape.
  destruct (mlp_step self ts tt batch u) as [[] u'|e u'].
  - destruct Hshape as (loss&->).
    destruct (stepped_frame batch loss u) as (Hf'&He'&Hx'&_&_&Ht').
    exists (losses ++ [loss]).
    rewrite length_app, stepped_calls, Hc, bind_app, Hf', He', Hx', Ht'.
    cbn. rewrite <- app_assoc. split_and!; try done. lia.
  - subst u'. exists k, losses. by split_and!.
Qed.

Lemma mlp_loop_pretrained self ts w k batches :
  hoare (pretrained w k) (for_each batches (mlp_step self ts) tt)
        (λ _, pretrained w (k + length batches)%nat) (λ u, ∃ k', pretrained w k' u).
Proof.
  pose proof (hoare_for_each (mlp_step self ts)
    (λ done _, pretrained w (k + length done)%nat)
    (λ u, ∃ k', pretrained w k' u) batches tt) as Hloop.
  cbn in Hloop. rewrite Nat.add_0_r in Hloop. apply Hloop.
  intros done b []. rewrite length_app. cbn.
  replace (k + (length done + 1))%nat with (S (k + length done)) by lia.
  apply mlp_step_pretrained.
Qed.

(** X15. What the pretraining touches.  However
    [_train_mlp_submodules] ends, the calls it has made are parameter
    updates only (zero_grad, backward, clip to 1, step; nothing is logged,
    saved or loaded), the disk and [self.cur_epoch] are as they were, and
    it leaves the model in train mode and the dataset's mixup on.  When
    it returns it has made [num_epochs * len(train_loader)] updates. *)
Theorem pretraining_footprint (self : Trainer) (num_epochs : Z)
    (train_singing : bool) (w : World) :
  let o := _train_mlp_submodules self num_epochs train_singing w in
  ∃ losses : list Scalar,
    calls (final o) = calls w ++ (losses ≫= update_of) ∧
    files (final o) = files w ∧ cur_epoch (final o) = cur_epoch w ∧
    mixup (final o) = true ∧ m_training (model (final o)) = true ∧
    (returned o →
     length losses = (Z.to_nat num_epochs * dl_len (train_loader self))%nat).
Proof.
  cbn. unfold _train_mlp_submodules.
  assert (Hloop : ∀ (epochs : list Z) (w0 : World),
    hoare (pretrained w0 0%nat)
      (for_each epochs
         (λ (_ : unit) (epoch : Z),
            batches ← iterate (train_loader self);
            for_each batches (mlp_step self train_singing) tt) tt)
      (λ _, pretrained w0 (length epochs * dl_len (train_loader self))%nat)
      (λ u, ∃ k', pretrained w0 k' u)).
  { intros epochs w0.
    pose proof (hoare_for_each
      (λ (_ : unit) (epoch : Z),
         batches ← iterate (train_loader self);
         for_each batches (mlp_step self train_singing) tt)
      (λ done _, pretrained w0 (length done * dl_len (train_loader self))%nat)
      (λ u, ∃ k', pretrained w0 k' u) epochs tt) as Hl.
    apply Hl. intros done e []. rewrite length_app. cbn.
    unfold iterate. intros u Hu. mstep.
    pose proof (mlp_loop_pretrained self train_singing w0
                  (length done * dl_len (train_loader self))%nat
                  (batches_of (train_loader self) u) (next_pass u) Hu) as Hin.
    unfold batches_of in Hin at 2. rewrite length_fmap, length_seq in Hin.
    replace ((length done + 1) * dl_len (train_loader self))%nat
      with (length done * dl_len (train_loader self)
            + dl_len (train_loader self))%nat by lia.
    exact Hin. }
  mstep.
  match goal with |- context [for_each ?es _ tt ?w0] =>
    specialize (Hloop es w0 w0);
    destruct (for_each es _ tt w0) as [[] w'|e w']
  end; cbn.
  - destruct Hloop as (losses&Hk&Hc&Hf&He&Hx&Ht).
    { exists []. cbn. by rewrite app_nil_r. }
    exists losses. cbn in Hc, Hf, He.
    split_and!; try done. intros _. by rewrite Hk, length_range, Z.sub_0_r.
  - destruct Hloop as (k&losses&Hk&Hc&Hf&He&Hx&Ht).
    { exists []. cbn. by rewrite app_nil_r. }
    exists losses. cbn in Hc, Hf, He. by split_and!.
Qed.

End Pretraining.

(** ** Names of the auxiliary heads, and [main] on a valid configuration *)

Lemma prefix_spec (sub s : string) :
  String.prefix sub s = true ↔ ∃ post, s = sub +:+ post.
Proof.
  revert s. induction sub as [|a sub IH]; intros [|b s]; simpl.
  - split; [intros _; by exists "" | done].
  - split; [intros _; by exists (String b s) | done].
  - split; [done | by intros (post&?)].
  - destruct (Ascii.ascii_dec a b) as [->|Hab].
    + rewrite IH. split; intros (post&Hs); exists post.
      * by rewrite Hs.
      * by injection Hs.
    + split; [done | intros (post&Hs); by injection Hs].
Qed.

(** [sub in s] holds exactly when [sub] occurs somewhere in [s]. *)
Lemma contains_spec (sub s : string) :
  Py.contains sub s = true ↔ ∃ pre post, s = pre +:+ sub +:+ post.
Proof.
  induction s as [|b s IH].
  - change (Py.contains sub "") with (String.prefix sub "" || false).
    rewrite orb_false_r, prefix_spec. split.
    + intros (post&Hs). by exists "", post.
    + intros ([|c pre]&post&Hs); [by exists post | done].
  - change (Py.contains sub (String b s))
      with (String.prefix sub (String b s) || Py.contains sub s).
    rewrite orb_true_iff, prefix_spec, IH. split.
    + intros [(post&Hs)|(pre&post&Hs)].
      * by exists "", post.
      * exists (String b pre), post. simpl. by rewrite Hs.
    + intros ([|c pre]&post&Hs).
      * left. by exists post.
      * right. simpl in Hs. injection Hs as -> Hs. by exists pre, post.
Qed.

Section MainRuns.
Context `{Torch} `{!Host}.

(** X16. Which parameters get the auxiliary learning rate.  In the
    optimizer that [main] builds, a parameter of the model is in the first
    group (learning rate [lr * adv_lr_multiplier]) exactly when the text
    [mlp] occurs somewhere in its name, and in the second group (learning
    rate [lr]) exactly when it does not. *)
Theorem aux_group_by_substring (hp : Hyperparams) (m : Model)
    (i : nat) (name : string) (t : Tensor) :
  m_params m !! i = Some (name, t) →
  ∃ aux backbone : ParamGroup,
    param_groups (make_optimizer hp m) = [aux; backbone] ∧
    (i ∈ pg_params aux ↔ ∃ pre post, name = pre +:+ "mlp" +:+ post) ∧
    (i ∈ pg_params backbone ↔ ¬ ∃ pre post, name = pre +:+ "mlp" +:+ post).
Proof.
  intros Hi. eexists _, _. split; [reflexivity|]. cbn.
  assert (Hin : ∀ name', (name', i) ∈ named_parameters m ↔ name' = name).
  { intros name'. unfold named_parameters. rewrite elem_of_lookup_imap.
    split.
    - intros (j&[n' t']&[= -> ->]&Hj). rewrite Hi in Hj. by injection Hj.
    - intros ->. by exists i, (name, t). }
  rewrite <- contains_spec. unfold mlp_params, backbone_params.
  split.
  - rewrite list_elem_of_fmap. split.
    + intros ([n' j]&->&[Hc Hn]%list_elem_of_filter). cbn in *.
      apply Hin in Hn as ->. by apply Is_true_true_1.
    + intros Hc. exists (name, i). split; [done|].
      apply list_elem_of_filter. split; [by apply Is_true_true_2|by apply Hin].
  - rewrite list_elem_of_fmap. split.
    + intros ([n' j]&->&[Hc Hn]%list_elem_of_filter). cbn in *.
      apply Hin in Hn as ->. by intros ?%Is_true_true_2.
    + intros Hc. exists (name, i). split; [done|].
      apply list_elem_of_filter. split; [|by apply Hin].
      cbn. by intros ?%Is_true_true_1.
Qed.

(** X17. [main] on a configuration it accepts.  When [main] returns,
    the split was ['version'] or ['act'] and the model ['RNN'] or
    ['CNN']; the run started at epoch 0 whatever [cfg.load_checkpoint]
    says ([main] never calls [load_checkpoint]) and saved one checkpoint
    for each epoch [0 .. num_epochs - 1], in order, under
    [checkpoints/{model}/{run_name}_epoch{e}.pt]; each of these files
    holds its epoch and every other file on the disk is as it was. *)
Theorem main_saves_every_epoch (c : Cfg) (hp : Hyperparams)
    (disk : gmap string Checkpoint) (eff : Effects) :
  main c hp disk = MainReturned eff →
  (cfg_split c = "version" ∨ cfg_split c = "act") ∧
  (cfg_model c = "RNN" ∨ cfg_model c = "CNN") ∧
  saves (e_calls eff)
    = (λ e, (ckpt_path c e, e)) <$> Py.range 0 (hp_num_epochs hp) ∧
  (∀ e, e ∈ Py.range 0 (hp_num_epochs hp) →
     ∃ ckpt, e_files eff !! ckpt_path c e = Some ckpt ∧ ck_epoch ckpt = e) ∧
  (∀ path, (∀ e, e ∈ Py.range 0 (hp_num_epochs hp) → path ≠ ckpt_path c e) →
     e_files eff !! path = disk !! path).
Proof.
  unfold main. cbv zeta.
  destruct (select_split c) as [e|split] eqn:Hsplit; [done|].
  destruct (select_model c hp) as [e|mdl] eqn:Hmodel; [done|].
  destruct (train _ _) as [ctr w'|e w'] eqn:Hrun; [|done].
  intros [= <-].
  apply train_inv in Hrun as (w0&w1&Hloop&Hf0&Hs0&_&Hf1&Hs1&_).
  apply epoch_loop_effect in Hloop as (Hs&Hin&Hout&_).
  cbn [cfg hyperparams new_trainer cur_epoch files calls new_world]
    in Hs, Hin, Hout, Hf0, Hs0.
  cbn [e_calls e_files effects_of].
  change (saves []) with (@nil (string * Z)) in Hs0.
  split_and!.
  - unfold select_split, Err, Ok in Hsplit. repeat case_decide; auto; done.
  - unfold select_model, Err, Ok in Hmodel. repeat case_decide; auto; done.
  - by rewrite Hs1, Hs, Hs0.
  - intros e He. rewrite Hf1. by apply Hin.
  - intros path Hpath. by rewrite Hf1, Hout, Hf0.
Qed.

End MainRuns.

(** ** The statements above on the small instance *)

Section MoreOnToy.
#[local] Existing Instances Toy.numerics Toy.torch Toy.host.

(** Two epochs of two batches, adversarial training on. *)
Lemma run_totals_witness :
  let self := Scenarios.trainer false true in
  let o := train self Toy.world in
  num_iter <$> value o = Some 4 ∧ adv_iter <$> value o = Some 4 ∧
  optimizer_steps (calls (final o)) = 4%nat.
Proof.
  intros self o.
  assert (Hrun : train self Toy.world
                 = Normal {| num_iter := 4; adv_iter := 4 |} (final o))
    by (vm_compute; reflexivity).
  destruct (run_totals self Toy.world _ _ Hrun) as (Hn&Ha&Ho).
  subst o. rewrite Hrun. split_and!; [done | done | exact Ho].
Defined.

(** The ramp of length 4 over the four steps of that run, logging on. *)
Lemma ramp_schedule_witness :
  let self := Scenarios.trainer true true in
  logged "adv/loss_multiplier" (calls (final (train self Toy.world)))
  = (λ k : Z, (Py.min 1 (inject_Z k / inject_Z 4), Some k)) <$> seqZ 0 4.
Proof.
  intros self.
  assert (Hrun : train self Toy.world
                 = Normal {| num_iter := 4; adv_iter := 4 |}
                          (final (train self Toy.world)))
    by (vm_compute; reflexivity).
  exact (ramp_schedule self Toy.world _ _ eq_refl eq_refl Hrun).
Defined.

(** After the two epochs: epoch 1, eval mode, mixup off, and the file of
    epoch 1 holds the final state. *)
Lemma train_final_state_witness :
  let self := Scenarios.trainer false false in
  let w' := final (train self Toy.world) in
  cur_epoch w' = 2 - 1 ∧ m_training (model w') = false ∧ mixup w' = false ∧
  files w' !! ckpt_path (cfg self) (cur_epoch w') = Some (snapshot w').
Proof.
  intros self w'.
  assert (Hrun : train self Toy.world
                 = Normal {| num_iter := 4; adv_iter := 0 |} w')
    by (vm_compute; reflexivity).
  exact (train_final_state self Toy.world _ w' eq_refl Hrun).
Defined.

(** The run fed by the flaky loader: the second epoch raises on its
    training batch; the checkpoint of epoch 0 is saved and in place, none
    is saved for epoch 1. *)
Example flaky_run :
  let o := train Scenarios.flaky_trainer Toy.world in
  ¬ returned o ∧
  saves (calls (final o)) = [("checkpoints/RNN/run_epoch0.pt", 0)] ∧
  ck_epoch <$> files (final o) !! "checkpoints/RNN/run_epoch0.pt" = Some 0 ∧
  files (final o) !! "checkpoints/RNN/run_epoch1.pt" = None.
Proof. vm_compute. by split_and!; [intros []|..]. Qed.

(** Resuming with an empty disk. *)
Lemma load_missing_checkpoint_witness :
  ∃ w',
    load_checkpoint (Scenarios.trainer false false) Toy.world
      = Raised (FileNotFoundError "checkpoints/RNN/run_epoch1.pt") w' ∧
    cur_epoch w' = 0 ∧ model w' = Toy.the_model ∧
    optimizer w' = optimizer Toy.world ∧ files w' = ∅.
Proof.
  exact (load_missing_checkpoint (Scenarios.trainer false false) Toy.world
           eq_refl).
Defined.

(** Resuming from a checkpoint of another architecture that shares the
    name [rnn.weight] with the model: the load raises, and by then
    [rnn.weight] holds the checkpoint's [9] in place of [5]. *)
Lemma load_model_mismatch_witness :
  ∃ w',
    load_checkpoint (Scenarios.trainer false false)
                    (Scenarios.world_with Scenarios.other_ckpt)
      = Raised (RuntimeError "Error(s) in loading state_dict") w' ∧
    cur_epoch w' = 7 ∧
    optimizer w' = optimizer Toy.world ∧
    m_params (model w') !! 0%nat = Some ("rnn.weight", Toy.tensor [9]) ∧
    m_params (model w') !! 1%nat = Some ("version_mlp.weight", Toy.tensor [7]).
Proof.
  destruct (load_model_mismatch (Scenarios.trainer false false)
              (Scenarios.world_with Scenarios.other_ckpt)
              Scenarios.other_ckpt)
    as (w'&Hrun&He&Ho&_&Hp).
  - vm_compute; reflexivity.
  - vm_compute; reflexivity.
  - right. exists "cnn.weight". split.
    + apply (bool_decide_unpack _). vm_compute. exact I.
    + apply (bool_decide_unpack _). vm_compute. exact I.
  - destruct (Hp 0%nat "rnn.weight" (Toy.tensor [5]) eq_refl) as (t0&H0&Ht0).
    destruct (Hp 1%nat "version_mlp.weight" (Toy.tensor [7]) eq_refl)
      as (t1&H1&Ht1).
    vm_compute in Ht0, Ht1. subst t0 t1.
    exists w'. split_and!; [exact Hrun | exact He | exact Ho | exact H0 | exact H1].
Defined.

(** The same with a checkpoint whose [rnn.weight] has two elements where
    the model's has one: the load raises, [rnn.weight] is left as it was
    and [version_mlp.weight], which fits, is overwritten. *)
Example load_wider_checkpoint :
  ∃ w',
    load_checkpoint (Scenarios.trainer false false)
                    (Scenarios.world_with Scenarios.wider_ckpt)
      = Raised (RuntimeError "Error(s) in loading state_dict") w' ∧
    cur_epoch w' = 7 ∧
    m_params (model w')
      = [("rnn.weight", Toy.tensor [5]); ("version_mlp.weight", Toy.tensor [2])].
Proof. eexists. split; [vm_compute; reflexivity|]. by split. Qed.

(** Entries are matched by name: the state dict of the toy model loads
    into the model that registers the parameters in the other order. *)
Example load_state_dict_any_order :
  load_state_dict (state_dict Toy.the_model) Scenarios.swapped_model
  = (set_params
       [("version_mlp.weight", Scenarios.gpu_tensor [7]);
        ("rnn.weight", Scenarios.gpu_tensor [5])]
       Scenarios.swapped_model, None).
Proof. vm_compute. reflexivity. Qed.

(** Resuming from a checkpoint whose optimizer has one group. *)
Lemma load_optimizer_mismatch_witness :
  ∃ w',
    load_checkpoint (Scenarios.trainer false false)
                    (Scenarios.world_with Scenarios.one_group_ckpt)
      = Raised (ValueError "loaded state dict has a different number of parameter groups") w' ∧
    cur_epoch w' = 7 ∧
    m_params (model w')
      = [("rnn.weight", Toy.tensor [1]); ("version_mlp.weight", Toy.tensor [2])] ∧
    optimizer w' = optimizer Toy.world.
Proof.
  destruct (load_optimizer_mismatch (Scenarios.trainer false false)
              (Scenarios.world_with Scenarios.one_group_ckpt)
              Scenarios.one_group_ckpt
              (set_params [("rnn.weight", Toy.tensor [1]);
                           ("version_mlp.weight", Toy.tensor [2])]
                          Toy.the_model)
              (ValueError "loaded state dict has a different number of parameter groups")
              ltac:(vm_compute; reflexivity) ltac:(vm_compute; reflexivity)
              ltac:(vm_compute; reflexivity) ltac:(vm_compute; reflexivity))
    as (w'&Hrun&He&Hm&Ho).
  exists w'. rewrite Hm. by split_and!.
Defined.

(** Resuming, on the machine without a GPU, from a checkpoint of the toy
    model written on a GPU. *)
Lemma load_unavailable_device_witness :
  ∃ msg w',
    load_checkpoint (Scenarios.trainer false false)
                    (Scenarios.world_with Scenarios.gpu_ckpt)
      = Raised (RuntimeError msg) w' ∧
    cur_epoch w' = 0 ∧ model w' = Toy.the_model ∧
    optimizer w' = optimizer Toy.world.
Proof.
  destruct (load_unavailable_device (Scenarios.trainer false false)
              (Scenarios.world_with Scenarios.gpu_ckpt) Scenarios.gpu_ckpt)
    as (msg&w'&Hrun&He&Hm&Ho&_).
  - vm_compute; reflexivity.
  - left. exists "rnn.weight", (Scenarios.gpu_tensor [1]).
    split; [apply elem_of_cons; by left | vm_compute; reflexivity].
  - by exists msg, w'.
Defined.

(** A trainer already at epoch 2 of 2. *)
Lemma train_nothing_left_witness :
  ∃ w',
    train (Scenarios.trainer true true) (Toy.at_epoch 2 Toy.world)
      = Normal {| num_iter := 0; adv_iter := 0 |} w' ∧
    calls w' = [WandbInit "ring-leitmotif" "run"; WandbFinish] ∧
    files w' = ∅.
Proof.
  destruct (train_nothing_left (Scenarios.trainer true true)
              (Toy.at_epoch 2 Toy.world) ltac:(vm_compute; discriminate))
    as (w'&Hrun&_&_&_&Hf&_&Hc).
  by exists w'.
Defined.

(** A pretraining step with the singing loss. *)
Lemma pretraining_loss_witness :
  ∃ w',
    mlp_step (Scenarios.trainer false false) true tt Toy.good_batch Toy.world
      = Normal tt w' ∧
    calls w' = calls Toy.world ++ update_of (Qplus 2 1) ∧
    backpropagated (calls w')
      = backpropagated (calls Toy.world) ++ [Qplus 2 1].
Proof.
  refine (pretraining_loss (Scenarios.trainer false false) true
            Toy.good_batch Toy.world
            (Toy.tensor [1; 2]) (Toy.tensor [1; 2]) (Toy.tensor [1; 2])
            2%Q 1%Q _ _ _);
    first [ reflexivity | vm_compute; congruence ].
Defined.

(** The two parameters of the toy model. *)
Lemma aux_group_by_substring_witness :
  ∃ aux backbone : ParamGroup,
    param_groups (make_optimizer (Toy.the_hyperparams true) Toy.the_model)
      = [aux; backbone] ∧
    (1%nat ∈ pg_params aux
     ↔ ∃ pre post, "version_mlp.weight" = pre +:+ "mlp" +:+ post) ∧
    (1%nat ∈ pg_params backbone
     ↔ ¬ ∃ pre post, "version_mlp.weight" = pre +:+ "mlp" +:+ post).
Proof.
  exact (aux_group_by_substring (Toy.the_hyperparams true) Toy.the_model
           1 "version_mlp.weight" (Toy.tensor [7]) eq_refl).
Defined.

(** One validation batch, logging on: its loss is the mean. *)
Lemma validation_mean_witness :
  let self := Scenarios.trainer true false in
  let o := validation_phase self {| num_iter := 0; adv_iter := 0 |} Toy.world in
  ∃ losses : list Q,
    length losses = 1%nat ∧
    logged "valid/loss" (calls (final o))
    = [((total_of losses / inject_Z 1)%Q, None)].
Proof.
  intros self o.
  assert (Hrun : validation_phase self {| num_iter := 0; adv_iter := 0 |}
                   Toy.world
                 = Normal {| num_iter := 0; adv_iter := 0 |} (final o))
    by (vm_compute; reflexivity).
  destruct (validation_mean self _ Toy.world _ _ eq_refl Hrun)
    as (losses&Hall&_&Hlog).
  exists losses. split; [|exact Hlog].
  apply Forall2_length in Hall. exact (eq_trans (eq_sym Hall) eq_refl).
Defined.

(** [main] on the toy configuration, which names a checkpoint to resume
    from: the run starts at epoch 0 all the same. *)
Lemma main_saves_every_epoch_witness :
  ∃ eff,
    main (Toy.the_cfg false) (Toy.the_hyperparams false) ∅ = MainReturned eff ∧
    saves (e_calls eff)
      = (λ e, (ckpt_path (Toy.the_cfg false) e, e)) <$> Py.range 0 2.
Proof.
  destruct (main (Toy.the_cfg false) (Toy.the_hyperparams false) ∅)
    as [eff|e eff] eqn:Hmain.
  - exists eff. split; [done|].
    by destruct (main_saves_every_epoch _ _ _ _ Hmain) as (_&_&Hs&_).
  - exfalso. vm_compute in Hmain. discriminate.
Defined.

(** A step with adversarial training off. *)
Lemma plain_step_loss_witness :
  ∃ ctr' w',
    train_step (Scenarios.trainer false false)
               {| num_iter := 5; adv_iter := 0 |} Toy.good_batch Toy.world
      = Normal ctr' w' ∧
    backpropagated (calls w') = backpropagated (calls Toy.world) ++ [2%Q] ∧
    num_iter ctr' = 5 + 1 ∧ adv_iter ctr' = 0.
Proof.
  refine (plain_step_loss (Scenarios.trainer false false)
            {| num_iter := 5; adv_iter := 0 |} Toy.good_batch Toy.world
            (Toy.tensor [1; 2]) (Toy.tensor [1; 2]) (Toy.tensor [1; 2])
            2%Q _ _ _);
    vm_compute; reflexivity.
Defined.

(** The third adversarial step of a ramp of length 4, logging on: the
    primary loss is 2, so is the version CE and the singing BCE is 1; what
    is logged as the training loss is the total, [2 + 2/4 * (2 + 1)]. *)
Lemma logged_losses_are_totals_witness :
  ∃ ctr' w',
    train_step (Scenarios.trainer true true)
               {| num_iter := 2; adv_iter := 2 |} Toy.good_batch Toy.world
      = Normal ctr' w' ∧
    logged "train/loss" (calls w')
    = logged "train/loss" (calls Toy.world)
      ++ [(Qplus 2 (Qmult (Py.min 1 (inject_Z 2 / inject_Z 4)) (Qplus 2 1)),
           Some 2)] ∧
    logged "train/total_loss" (calls w')
    = logged "train/total_loss" (calls Toy.world)
      ++ [(Qplus 2 (Qmult (Py.min 1 (inject_Z 2 / inject_Z 4)) (Qplus 2 1)),
           Some 2)] ∧
    logged "adv/version_loss" (calls w')
    = logged "adv/version_loss" (calls Toy.world) ++ [(Qplus 2 1, Some 2)].
Proof.
  refine (logged_losses_are_totals (Scenarios.trainer true true)
            {| num_iter := 2; adv_iter := 2 |} Toy.good_batch Toy.world
            (Toy.tensor [1; 2]) (Toy.tensor [1; 2]) (Toy.tensor [1; 2])
            2%Q 2%Q 1%Q _ _ _ _ _ _ _);
    first [ reflexivity | vm_compute; congruence ].
Defined.

End MoreOnToy.
